(** * Project-Znak: order / payment lifecycle

    A shallow embedding of the Go sources and of the SQL schema of the
    repository, and the properties of the lifecycle stated in the
    specification.

    - [Go]      : the pieces of the Go standard library the handlers call
                  (strings, strconv, fmt verbs, float64, crypto/sha1,
                  crypto/sha256).
    - [Models]  : internal/models/models.go.
    - [Gateway] : the stand-alone payment service ([createPayment]).
    - [Db]      : the relational tables, the triggers of DATABASE.sql, the
                  values that the columns take and the connection /
                  transaction discipline of database/sql.
    - [Api]     : the HTTP API ([registerUserHandler], [createPaymentHandler],
                  [robokassaCallbackHandler], [authMiddleware], [kizHandler]).
    - [Store]   : the transactional service ([prepareOrder], [createOrderTx],
                  [handleKIZRequest], [handlePayment],
                  [handleUserRegistration]).
    - [Http]    : requests and responses of net/http.
    - [Config]  : package config ([Load]).
    - [GatewayHttp] : the HTTP handler of the stand-alone payment service
                  ([handlePaymentRequest]).
    - [Spec]    : the words of the specification that the properties use.
    - [Samples] : the concrete requests and databases of the examples.

    The properties of the lifecycle come first; further properties of the
    code (models, configuration, handlers and how they compose) follow. *)

From Stdlib Require Import ZArith List String Ascii Bool Lia DecimalString
  DecimalPos SpecFloat.
Import ListNotations.

Open Scope string_scope.
Open Scope Z_scope.

(* ===================================================================== *)
(** * The Go standard library, as far as the handlers use it *)
(* ===================================================================== *)

Module Go.

(** A Go [error] value carries its message; [nil] is the absence of one. *)
Inductive result (A : Type) : Type :=
| Ok (a : A)
| Err (msg : string).
Arguments Ok {A} a.
Arguments Err {A} msg.

Definition is_ok {A} (r : result A) : bool :=
  match r with Ok _ => true | Err _ => false end.

(** ** Strings.  A Go string is a sequence of bytes, as a Rocq [string]. *)

Definition nl : string := String (ascii_of_nat 10) EmptyString.

(** [strings.HasPrefix s prefix] *)
Definition HasPrefix (s prefix : string) : bool := String.prefix prefix s.

(** [len(s) == 0], that is [s == ""] *)
Definition is_empty (s : string) : bool :=
  match s with EmptyString => true | String _ _ => false end.

(** ** Integers.  [int] is 64 bits wide on the platforms of the Dockerfile. *)

Definition minInt : Z := - 2 ^ 63.
Definition maxInt : Z := 2 ^ 63 - 1.

(** [strconv.Itoa] and the [%d] verb. *)
Definition Itoa (z : Z) : string := NilZero.string_of_int (Z.to_int z).

Definition is_digit (c : ascii) : bool :=
  let n := Z.of_nat (nat_of_ascii c) in (48 <=? n) && (n <=? 57).

Definition digit_val (c : ascii) : Z := Z.of_nat (nat_of_ascii c) - 48.

Fixpoint parse_digits (acc : Z) (s : string) : option Z :=
  match s with
  | EmptyString => Some acc
  | String c rest =>
      if is_digit c then parse_digits (10 * acc + digit_val c) rest else None
  end.

(** [strconv.Atoi]: an optional sign, then one decimal digit at least and
    nothing else; a value outside of [int] is a range error. *)
Definition Atoi (s : string) : result Z :=
  let '(neg, body) :=
    match s with
    | String "+"%char rest => (false, rest)
    | String "-"%char rest => (true, rest)
    | _ => (false, s)
    end in
  if is_empty body then Err "invalid syntax"
  else match parse_digits 0 body with
       | None => Err "invalid syntax"
       | Some n =>
           let v := if neg then - n else n in
           if (minInt <=? v) && (v <=? maxInt) then Ok v
           else Err "value out of range"
       end.

(** ** Bytes and the [%x] verb *)

Definition hex_digit (n : Z) : ascii :=
  ascii_of_nat (Z.to_nat (if n <? 10 then 48 + n else 87 + n)).

Definition hex_byte (c : ascii) : string :=
  let n := Z.of_nat (nat_of_ascii c) in
  String (hex_digit (n / 16)) (String (hex_digit (n mod 16)) EmptyString).

(** [fmt.Sprintf("%x", b)] for a byte slice or byte array [b]. *)
Fixpoint hex (b : string) : string :=
  match b with
  | EmptyString => EmptyString
  | String c rest => hex_byte c ++ hex rest
  end.

(** The byte that two hexadecimal digits denote, as [encoding/hex] reads
    them back. *)
Definition unhex_digit (c : ascii) : Z :=
  let n := Z.of_nat (nat_of_ascii c) in if n <? 58 then n - 48 else n - 87.

Fixpoint unhex (s : string) : string :=
  match s with
  | String a (String b rest) =>
      String (ascii_of_nat (Z.to_nat (16 * unhex_digit a + unhex_digit b)))
             (unhex rest)
  | _ => EmptyString
  end.

Definition byte_of_Z (n : Z) : ascii := ascii_of_nat (Z.to_nat (n mod 256)).

Definition bytes_of_string (s : string) : list Z :=
  map (fun c => Z.of_nat (nat_of_ascii c)) (list_ascii_of_string s).

Definition string_of_bytes (l : list Z) : string :=
  string_of_list_ascii (map byte_of_Z l).

(** ** 32-bit words, for the two digests *)

Definition w32 (x : Z) : Z := Z.land x 0xFFFFFFFF.
Definition add32 (x y : Z) : Z := w32 (x + y).
Definition rotl (n x : Z) : Z := w32 (Z.lor (Z.shiftl x n) (Z.shiftr x (32 - n))).
Definition rotr (n x : Z) : Z := rotl (32 - n) x.
Definition not32 (x : Z) : Z := Z.lxor x 0xFFFFFFFF.

(** Big-endian bytes of a word of [n] bytes. *)
Fixpoint be_bytes (n : nat) (x : Z) : list Z :=
  match n with
  | O => []
  | S k => Z.shiftr x (8 * Z.of_nat k) mod 256 :: be_bytes k x
  end.

Fixpoint be_word (acc : Z) (l : list Z) : Z :=
  match l with
  | [] => acc
  | b :: rest => be_word (acc * 256 + b) rest
  end.

(** The message followed by [0x80], zeros up to 56 modulo 64, and the bit
    length on eight bytes. *)
Definition pad (msg : list Z) : list Z :=
  let len := Z.of_nat (List.length msg) in
  let zeros := Z.to_nat ((55 - len) mod 64) in
  msg ++ [0x80] ++ repeat 0 zeros ++ be_bytes 8 (8 * len).

Fixpoint words_of (fuel : nat) (l : list Z) : list Z :=
  match fuel, l with
  | S k, a :: b :: c :: d :: rest => be_word 0 [a; b; c; d] :: words_of k rest
  | _, _ => []
  end.

Fixpoint blocks_of (fuel : nat) (ws : list Z) : list (list Z) :=
  match fuel with
  | O => []
  | S k =>
      match ws with
      | [] => []
      | _ => firstn 16 ws :: blocks_of k (skipn 16 ws)
      end
  end.

Definition blocks (msg : string) : list (list Z) :=
  let p := pad (bytes_of_string msg) in
  let ws := words_of (List.length p) p in
  blocks_of (List.length ws) ws.

Definition wnth (i : nat) (ws : list Z) : Z := nth i ws 0.

(** ** [crypto/sha1]

    The 80 rounds run over a sliding window of the last sixteen words of
    the message schedule: the head of the window is the word of the current
    round. *)

Record sha1_state := { s1a : Z; s1b : Z; s1c : Z; s1d : Z; s1e : Z }.

Definition sha1_init : sha1_state :=
  {| s1a := 0x67452301; s1b := 0xEFCDAB89; s1c := 0x98BADCFE;
     s1d := 0x10325476; s1e := 0xC3D2E1F0 |}.

Definition sha1_f (t : Z) (b c d : Z) : Z :=
  if t <? 20 then Z.lor (Z.land b c) (Z.land (not32 b) d)
  else if t <? 40 then Z.lxor (Z.lxor b c) d
  else if t <? 60 then Z.lor (Z.lor (Z.land b c) (Z.land b d)) (Z.land c d)
  else Z.lxor (Z.lxor b c) d.

Definition sha1_k (t : Z) : Z :=
  if t <? 20 then 0x5A827999
  else if t <? 40 then 0x6ED9EBA1
  else if t <? 60 then 0x8F1BBCDC
  else 0xCA62C1D6.

Definition sha1_next_word (win : list Z) : Z :=
  rotl 1 (Z.lxor (Z.lxor (wnth 13 win) (wnth 8 win))
                 (Z.lxor (wnth 2 win) (wnth 0 win))).

Fixpoint sha1_rounds (n : nat) (t : Z) (win : list Z) (s : sha1_state)
  : sha1_state :=
  match n with
  | O => s
  | S k =>
      let w := wnth 0 win in
      let temp :=
        add32 (add32 (add32 (add32 (rotl 5 (s1a s))
                                   (sha1_f t (s1b s) (s1c s) (s1d s)))
                            (s1e s))
                     (sha1_k t))
              w in
      sha1_rounds k (t + 1) (tl win ++ [sha1_next_word win])
        {| s1a := temp; s1b := s1a s; s1c := rotl 30 (s1b s);
           s1d := s1c s; s1e := s1d s |}
  end.

Definition sha1_block (h : sha1_state) (blk : list Z) : sha1_state :=
  let r := sha1_rounds 80 0 blk h in
  {| s1a := add32 (s1a h) (s1a r); s1b := add32 (s1b h) (s1b r);
     s1c := add32 (s1c h) (s1c r); s1d := add32 (s1d h) (s1d r);
     s1e := add32 (s1e h) (s1e r) |}.

(** [sha1.Sum(data)]: the 20 bytes of the digest. *)
Definition sha1_Sum (data : string) : string :=
  let h := fold_left sha1_block (blocks data) sha1_init in
  string_of_bytes
    (flat_map (be_bytes 4) [s1a h; s1b h; s1c h; s1d h; s1e h]).

(** ** [crypto/sha256] *)

(** The constants of SHA-256 are the first 32 bits of the fractional parts
    of the cube roots (round constants) and of the square roots (initial
    state) of the first primes. *)
Definition first_primes : list Z :=
  [2; 3; 5; 7; 11; 13; 17; 19; 23; 29; 31; 37; 41; 43; 47; 53; 59; 61; 67; 71;
   73; 79; 83; 89; 97; 101; 103; 107; 109; 113; 127; 131; 137; 139; 149; 151;
   157; 163; 167; 173; 179; 181; 191; 193; 197; 199; 211; 223; 227; 229; 233;
   239; 241; 251; 257; 263; 269; 271; 277; 281; 283; 293; 307; 311].

(** The largest [r] below [2 ^ bits] with [r ^ 3 <= n], bit by bit. *)
Fixpoint cube_root (bits : nat) (n r : Z) : Z :=
  match bits with
  | O => r
  | S b =>
      let r' := r + 2 ^ Z.of_nat b in
      cube_root b n (if r' ^ 3 <=? n then r' else r)
  end.

Definition sha256_K : list Z :=
  Eval vm_compute in
    map (fun p => w32 (cube_root 40 (p * 2 ^ 96) 0)) first_primes.

Definition sha256_init : list Z :=
  Eval vm_compute in
    map (fun p => w32 (Z.sqrt (p * 2 ^ 64))) (firstn 8 first_primes).

Definition ssig0 (x : Z) : Z :=
  Z.lxor (Z.lxor (rotr 7 x) (rotr 18 x)) (Z.shiftr x 3).
Definition ssig1 (x : Z) : Z :=
  Z.lxor (Z.lxor (rotr 17 x) (rotr 19 x)) (Z.shiftr x 10).
Definition bsig0 (x : Z) : Z :=
  Z.lxor (Z.lxor (rotr 2 x) (rotr 13 x)) (rotr 22 x).
Definition bsig1 (x : Z) : Z :=
  Z.lxor (Z.lxor (rotr 6 x) (rotr 11 x)) (rotr 25 x).
Definition ch (x y z : Z) : Z := Z.lxor (Z.land x y) (Z.land (not32 x) z).
Definition maj (x y z : Z) : Z :=
  Z.lxor (Z.lxor (Z.land x y) (Z.land x z)) (Z.land y z).

Definition sha256_next_word (win : list Z) : Z :=
  add32 (add32 (ssig1 (wnth 14 win)) (wnth 9 win))
        (add32 (ssig0 (wnth 1 win)) (wnth 0 win)).

Fixpoint sha256_rounds (ks : list Z) (win : list Z) (s : list Z) : list Z :=
  match ks with
  | [] => s
  | k :: ks' =>
      let a := wnth 0 s in let b := wnth 1 s in
      let c := wnth 2 s in let d := wnth 3 s in
      let e := wnth 4 s in let f := wnth 5 s in
      let g := wnth 6 s in let h := wnth 7 s in
      let t1 := add32 (add32 (add32 (add32 h (bsig1 e)) (ch e f g)) k)
                      (wnth 0 win) in
      let t2 := add32 (bsig0 a) (maj a b c) in
      sha256_rounds ks' (tl win ++ [sha256_next_word win])
        [add32 t1 t2; a; b; c; add32 d t1; e; f; g]
  end.

Fixpoint zip_add32 (xs ys : list Z) : list Z :=
  match xs, ys with
  | x :: xs', y :: ys' => add32 x y :: zip_add32 xs' ys'
  | _, _ => []
  end.

Definition sha256_block (h : list Z) (blk : list Z) : list Z :=
  zip_add32 h (sha256_rounds sha256_K blk h).

(** [crypto.SHA256.New()], [Write(data)], [Sum(nil)]: the 32 bytes of the
    digest. *)
Definition sha256_Sum (data : string) : string :=
  string_of_bytes
    (flat_map (be_bytes 4) (fold_left sha256_block (blocks data) sha256_init)).

(** ** [float64]: IEEE 754 binary64 *)

Definition float64 : Type := spec_float.

Definition f64_of_int (z : Z) : float64 := binary_normalize 53 1024 z 0 false.
Definition f64_zero : float64 := S754_zero false.
Definition f64_add (x y : float64) : float64 := SFadd 53 1024 x y.
Definition f64_mul (x y : float64) : float64 := SFmul 53 1024 x y.
Definition f64_ltb (x y : float64) : bool := SFltb x y.
Definition f64_leb (x y : float64) : bool := SFleb x y.

(** ** More of [strings], [strconv] and [os] *)

(** [strings.Contains(s, substr)] *)
Fixpoint Contains (s substr : string) : bool :=
  String.prefix substr s
  || match s with
     | EmptyString => false
     | String _ rest => Contains rest substr
     end.

(** [strings.Join(elems, sep)] *)
Fixpoint Join (elems : list string) (sep : string) : string :=
  match elems with
  | [] => ""
  | e :: rest =>
      match rest with
      | [] => e
      | _ :: _ => e ++ sep ++ Join rest sep
      end
  end.

(** [strconv.ParseInt(s, 10, 64)]: [int] being 64 bits wide, the value and
    the failures are those of [Atoi]. *)
Definition ParseInt64 (s : string) : result Z := Atoi s.

(** The characters that [%x] writes. *)
Definition is_lower_hex (c : ascii) : bool :=
  let n := Z.of_nat (nat_of_ascii c) in
  ((48 <=? n) && (n <=? 57)) || ((97 <=? n) && (n <=? 102)).

(** A float64 that is not a number: every comparison with it is false. *)
Definition f64_is_nan (x : float64) : bool :=
  match x with S754_nan => true | _ => false end.

(** The environment of the process: the value of a variable that is set. *)
Definition Environ : Type := string -> option string.

(** [os.LookupEnv(key)] *)
Definition LookupEnv (environ : Environ) (key : string) : string * bool :=
  match environ key with
  | Some value => (value, true)
  | None => ("", false)
  end.

(** [os.Getenv(key)] *)
Definition Getenv (environ : Environ) (key : string) : string :=
  fst (LookupEnv environ key).

End Go.

Import Go.

(* ===================================================================== *)
(** * internal/models/models.go *)
(* ===================================================================== *)

Module Models.

(** Go's [error] as returned by the [Validate] methods: [None] is [nil]. *)
Definition error : Type := option string.

Definition OrderStatusCreated : string := "created".
Definition OrderStatusPending : string := "pending".
Definition OrderStatusPaid : string := "paid".
Definition OrderStatusProcessed : string := "processed".
Definition OrderStatusCompleted : string := "completed".
Definition OrderStatusCancelled : string := "cancelled".
Definition OrderStatusRefunded : string := "refunded".

Definition PaymentStatusPending : string := "pending".
Definition PaymentStatusProcessing : string := "processing".
Definition PaymentStatusCompleted : string := "completed".
Definition PaymentStatusFailed : string := "failed".
Definition PaymentStatusRefunded : string := "refunded".
Definition PaymentStatusCancelled : string := "cancelled".

(** [type User struct]; the times are in nanoseconds. *)
Record User := {
  user_ID : Z;
  user_FirstName : string;
  user_LastName : string;
  user_MiddleName : string;
  user_INN : string;
  user_TelegramID : Z;
  user_Email : string;
  user_Username : string;
  user_IsAdmin : bool;
  user_RegisteredAt : Z;
  user_LastActive : Z;
  user_APIKey : string }.

(** [type OrderItem struct] *)
Record OrderItem := {
  item_ID : Z;
  item_GTIN : string;
  item_Quantity : Z;
  item_Price : float64 }.

(** [func (oi *OrderItem) Validate() error] *)
Definition OrderItem_Validate (oi : OrderItem) : error :=
  if is_empty (item_GTIN oi) then
    Some "GTIN не может быть пустым"
  else if item_Quantity oi <=? 0 then
    Some "количество должно быть положительным числом"
  else None.

(** [type Order struct]; the times are in nanoseconds. *)
Record Order := {
  order_ID : Z;
  order_UserID : Z;
  order_Items : list OrderItem;
  order_TotalAmount : float64;
  order_Status : string;
  order_PaymentID : string;
  order_CreatedAt : Z;
  order_UpdatedAt : Z }.

(** The loop [for i, item := range o.Items] of [Order.Validate]. *)
Fixpoint validate_items (i : Z) (items : list OrderItem) : error :=
  match items with
  | [] => None
  | item :: rest =>
      match OrderItem_Validate item with
      | Some err => Some ("ошибка в товаре #" ++ Itoa (i + 1) ++ ": " ++ err)
      | None => validate_items (i + 1) rest
      end
  end.

(** [func (o *Order) Validate() error] *)
Definition Order_Validate (o : Order) : error :=
  if order_UserID o <=? 0 then
    Some "ID пользователя должен быть положительным числом"
  else if (List.length (order_Items o) =? 0)%nat then
    Some "заказ должен содержать хотя бы один товар"
  else match validate_items 0 (order_Items o) with
       | Some err => Some err
       | None =>
           if f64_leb (order_TotalAmount o) f64_zero then
             Some "сумма заказа должна быть положительным числом"
           else None
       end.

(** [func (o *Order) CalculateTotal() float64] *)
Definition Order_CalculateTotal (o : Order) : float64 :=
  fold_left
    (fun total item =>
       if f64_ltb f64_zero (item_Price item) then
         f64_add total (f64_mul (f64_of_int (item_Quantity item)) (item_Price item))
       else total)
    (order_Items o) f64_zero.

(** [type Payment struct] *)
Record Payment := {
  payment_ID : Z;
  payment_OrderID : Z;
  payment_Amount : float64;
  payment_Status : string;
  payment_TransactionID : string;
  payment_CreatedAt : Z;
  payment_CompletedAt : option Z;
  payment_Currency : string }.

(** [func (u *User) Validate() error] *)
Definition User_Validate (u : User) : error :=
  if user_TelegramID u <=? 0 then
    Some "telegram_id должен быть положительным числом"
  else if is_empty (user_INN u) then
    Some "ИНН не может быть пустым"
  else if negb (is_empty (user_Email u)) && negb (Contains (user_Email u) "@") then
    Some "некорректный формат email"
  else None.

(** [func (u *User) FullName() string] *)
Definition User_FullName (u : User) : string :=
  let parts := [] in
  let parts :=
    if negb (is_empty (user_LastName u)) then (parts ++ [user_LastName u])%list
    else parts in
  let parts :=
    if negb (is_empty (user_FirstName u)) then (parts ++ [user_FirstName u])%list
    else parts in
  let parts :=
    if negb (is_empty (user_MiddleName u)) then (parts ++ [user_MiddleName u])%list
    else parts in
  Join parts " ".

(** [func (o *Order) IsValidStatus(status string) bool] *)
Definition Order_IsValidStatus (o : Order) (status : string) : bool :=
  existsb (fun s => String.eqb s status)
    [OrderStatusCreated; OrderStatusPending; OrderStatusPaid;
     OrderStatusProcessed; OrderStatusCompleted; OrderStatusCancelled;
     OrderStatusRefunded].

(** [func (p *Payment) Validate() error] *)
Definition Payment_Validate (p : Payment) : error :=
  if payment_OrderID p <=? 0 then
    Some "ID заказа должен быть положительным числом"
  else if f64_leb (payment_Amount p) f64_zero then
    Some "сумма платежа должна быть положительным числом"
  else None.

(** [func (p *Payment) IsValidStatus(status string) bool] *)
Definition Payment_IsValidStatus (p : Payment) (status : string) : bool :=
  existsb (fun s => String.eqb s status)
    [PaymentStatusPending; PaymentStatusProcessing; PaymentStatusCompleted;
     PaymentStatusFailed; PaymentStatusRefunded; PaymentStatusCancelled].

(** [func (p *Payment) IsCompleted() bool] *)
Definition Payment_IsCompleted (p : Payment) : bool :=
  String.eqb (payment_Status p) PaymentStatusCompleted.

End Models.

(* ===================================================================== *)
(** * The stand-alone payment service: [createPayment] *)
(* ===================================================================== *)

Module Gateway.

(** [type Config struct] of this service; [config] is its package-level
    variable, read by [createPayment]. *)
Record Config := {
  ChestnyZnakAPIURL : string;
  PrivateKeyPath : string;
  CertificatePath : string;
  TelegramBotToken : string;
  TelegramChatID : Z;
  RobokassaLogin : string;
  RobokassaPassword : string;
  Port : string }.

Record PaymentRequestData := {
  Amount : float64;
  OrderID : string }.

Record PaymentResponse := {
  Status : string;
  Message : string;
  PaymentURL : string }.

Section CreatePayment.

(** The [%g] verb of [fmt] on a float64 (shortest decimal text that
    reads back as the same number). *)
Variable fmt_g : float64 -> string.

Variable config : Config.

(** [func createPayment(ctx, requestData) (PaymentResponse, error)];
    [ctx_err] is [Some e] once the context is done, with [e] the text of
    [ctx.Err()]. *)
Definition createPayment (ctx_err : option string)
    (requestData : PaymentRequestData) : PaymentResponse * option string :=
  if f64_leb (Amount requestData) f64_zero then
    ({| Status := "error"; Message := "Некорректная сумма платежа";
        PaymentURL := "" |},
     Some "сумма платежа должна быть положительной")
  else if is_empty (OrderID requestData) then
    ({| Status := "error"; Message := "Не указан ID заказа";
        PaymentURL := "" |},
     Some "отсутствует ID заказа")
  else match ctx_err with
  | Some e =>
    ({| Status := "error"; Message := "Операция отменена";
        PaymentURL := "" |}, Some e)
  | None =>
    let signatureStr :=
      RobokassaLogin config ++ ":" ++ fmt_g (Amount requestData) ++ ":"
      ++ OrderID requestData ++ ":" ++ RobokassaPassword config in
    let signature := hex (sha256_Sum signatureStr) in
    let paymentURL :=
      "https://auth.robokassa.ru/Merchant/Index.aspx?MerchantLogin="
      ++ RobokassaLogin config
      ++ "&OutSum=" ++ fmt_g (Amount requestData)
      ++ "&InvId=" ++ OrderID requestData
      ++ "&SignatureValue=" ++ signature in
    ({| Status := "success"; Message := "URL для оплаты сформирован";
        PaymentURL := paymentURL |}, None)
  end.

End CreatePayment.

Section Configuration.

Variable environ : Environ.

(** [func getEnv(key, defaultValue string) string] *)
Definition getEnv (key defaultValue : string) : string :=
  let value := Getenv environ key in
  if is_empty value then defaultValue else value.

(** [func getIntEnv(key string, defaultValue int64) int64] *)
Definition getIntEnv (key : string) (defaultValue : Z) : Z :=
  let valStr := Getenv environ key in
  if is_empty valStr then defaultValue
  else match ParseInt64 valStr with
       | Err _ => defaultValue
       | Ok val => val
       end.

(** [func loadConfig() Config] *)
Definition loadConfig : Config :=
  {| ChestnyZnakAPIURL :=
       getEnv "CHESTNY_ZNAK_API_URL" "https://example.chestnyznak.ru/api/v3/";
     PrivateKeyPath := getEnv "PRIVATE_KEY_PATH" "";
     CertificatePath := getEnv "CERTIFICATE_PATH" "";
     TelegramBotToken := getEnv "TELEGRAM_BOT_TOKEN" "";
     TelegramChatID := getIntEnv "TELEGRAM_CHAT_ID" 0;
     RobokassaLogin := getEnv "ROBOKASSA_LOGIN" "";
     RobokassaPassword := getEnv "ROBOKASSA_PASSWORD" "";
     Port := getEnv "PORT" "8080" |}.

End Configuration.

(** [func validateConfig(cfg Config) error]; the warning about the paths of
    the signing key is only logged. *)
Definition validateConfig (cfg : Config) : option string :=
  if is_empty (TelegramBotToken cfg) || (TelegramChatID cfg =? 0) then
    Some "необходимо указать токен бота и ID чата Telegram"
  else if is_empty (RobokassaLogin cfg) || is_empty (RobokassaPassword cfg) then
    Some "необходимо указать логин и пароль Robokassa"
  else None.

End Gateway.

(* ===================================================================== *)
(** * Package config *)
(* ===================================================================== *)

Module Config.

(** [time.Second], in nanoseconds as a [time.Duration] counts. *)
Definition Second : Z := 1000000000.

Record ServerConfig := {
  Server_Port : string;
  ReadTimeout : Z;
  WriteTimeout : Z;
  IdleTimeout : Z }.

Record DatabaseConfig := {
  Host : string;
  Database_Port : string;
  User : string;
  Password : string;
  Name : string;
  SSLMode : string }.

Record APIConfig := {
  URL : string;
  APIKey : string;
  Timeout : Z }.

Record LoggingConfig := {
  Level : string;
  File : string }.

Record Config := {
  Server : ServerConfig;
  Database : DatabaseConfig;
  API : APIConfig;
  Logging : LoggingConfig }.

(** [func (c *Config) validate() error] *)
Definition validate (c : Config) : option string :=
  if is_empty (Password (Database c)) then Some "пароль базы данных не указан"
  else if is_empty (APIKey (API c)) then Some "API ключ не указан"
  else None.

Section Load.

Variable environ : Environ.

(** [time.ParseDuration] *)
Variable ParseDuration : string -> result Z.

(** [func getEnv(key, defaultValue string) string] *)
Definition getEnv (key defaultValue : string) : string :=
  let value := Getenv environ key in
  if negb (is_empty value) then value else defaultValue.

(** [func getDurationEnv(key string, defaultValue time.Duration)
     time.Duration] *)
Definition getDurationEnv (key : string) (defaultValue : Z) : Z :=
  let value := Getenv environ key in
  if negb (is_empty value) then
    match ParseDuration value with
    | Ok duration => duration
    | Err _ => defaultValue
    end
  else defaultValue.

(** [func Load()], which returns the configuration or an error *)
Definition Load : result Config :=
  let cfg :=
    {| Server :=
         {| Server_Port := getEnv "SERVER_PORT" "8080";
            ReadTimeout := getDurationEnv "SERVER_READ_TIMEOUT" (15 * Second);
            WriteTimeout := getDurationEnv "SERVER_WRITE_TIMEOUT" (15 * Second);
            IdleTimeout := getDurationEnv "SERVER_IDLE_TIMEOUT" (60 * Second) |};
       Database :=
         {| Host := getEnv "DB_HOST" "localhost";
            Database_Port := getEnv "DB_PORT" "5432";
            User := getEnv "DB_USER" "postgres";
            Password := getEnv "DB_PASSWORD" "";
            Name := getEnv "DB_NAME" "znak_db";
            SSLMode := getEnv "DB_SSL_MODE" "disable" |};
       API :=
         {| URL := getEnv "CHESTNY_ZNAK_API_URL" "https://api.stage.mdlp.crpt.ru";
            APIKey := getEnv "CHESTNY_ZNAK_API_KEY" "";
            Timeout := getDurationEnv "API_TIMEOUT" (30 * Second) |};
       Logging :=
         {| Level := getEnv "LOG_LEVEL" "info";
            File := getEnv "LOG_FILE" "" |} |} in
  match validate cfg with
  | Some err => Err ("ошибка валидации конфигурации: " ++ err)
  | None => Ok cfg
  end.

End Load.

End Config.

(* ===================================================================== *)
(** * net/http: requests, responses, status codes *)
(* ===================================================================== *)

Module Http.

Definition StatusOK : Z := 200.
Definition StatusCreated : Z := 201.
Definition StatusBadRequest : Z := 400.
Definition StatusUnauthorized : Z := 401.
Definition StatusForbidden : Z := 403.
Definition StatusNotFound : Z := 404.
Definition StatusMethodNotAllowed : Z := 405.
Definition StatusInternalServerError : Z := 500.

Definition MethodGet : string := "GET".
Definition MethodPost : string := "POST".

(** The values the handlers put into their JSON answers. *)
Inductive JValue : Type :=
| JString (s : string)
| JNumber (n : Z)
| JStrings (l : list string).

(** What was written to the [http.ResponseWriter]: plain text
    ([http.Error], [w.Write]) or a JSON object, given by its fields. *)
Inductive Payload : Type :=
| Text (s : string)
| JSON (fields : list (string * JValue)).

Record Response := {
  StatusCode : Z;
  Content : Payload }.

(** [http.Error(w, msg, code)] *)
Definition Error (msg : string) (code : Z) : Response :=
  {| StatusCode := code; Content := Text (msg ++ nl) |}.

(** [w.Write(b)] with no status written before: 200. *)
Definition Write (b : string) : Response :=
  {| StatusCode := StatusOK; Content := Text b |}.

Fixpoint assoc (k : string) (l : list (string * string)) : string :=
  match l with
  | [] => ""
  | (k', v) :: rest => if String.eqb k k' then v else assoc k rest
  end.

(** A request whose JSON body decodes into a [B] ([Body] is the outcome of
    [json.NewDecoder(r.Body).Decode]).  [Header] has the canonical header
    names of net/http; [Form] is [r.Form] after [ParseForm]; [ctx_userID]
    is the value under [userIDKey] in the request context. *)
Record Request (B : Type) := {
  Method : string;
  Path : string;
  Header : list (string * string);
  Form : list (string * string);
  Body : result B;
  ctx_userID : option Z }.
Arguments Method {B} r.
Arguments Path {B} r.
Arguments Header {B} r.
Arguments Form {B} r.
Arguments Body {B} r.
Arguments ctx_userID {B} r.

(** [r.Header.Get("X-API-Key")]: the first value of the header, or [""]. *)
Definition Header_Get {B} (r : Request B) (canonical_key : string) : string :=
  assoc canonical_key (Header r).

(** [r.FormValue(key)]: the first value of the parameter, or [""]. *)
Definition FormValue {B} (r : Request B) (key : string) : string :=
  assoc key (Form r).

(** [r.WithContext(context.WithValue(r.Context(), userIDKey, userID))] *)
Definition WithUserID {B} (r : Request B) (userID : Z) : Request B :=
  {| Method := Method r; Path := Path r; Header := Header r;
     Form := Form r; Body := Body r; ctx_userID := Some userID |}.

(** [r.URL.Query().Get(key)] of a GET request: its form is the query of
    its URL. *)
Definition Query_Get {B} (r : Request B) (key : string) : string :=
  assoc key (Form r).

End Http.

(* ===================================================================== *)
(** * The stand-alone payment service: its HTTP handler *)
(* ===================================================================== *)

Module GatewayHttp.

Import Http.

(** A request to the service: the method, the query of the URL, the
    outcome of decoding the body (at most 1 MB of it) and the state of the
    request's context. *)
Record Call := {
  call_Method : string;
  call_Query : list (string * string);
  call_Body : result Gateway.PaymentRequestData;
  call_ctx_err : option string }.

(** [json.NewEncoder(w).Encode(response)] for a [PaymentResponse] *)
Definition encode_PaymentResponse (p : Gateway.PaymentResponse)
  : list (string * JValue) :=
  [("status", JString (Gateway.Status p));
   ("message", JString (Gateway.Message p))]
  ++ (if is_empty (Gateway.PaymentURL p) then []
      else [("payment_url", JString (Gateway.PaymentURL p))]).

Section Handlers.

Variable fmt_g : float64 -> string.
Variable config : Gateway.Config.

(** [func handlePaymentRequest(w http.ResponseWriter, r *http.Request)];
    the telegram id is parsed and logged, and an error of [createPayment]
    is logged. *)
Definition handlePaymentRequest (r : Call) : Response :=
  if negb (String.eqb (call_Method r) MethodPost) then
    Error "Метод не поддерживается" StatusMethodNotAllowed
  else
    let telegramIDStr := assoc "telegram_id" (call_Query r) in
    let parsed :=
      if is_empty telegramIDStr then Ok 0 else ParseInt64 telegramIDStr in
    match parsed with
    | Err _ => Error "Некорректный идентификатор пользователя" StatusBadRequest
    | Ok telegramID =>
      match call_Body r with
      | Err _ => Error "Некорректный формат запроса" StatusBadRequest
      | Ok data =>
        let '(response, err) :=
          Gateway.createPayment fmt_g config (call_ctx_err r) data in
        {| StatusCode := StatusOK;
           Content := JSON (encode_PaymentResponse response) |}
      end
    end.

End Handlers.

End GatewayHttp.

(* ===================================================================== *)
(** * The relational store *)
(* ===================================================================== *)

Module Db.

Definition timestamp : Type := Z.

(** The names that the transactional service stores with a user
    ([first_name], [last_name], [middle_name], [username]). *)
Record UserNames := {
  first_name : string;
  last_name : string;
  middle_name : string;
  username : string }.

(** [users]; the API calls [created_at] what DATABASE.sql and the
    transactional service call [registered_at], and it has no columns for
    the names. *)
Record UserRow := {
  user_id : Z;
  user_names : option UserNames;
  user_telegram_id : Z;
  user_inn : string;
  user_email : string;
  user_created_at : timestamp;
  user_last_active : timestamp;
  user_api_key : option string }.

(** [orders] *)
Record OrderRow := {
  ord_id : Z;
  ord_user_id : Z;
  ord_total_amount : float64;
  ord_status : string;
  ord_payment_id : string;
  ord_created_at : timestamp;
  ord_updated_at : timestamp }.

(** [order_items] *)
Record OrderItemRow := {
  oi_id : Z;
  oi_order_id : Z;
  oi_gtin : string;
  oi_quantity : Z;
  oi_price : float64 }.

(** [payments].  The repository declares the table three times, and the
    record has a field for every column of the three declarations:
    [createTables] of the API has [user_id] and [robokassa_id] and no
    [order_id]; DATABASE.sql has [order_id] and [transaction_id] (the name
    it gives to [robokassa_id]) and no [user_id]; [createTables] of the
    transactional service has [user_id], [order_id] and [transaction_id].
    A column that a table does not have is [None] in its rows. *)
Record PaymentRow := {
  pay_id : Z;
  pay_user_id : option Z;
  pay_order_id : option Z;
  pay_amount : float64;
  pay_currency : string;
  pay_status : string;
  pay_transaction_id : option string;
  pay_created_at : timestamp;
  pay_completed_at : option timestamp }.

(** [kiz_requests] *)
Record KizRequestRow := {
  kr_id : Z;
  kr_telegram_id : Z;
  kr_inn : string;
  kr_request_time : timestamp;
  kr_status : string }.

Record Tables := {
  users : list UserRow;
  orders : list OrderRow;
  order_items : list OrderItemRow;
  payments : list PaymentRow;
  kiz_requests : list KizRequestRow }.

(** The [SERIAL] sequences.  A value drawn from a sequence is never given
    back, also when the transaction that drew it rolls back. *)
Record Seqs := {
  users_id_seq : Z;
  orders_id_seq : Z;
  order_items_id_seq : Z;
  payments_id_seq : Z;
  kiz_requests_id_seq : Z }.

Record DB := {
  tables : Tables;
  seqs : Seqs }.

Definition set_users (t : Tables) (l : list UserRow) : Tables :=
  {| users := l; orders := orders t; order_items := order_items t;
     payments := payments t; kiz_requests := kiz_requests t |}.
Definition set_orders (t : Tables) (l : list OrderRow) : Tables :=
  {| users := users t; orders := l; order_items := order_items t;
     payments := payments t; kiz_requests := kiz_requests t |}.
Definition set_order_items (t : Tables) (l : list OrderItemRow) : Tables :=
  {| users := users t; orders := orders t; order_items := l;
     payments := payments t; kiz_requests := kiz_requests t |}.
Definition set_payments (t : Tables) (l : list PaymentRow) : Tables :=
  {| users := users t; orders := orders t; order_items := order_items t;
     payments := l; kiz_requests := kiz_requests t |}.
Definition set_kiz_requests (t : Tables) (l : list KizRequestRow) : Tables :=
  {| users := users t; orders := orders t; order_items := order_items t;
     payments := payments t; kiz_requests := l |}.

Definition next_users_id (s : Seqs) : Seqs :=
  {| users_id_seq := users_id_seq s + 1; orders_id_seq := orders_id_seq s;
     order_items_id_seq := order_items_id_seq s;
     payments_id_seq := payments_id_seq s;
     kiz_requests_id_seq := kiz_requests_id_seq s |}.
Definition next_orders_id (s : Seqs) : Seqs :=
  {| users_id_seq := users_id_seq s; orders_id_seq := orders_id_seq s + 1;
     order_items_id_seq := order_items_id_seq s;
     payments_id_seq := payments_id_seq s;
     kiz_requests_id_seq := kiz_requests_id_seq s |}.
Definition next_order_items_id (s : Seqs) : Seqs :=
  {| users_id_seq := users_id_seq s; orders_id_seq := orders_id_seq s;
     order_items_id_seq := order_items_id_seq s + 1;
     payments_id_seq := payments_id_seq s;
     kiz_requests_id_seq := kiz_requests_id_seq s |}.
Definition next_payments_id (s : Seqs) : Seqs :=
  {| users_id_seq := users_id_seq s; orders_id_seq := orders_id_seq s;
     order_items_id_seq := order_items_id_seq s;
     payments_id_seq := payments_id_seq s + 1;
     kiz_requests_id_seq := kiz_requests_id_seq s |}.
Definition next_kiz_requests_id (s : Seqs) : Seqs :=
  {| users_id_seq := users_id_seq s; orders_id_seq := orders_id_seq s;
     order_items_id_seq := order_items_id_seq s;
     payments_id_seq := payments_id_seq s;
     kiz_requests_id_seq := kiz_requests_id_seq s + 1 |}.

Definition opt_Z_eqb (a b : option Z) : bool :=
  match a, b with
  | Some x, Some y => x =? y
  | _, _ => false
  end.

Definition opt_string_eqb (a : option string) (b : string) : bool :=
  match a with
  | Some x => String.eqb x b
  | None => false
  end.

(** ** The triggers of DATABASE.sql *)

(** [update_modified_column], [BEFORE UPDATE ON orders FOR EACH ROW]. *)
Definition update_modified_column (ts : timestamp) (NEW : OrderRow) : OrderRow :=
  {| ord_id := ord_id NEW; ord_user_id := ord_user_id NEW;
     ord_total_amount := ord_total_amount NEW; ord_status := ord_status NEW;
     ord_payment_id := ord_payment_id NEW; ord_created_at := ord_created_at NEW;
     ord_updated_at := ts |}.

Definition set_ord_status (o : OrderRow) (st : string) : OrderRow :=
  {| ord_id := ord_id o; ord_user_id := ord_user_id o;
     ord_total_amount := ord_total_amount o; ord_status := st;
     ord_payment_id := ord_payment_id o; ord_created_at := ord_created_at o;
     ord_updated_at := ord_updated_at o |}.

(** [update_order_status_on_payment], [AFTER UPDATE ON payments FOR EACH
    ROW]:
    [IF NEW.status = 'completed' AND OLD.status != 'completed' THEN
       UPDATE orders SET status = 'paid', updated_at = CURRENT_TIMESTAMP
       WHERE id = NEW.order_id AND status = 'pending'] *)
Definition update_order_status_on_payment (ts : timestamp)
    (OLD NEW : PaymentRow) (os : list OrderRow) : list OrderRow :=
  if String.eqb (pay_status NEW) "completed"
     && negb (String.eqb (pay_status OLD) "completed")
  then
    map (fun o =>
           if opt_Z_eqb (Some (ord_id o)) (pay_order_id NEW)
              && String.eqb (ord_status o) "pending"
           then update_modified_column ts (set_ord_status o "paid")
           else o) os
  else os.

(** [UPDATE payments SET ... WHERE ...]: the rows that satisfy [where_]
    are replaced by [set_] of them, the row trigger runs for each of them,
    and the statement reports the number of rows it touched. *)
Definition UPDATE_payments (ts : timestamp) (where_ : PaymentRow -> bool)
    (set_ : PaymentRow -> PaymentRow) (t : Tables) : Tables * Z :=
  let touched := filter where_ (payments t) in
  let payments' := map (fun p => if where_ p then set_ p else p) (payments t) in
  let orders' :=
    fold_left (fun os OLD => update_order_status_on_payment ts OLD (set_ OLD) os)
              touched (orders t) in
  (set_orders (set_payments t payments') orders', Z.of_nat (List.length touched)).

(** The ids of [payments] come from its sequence: they lie below it, and
    no two rows share one ([id SERIAL PRIMARY KEY]). *)
Definition payment_ids_drawn (db : DB) : Prop :=
  Forall (fun p => pay_id p < payments_id_seq (seqs db)) (payments (tables db))
  /\ NoDup (map pay_id (payments (tables db))).

(** ** The two declarations of [payments] *)

(** The columns of [payments] as [createTables] of the API declares the
    table.  It has no [order_id], and the API declares no trigger. *)
Definition payments_of_createTables : list string :=
  ["id"; "user_id"; "amount"; "currency"; "status"; "robokassa_id";
   "created_at"; "completed_at"].

(** The columns of [payments] as DATABASE.sql declares the table, the one
    on which it defines the trigger [update_order_status]; the script also
    renames a column [robokassa_id], should the table have one, to
    [transaction_id]. *)
Definition payments_of_DATABASE_sql : list string :=
  ["id"; "order_id"; "amount"; "status"; "transaction_id"; "currency";
   "created_at"; "completed_at"].

Definition has_column (table : list string) (column : string) : bool :=
  existsb (String.eqb column) table.

(** A row of the table that [createTables] declares refers to no order. *)
Definition without_order (p : PaymentRow) : Prop := pay_order_id p = None.

(** ** Values as the server takes them

    The database is PostgreSQL (docker-compose.yml: postgres:15), its
    encoding UTF8; the driver, lib/pq, sends every parameter as text. *)

Definition byte_in (lo hi : N) (c : ascii) : bool :=
  let n := N_of_ascii c in ((lo <=? n) && (n <=? hi))%N.

(** The characters of a text, each with its bytes: the server takes
    well-formed UTF-8 without the byte zero and refuses everything else. *)
Fixpoint utf8_chars (s : string) : option (list string) :=
  match s with
  | EmptyString => Some []
  | String c0 s1 =>
      if byte_in 1 127 c0 then
        option_map (cons (String c0 "")) (utf8_chars s1)
      else if byte_in 194 223 c0 then
        match s1 with
        | String c1 s2 =>
            if byte_in 128 191 c1
            then option_map (cons (String c0 (String c1 ""))) (utf8_chars s2)
            else None
        | EmptyString => None
        end
      else if byte_in 224 239 c0 then
        match s1 with
        | String c1 (String c2 s3) =>
            if byte_in (if byte_in 224 224 c0 then 160 else 128)
                       (if byte_in 237 237 c0 then 159 else 191) c1
               && byte_in 128 191 c2
            then option_map (cons (String c0 (String c1 (String c2 ""))))
                            (utf8_chars s3)
            else None
        | _ => None
        end
      else if byte_in 240 244 c0 then
        match s1 with
        | String c1 (String c2 (String c3 s4)) =>
            if byte_in (if byte_in 240 240 c0 then 144 else 128)
                       (if byte_in 244 244 c0 then 143 else 191) c1
               && byte_in 128 191 c2 && byte_in 128 191 c3
            then option_map
                   (cons (String c0 (String c1 (String c2 (String c3 "")))))
                   (utf8_chars s4)
            else None
        | _ => None
        end
      else None
  end.

(** A text of ASCII characters, the byte zero apart: one byte a
    character. *)
Definition ascii_text (s : string) : bool :=
  forallb (byte_in 1 127) (list_ascii_of_string s).

(** A value for a [VARCHAR(n)] column, as the characters that the column
    keeps: the first [n]; characters after the n-th must all be spaces,
    which are dropped, or the server refuses the value ("value too long
    for type character varying"). *)
Definition varchar (n : nat) (s : string) : option (list string) :=
  match utf8_chars s with
  | Some chars =>
      if forallb (String.eqb " ") (skipn n chars) then Some (firstn n chars)
      else None
  | None => None
  end.

(** The text that a [VARCHAR(n)] column keeps of a value it takes. *)
Definition kept_varchar (n : nat) (s : string) : string :=
  match varchar n s with
  | Some chars => String.concat "" chars
  | None => s
  end.

(** A value for an [INT] column. *)
Definition int4 (z : Z) : bool := (-2147483648 <=? z) && (z <=? 2147483647).

Definition f64_div (x y : float64) : float64 := SFdiv 53 1024 x y.
Definition f64_opp (x : float64) : float64 := SFopp x.

(** A float64 reaches a [DECIMAL(10, 2)] column as its shortest decimal
    text, which the server rounds to two decimals, halves away from zero.
    The float64 next to 99999999.995 is the least one whose text rounds to
    100000000.00, which the column cannot hold; the one next to 0.005 is
    the least whose text rounds to 0.01. *)
Definition decimal_10_2_limit : float64 :=
  Eval vm_compute in f64_div (f64_of_int 99999999995) (f64_of_int 1000).

Definition half_a_hundredth : float64 :=
  Eval vm_compute in f64_div (f64_of_int 5) (f64_of_int 1000).

(** A value for a [DECIMAL(10, 2)] column: not-a-number is one, and a
    number is one when it rounds to less than 10^8 in absolute value. *)
Definition decimal_10_2 (v : float64) : bool :=
  f64_is_nan v
  || (f64_ltb (f64_opp decimal_10_2_limit) v && f64_ltb v decimal_10_2_limit).

(** [CHECK (x > 0)] and [CHECK (x >= 0)] on a [DECIMAL(10, 2)] column look
    at the rounded value; the server orders not-a-number above every
    number. *)
Definition decimal_positive (v : float64) : bool :=
  f64_is_nan v || f64_leb half_a_hundredth v.

Definition decimal_not_negative (v : float64) : bool :=
  f64_is_nan v || f64_ltb (f64_opp half_a_hundredth) v.

End Db.

(* ===================================================================== *)
(** * The HTTP API *)
(* ===================================================================== *)

Module Api.

Import Http Db.

(** [type PaymentConfig struct]; of [Config], the handlers below read
    [config.PaymentConfig] only. *)
Record PaymentConfig := {
  RobokassaLogin : string;
  RobokassaPass : string }.

(** What a request finds outside of the program: the clock of the
    process ([time.Now()]) and that of the database server ([NOW()]), the
    sixteen bytes [crypto/rand] hands out (or its error), the outcome of
    writing the PDF file (its name, or the error text), and whether the
    n-th call to the database made for this request fails in the driver or
    in the server for a reason that the tables do not determine. *)
Record Env := {
  time_Now : Z;
  db_now : Z;
  rand_Read : result string;
  pdf_file : result string;
  fault : nat -> bool }.

Definition Handler (B : Type) : Type := DB -> Env -> Request B -> Response * DB.

(** [sendJSONResponse(w, response, statusCode)] *)
Definition sendJSONResponse (fields : list (string * JValue)) (statusCode : Z)
  : Response :=
  {| StatusCode := statusCode; Content := JSON fields |}.

Definition omitempty (key value : string) : list (string * JValue) :=
  if is_empty value then [] else [(key, JString value)].

(** ** Request and response shapes *)

Record UserRegistrationRequest := {
  reg_TelegramID : Z;
  reg_INN : string;
  reg_Email : string }.

Record PaymentRequest := {
  pr_TelegramID : Z;
  pr_Amount : float64;
  pr_ReturnURL : string }.

Record PaymentResponse := {
  presp_Status : string;
  presp_Message : string;
  presp_RedirectURL : string;
  presp_PaymentID : Z;
  presp_ErrorMsg : string }.

Definition encode_PaymentResponse (p : PaymentResponse) : list (string * JValue) :=
  [("status", JString (presp_Status p)); ("message", JString (presp_Message p))]
  ++ omitempty "redirect_url" (presp_RedirectURL p)
  ++ (if presp_PaymentID p =? 0 then [] else [("payment_id", JNumber (presp_PaymentID p))])
  ++ omitempty "error" (presp_ErrorMsg p).

Record KIZRequest := {
  kreq_TelegramID : Z;
  kreq_GTINs : list string;
  kreq_INN : string }.

Record KIZResponse := {
  kresp_Status : string;
  kresp_Message : string;
  kresp_KIZs : list string;
  kresp_FilePath : string;
  kresp_ErrorMsg : string }.

Definition encode_KIZResponse (k : KIZResponse) : list (string * JValue) :=
  [("status", JString (kresp_Status k)); ("message", JString (kresp_Message k))]
  ++ (match kresp_KIZs k with [] => [] | l => [("kizs", JStrings l)] end)
  ++ omitempty "file_path" (kresp_FilePath k)
  ++ omitempty "error" (kresp_ErrorMsg k).

(** ** The statements the handlers send, on the tables that
    [createTables] of the API declares *)

(** [SELECT EXISTS(SELECT 1 FROM users WHERE telegram_id = $1)] *)
Definition select_exists_user (db : DB) (telegramID : Z) : bool :=
  existsb (fun u => user_telegram_id u =? telegramID) (users (tables db)).

Definition set_registration (u : UserRow) (inn email : string)
    (last_active : timestamp) (apiKey : string) : UserRow :=
  {| user_id := user_id u; user_names := user_names u;
     user_telegram_id := user_telegram_id u;
     user_inn := inn; user_email := email;
     user_created_at := user_created_at u;
     user_last_active := last_active; user_api_key := Some apiKey |}.

(** [UPDATE users SET inn = $1, email = $2, last_active = $3, api_key = $4
     WHERE telegram_id = $5 RETURNING id], read with [QueryRow(..).Scan].
    [api_key] is [UNIQUE]. *)
Definition update_user_returning_id (db : DB) (inn email : string)
    (last_active : timestamp) (apiKey : string) (telegramID : Z)
  : result Z * DB :=
  let hit := fun u => user_telegram_id u =? telegramID in
  let touched := filter hit (users (tables db)) in
  if existsb (fun u => negb (hit u) && opt_string_eqb (user_api_key u) apiKey)
             (users (tables db))
     || (1 <? Z.of_nat (List.length touched))
  then (Err "duplicate key value violates unique constraint", db)
  else match touched with
       | [] => (Err "sql: no rows in result set", db)
       | u :: _ =>
           (Ok (user_id u),
            {| tables :=
                 set_users (tables db)
                   (map (fun u => if hit u
                                  then set_registration u inn email last_active apiKey
                                  else u)
                        (users (tables db)));
               seqs := seqs db |})
       end.

(** [INSERT INTO users (telegram_id, inn, email, api_key)
     VALUES ($1, $2, $3, $4) RETURNING id].  [telegram_id] and [api_key]
    are [UNIQUE]; [id] is drawn from the sequence, [created_at] and
    [last_active] default to [NOW()]. *)
Definition insert_user_returning_id (db : DB) (now_ : timestamp)
    (telegramID : Z) (inn email apiKey : string) : result Z * DB :=
  let id := users_id_seq (seqs db) in
  let seqs' := next_users_id (seqs db) in
  if existsb (fun u => (user_telegram_id u =? telegramID)
                       || opt_string_eqb (user_api_key u) apiKey)
             (users (tables db))
  then (Err "duplicate key value violates unique constraint",
        {| tables := tables db; seqs := seqs' |})
  else
    (Ok id,
     {| tables :=
          set_users (tables db)
            (users (tables db) ++
             [{| user_id := id; user_names := None;
                 user_telegram_id := telegramID;
                 user_inn := inn; user_email := email;
                 user_created_at := now_; user_last_active := now_;
                 user_api_key := Some apiKey |}]);
        seqs := seqs' |}).

(** [SELECT id FROM users WHERE telegram_id = $1], read with
    [QueryRow(..).Scan]: the first row, or [sql.ErrNoRows]. *)
Definition select_user_id_by_telegram (db : DB) (telegramID : Z) : option Z :=
  match find (fun u => user_telegram_id u =? telegramID) (users (tables db)) with
  | Some u => Some (user_id u)
  | None => None
  end.

(** [SELECT id FROM users WHERE api_key = $1] *)
Definition select_user_id_by_api_key (db : DB) (apiKey : string) : option Z :=
  match find (fun u => opt_string_eqb (user_api_key u) apiKey) (users (tables db)) with
  | Some u => Some (user_id u)
  | None => None
  end.

(** [UPDATE users SET last_active = $1 WHERE id = $2] *)
Definition update_last_active (db : DB) (t : timestamp) (userID : Z) : DB :=
  {| tables :=
       set_users (tables db)
         (map (fun u =>
                 if user_id u =? userID then
                   {| user_id := user_id u; user_names := user_names u;
                      user_telegram_id := user_telegram_id u;
                      user_inn := user_inn u; user_email := user_email u;
                      user_created_at := user_created_at u;
                      user_last_active := t; user_api_key := user_api_key u |}
                 else u)
              (users (tables db)));
     seqs := seqs db |}.

(** [INSERT INTO payments (user_id, amount, status)
     VALUES ($1, $2, 'pending') RETURNING id] *)
Definition insert_payment_returning_id (db : DB) (now_ : timestamp)
    (userID : Z) (amount : float64) : Z * DB :=
  let id := payments_id_seq (seqs db) in
  (id,
   {| tables :=
        set_payments (tables db)
          (payments (tables db) ++
           [{| pay_id := id; pay_user_id := Some userID; pay_order_id := None;
               pay_amount := amount; pay_currency := "RUB";
               pay_status := "pending"; pay_transaction_id := None;
               pay_created_at := now_; pay_completed_at := None |}]);
      seqs := next_payments_id (seqs db) |}).

Definition complete_payment (now_ : timestamp) (transactionId : string)
    (p : PaymentRow) : PaymentRow :=
  {| pay_id := pay_id p; pay_user_id := pay_user_id p;
     pay_order_id := pay_order_id p; pay_amount := pay_amount p;
     pay_currency := pay_currency p; pay_status := "completed";
     pay_transaction_id := Some transactionId;
     pay_created_at := pay_created_at p; pay_completed_at := Some now_ |}.

(** [UPDATE payments
     SET status = 'completed', completed_at = $1, robokassa_id = $2
     WHERE id = $3 AND status = 'pending'], with the rows it touched, on a
    table that has the columns which the statement names (of the three
    declarations, [createTables] of the API; for the others see
    [robokassaCallbackHandler_on]).  The rows of that table have no
    [order_id], and the row trigger that [UPDATE_payments] runs finds no
    order for them. *)
Definition update_payment_completed (db : DB) (ts : timestamp)
    (now_ : timestamp) (transactionId : string) (paymentID : Z) : DB * Z :=
  let '(t, n) :=
    UPDATE_payments ts
      (fun p => (pay_id p =? paymentID) && String.eqb (pay_status p) "pending")
      (complete_payment now_ transactionId) (tables db) in
  ({| tables := t; seqs := seqs db |}, n).

(** [INSERT INTO kiz_requests (telegram_id, inn, request_time)
     VALUES ($1, $2, $3)] *)
Definition insert_kiz_request (db : DB) (telegramID : Z) (inn : string)
    (t : timestamp) : DB :=
  {| tables :=
       set_kiz_requests (tables db)
         (kiz_requests (tables db) ++
          [{| kr_id := kiz_requests_id_seq (seqs db);
              kr_telegram_id := telegramID; kr_inn := inn;
              kr_request_time := t; kr_status := "pending" |}]);
     seqs := next_kiz_requests_id (seqs db) |}.

(** ** The handlers *)

(** [func generateAPIKey() string] *)
Definition generateAPIKey (env : Env) : string :=
  match rand_Read env with
  | Err _ => ""
  | Ok b => hex b
  end.

(** [func generateKIZPDF(kizs []string) (string, error)]: the directory and
    the file are the environment's. *)
Definition generateKIZPDF (env : Env) (kizs : list string) : result string :=
  pdf_file env.

(** [func registerUserHandler(db, logger) http.HandlerFunc] *)
Definition registerUserHandler : Handler UserRegistrationRequest :=
  fun db env r =>
  if negb (String.eqb (Method r) MethodPost) then
    (Error "Метод не поддерживается" StatusMethodNotAllowed, db)
  else match Body r with
  | Err e =>
    (sendJSONResponse
       [("error", JString e);
        ("message", JString "Неверный формат запроса");
        ("status", JString "error")] StatusBadRequest, db)
  | Ok request =>
    if (reg_TelegramID request <=? 0) || is_empty (reg_INN request) then
      (sendJSONResponse
         [("message", JString "Обязательные поля не заполнены");
          ("status", JString "error")] StatusBadRequest, db)
    else
      let apiKey := generateAPIKey env in
      if fault env 0 then
        (sendJSONResponse
           [("message", JString "Ошибка при обработке запроса");
            ("status", JString "error")] StatusInternalServerError, db)
      else
        let exists_ := select_exists_user db (reg_TelegramID request) in
        let '(res, db') :=
          if fault env 1 then (Err "driver: bad connection", db)
          else if exists_ then
            update_user_returning_id db (reg_INN request) (reg_Email request)
              (time_Now env) apiKey (reg_TelegramID request)
          else
            insert_user_returning_id db (db_now env) (reg_TelegramID request)
              (reg_INN request) (reg_Email request) apiKey in
        match res with
        | Err _ =>
          (sendJSONResponse
             [("message", JString "Ошибка при сохранении данных");
              ("status", JString "error")] StatusInternalServerError, db')
        | Ok userID =>
          (sendJSONResponse
             [("api_key", JString apiKey);
              ("message", JString "Пользователь успешно зарегистрирован");
              ("status", JString "success");
              ("user_id", JNumber userID)] StatusOK, db')
        end
  end.

Section Payments.

(** The [%g] verb of [fmt] on a float64. *)
Variable fmt_g : float64 -> string.

(** [config.PaymentConfig] *)
Variable rk : PaymentConfig.

(** The text signed when a payment is created,
    [fmt.Sprintf("%s:%g:%d:%s", ...)], and its SHA-1 in hexadecimal. *)
Definition payment_signature (amount : float64) (paymentID : Z) : string :=
  RobokassaLogin rk ++ ":" ++ fmt_g amount ++ ":" ++ Itoa paymentID ++ ":"
  ++ RobokassaPass rk.

Definition payment_signatureHash (amount : float64) (paymentID : Z) : string :=
  hex (sha1_Sum (payment_signature amount paymentID)).

Definition payment_redirectURL (amount : float64) (paymentID : Z) : string :=
  "https://auth.robokassa.ru/Merchant/Index.aspx?MerchantLogin="
  ++ RobokassaLogin rk
  ++ "&OutSum=" ++ fmt_g amount
  ++ "&InvId=" ++ Itoa paymentID
  ++ "&SignatureValue=" ++ payment_signatureHash amount paymentID
  ++ "&Desc=" ++ "Оплата услуг" ++ "&Culture=ru".

(** [func createPaymentHandler(db, logger) http.HandlerFunc] *)
Definition createPaymentHandler : Handler PaymentRequest :=
  fun db env r =>
  if negb (String.eqb (Method r) MethodPost) then
    (Error "Метод не поддерживается" StatusMethodNotAllowed, db)
  else match Body r with
  | Err e =>
    (sendJSONResponse
       (encode_PaymentResponse
          {| presp_Status := "error"; presp_Message := "Неверный формат запроса";
             presp_RedirectURL := ""; presp_PaymentID := 0;
             presp_ErrorMsg := e |}) StatusBadRequest, db)
  | Ok request =>
    if f64_leb (pr_Amount request) f64_zero then
      (sendJSONResponse
         (encode_PaymentResponse
            {| presp_Status := "error"; presp_Message := "Неверная сумма платежа";
               presp_RedirectURL := ""; presp_PaymentID := 0;
               presp_ErrorMsg := "" |}) StatusBadRequest, db)
    else if fault env 0 then
      (sendJSONResponse
         (encode_PaymentResponse
            {| presp_Status := "error";
               presp_Message := "Ошибка при обработке запроса";
               presp_RedirectURL := ""; presp_PaymentID := 0;
               presp_ErrorMsg := "" |}) StatusInternalServerError, db)
    else match select_user_id_by_telegram db (pr_TelegramID request) with
    | None =>
      (sendJSONResponse
         (encode_PaymentResponse
            {| presp_Status := "error"; presp_Message := "Пользователь не найден";
               presp_RedirectURL := ""; presp_PaymentID := 0;
               presp_ErrorMsg := "" |}) StatusNotFound, db)
    | Some userID =>
      if fault env 1 then
        (sendJSONResponse
           (encode_PaymentResponse
              {| presp_Status := "error";
                 presp_Message := "Ошибка создания платежа";
                 presp_RedirectURL := ""; presp_PaymentID := 0;
                 presp_ErrorMsg := "" |}) StatusInternalServerError, db)
      else
        let '(paymentID, db') :=
          insert_payment_returning_id db (db_now env) userID (pr_Amount request) in
        let returnURL :=
          if is_empty (pr_ReturnURL request) then "https://t.me/your_bot"
          else pr_ReturnURL request in
        let redirectURL := payment_redirectURL (pr_Amount request) paymentID in
        (sendJSONResponse
           (encode_PaymentResponse
              {| presp_Status := "success"; presp_Message := "Платеж создан";
                 presp_RedirectURL := redirectURL; presp_PaymentID := paymentID;
                 presp_ErrorMsg := "" |}) StatusOK, db')
    end
  end.

(** The signature a callback must carry,
    [fmt.Sprintf("%x", sha1.Sum([]byte(fmt.Sprintf("%s:%s:%s:%s", ...))))]. *)
Definition expectedSign (outSum invID : string) : string :=
  hex (sha1_Sum (RobokassaLogin rk ++ ":" ++ outSum ++ ":" ++ invID ++ ":"
                 ++ RobokassaPass rk)).

(** [func robokassaCallbackHandler(db, logger) http.HandlerFunc]; the
    callback has no JSON body. *)
Definition robokassaCallbackHandler : Handler unit :=
  fun db env r =>
  if negb (String.eqb (Method r) MethodPost)
     && negb (String.eqb (Method r) MethodGet) then
    (Error "Метод не поддерживается" StatusMethodNotAllowed, db)
  else
    let invID := FormValue r "InvId" in
    let outSum := FormValue r "OutSum" in
    let signValue := FormValue r "SignatureValue" in
    if is_empty invID || is_empty outSum || is_empty signValue then
      (Error "Неверные параметры" StatusBadRequest, db)
    else if negb (String.eqb signValue (expectedSign outSum invID)) then
      (Error "Неверная подпись" StatusForbidden, db)
    else match Atoi invID with
    | Err _ => (Error "Неверный ID платежа" StatusBadRequest, db)
    | Ok paymentID =>
      if fault env 0 then
        (Error "Ошибка обновления платежа" StatusInternalServerError, db)
      else
        let '(db', _) :=
          update_payment_completed db (db_now env) (time_Now env)
            (FormValue r "Shp_TransactionId") paymentID in
        (Write ("OK" ++ invID), db')
    end.

(** The columns that the UPDATE of [robokassaCallbackHandler] names. *)
Definition update_payment_completed_columns : list string :=
  ["status"; "completed_at"; "robokassa_id"; "id"].

(** [robokassaCallbackHandler] on a database whose [payments] table has the
    columns [columns]: the server refuses a statement that names a column
    which the table does not have, and [db.Exec] returns that error. *)
Definition robokassaCallbackHandler_on (columns : list string) : Handler unit :=
  fun db env r =>
  if negb (String.eqb (Method r) MethodPost)
     && negb (String.eqb (Method r) MethodGet) then
    (Error "Метод не поддерживается" StatusMethodNotAllowed, db)
  else
    let invID := FormValue r "InvId" in
    let outSum := FormValue r "OutSum" in
    let signValue := FormValue r "SignatureValue" in
    if is_empty invID || is_empty outSum || is_empty signValue then
      (Error "Неверные параметры" StatusBadRequest, db)
    else if negb (String.eqb signValue (expectedSign outSum invID)) then
      (Error "Неверная подпись" StatusForbidden, db)
    else match Atoi invID with
    | Err _ => (Error "Неверный ID платежа" StatusBadRequest, db)
    | Ok paymentID =>
      if fault env 0
         || negb (forallb (has_column columns) update_payment_completed_columns)
      then
        (Error "Ошибка обновления платежа" StatusInternalServerError, db)
      else
        let '(db', _) :=
          update_payment_completed db (db_now env) (time_Now env)
            (FormValue r "Shp_TransactionId") paymentID in
        (Write ("OK" ++ invID), db')
    end.

End Payments.

(** ** Middleware *)

(** [publicPaths], the map literal of [authMiddleware]. *)
Definition publicPaths (path : string) : bool :=
  String.eqb path "/health"
  || String.eqb path "/api/users/register"
  || String.eqb path "/api/payments/callback"
  || String.eqb path "/docs/".

(** What [authMiddleware] does with a request: it hands it (with its
    context) to [next], after [used] calls to the database, or answers by
    itself. *)
Inductive AuthOutcome (B : Type) : Type :=
| Forward (r : Request B) (db : DB) (used : nat)
| Reject (resp : Response).
Arguments Forward {B} r db used.
Arguments Reject {B} resp.

Definition authenticate {B} (db : DB) (env : Env) (r : Request B) : AuthOutcome B :=
  if publicPaths (Path r) || HasPrefix (Path r) "/docs/" then
    Forward r db 0%nat
  else
    let apiKey := Header_Get r "X-Api-Key" in
    if is_empty apiKey then Forward r db 0%nat
    else
      let found :=
        if fault env 0 then None else select_user_id_by_api_key db apiKey in
      match found with
      | None => Reject (Error "Неавторизованный доступ" StatusUnauthorized)
      | Some userID =>
        let db' :=
          if fault env 1 then db else update_last_active db (time_Now env) userID in
        Forward (WithUserID r userID) db' 2%nat
      end.

Definition after (n : nat) (env : Env) : Env :=
  {| time_Now := time_Now env; db_now := db_now env;
     rand_Read := rand_Read env; pdf_file := pdf_file env;
     fault := fun i => fault env (n + i)%nat |}.

(** [func authMiddleware(db, logger) func(http.Handler) http.Handler] *)
Definition authMiddleware {B} (next : Handler B) : Handler B :=
  fun db env r =>
  match authenticate db env r with
  | Forward r' db' used => next db' (after used env) r'
  | Reject resp => (resp, db)
  end.

(** [func kizHandler(db, logger) http.HandlerFunc] *)
Definition kizHandler : Handler KIZRequest :=
  fun db env r =>
  if negb (String.eqb (Method r) MethodPost) then
    (Error "Метод не поддерживается" StatusMethodNotAllowed, db)
  else match Body r with
  | Err e =>
    (sendJSONResponse
       (encode_KIZResponse
          {| kresp_Status := "error"; kresp_Message := "Неверный формат запроса";
             kresp_KIZs := []; kresp_FilePath := ""; kresp_ErrorMsg := e |})
       StatusBadRequest, db)
  | Ok request =>
    if (kreq_TelegramID request <=? 0)
       || (List.length (kreq_GTINs request) =? 0)%nat
       || is_empty (kreq_INN request) then
      (sendJSONResponse
         (encode_KIZResponse
            {| kresp_Status := "error";
               kresp_Message := "Отсутствуют обязательные параметры";
               kresp_KIZs := []; kresp_FilePath := ""; kresp_ErrorMsg := "" |})
         StatusBadRequest, db)
    else
      let kizs := ["KIZ123456"; "KIZ789012"] in
      let db' :=
        if fault env 0 then db
        else insert_kiz_request db (kreq_TelegramID request) (kreq_INN request)
               (time_Now env) in
      match generateKIZPDF env kizs with
      | Err e =>
        (sendJSONResponse
           (encode_KIZResponse
              {| kresp_Status := "error"; kresp_Message := "Ошибка генерации PDF";
                 kresp_KIZs := []; kresp_FilePath := ""; kresp_ErrorMsg := e |})
           StatusInternalServerError, db')
      | Ok filename =>
        (sendJSONResponse
           (encode_KIZResponse
              {| kresp_Status := "success";
                 kresp_Message := "КИЗы успешно сгенерированы";
                 kresp_KIZs := kizs; kresp_FilePath := filename;
                 kresp_ErrorMsg := "" |})
           StatusOK, db')
      end
  end.

(** ** Configuration *)

Record DBConfig := {
  DBConfig_Host : string;
  DBConfig_Port : string;
  DBConfig_User : string;
  DBConfig_Password : string;
  DBConfig_Name : string }.

Record ChestnyZnakConfig := {
  ChestnyZnak_URL : string;
  ChestnyZnak_PrivateKeyPath : string;
  ChestnyZnak_CertPath : string }.

(** [type Config struct] *)
Record Config := {
  HTTPPort : string;
  Config_DBConfig : DBConfig;
  Config_ChestnyZnakConfig : ChestnyZnakConfig;
  Config_PaymentConfig : PaymentConfig }.

(** [func getEnv(key, defaultValue string) string] *)
Definition getEnv (environ : Environ) (key defaultValue : string) : string :=
  let '(value, exists_) := LookupEnv environ key in
  if exists_ && negb (is_empty value) then value else defaultValue.

(** [func initConfig() Config] *)
Definition initConfig (environ : Environ) : Config :=
  {| HTTPPort := getEnv environ "HTTP_PORT" "8080";
     Config_DBConfig :=
       {| DBConfig_Host := getEnv environ "DB_HOST" "localhost";
          DBConfig_Port := getEnv environ "DB_PORT" "5432";
          DBConfig_User := getEnv environ "DB_USER" "postgres";
          DBConfig_Password := getEnv environ "DB_PASSWORD" "";
          DBConfig_Name := getEnv environ "DB_NAME" "my_bot_db" |};
     Config_ChestnyZnakConfig :=
       {| ChestnyZnak_URL :=
            getEnv environ "CHESTNY_ZNAK_URL" "http://api.stage.mdlp.crpt.ru";
          ChestnyZnak_PrivateKeyPath :=
            getEnv environ "PRIVATE_KEY_PATH" "/certs/private.pem";
          ChestnyZnak_CertPath :=
            getEnv environ "CERTIFICATE_PATH" "/certs/cert.pem" |};
     Config_PaymentConfig :=
       {| RobokassaLogin := getEnv environ "ROBOKASSA_LOGIN" "";
          RobokassaPass := getEnv environ "ROBOKASSA_PASSWORD" "" |} |}.

(** ** Handlers that look a record up *)

(** What such a handler answers: [Served key a] is
    [sendJSONResponse(w, map[string]any{"status": "success", key: a},
    http.StatusOK)]; [Refused resp] is every other answer. *)
Inductive Lookup (A : Type) : Type :=
| Refused (resp : Response)
| Served (key : string) (a : A).
Arguments Refused {A} resp.
Arguments Served {A} key a.

(** [FROM payments p JOIN orders o ON p.order_id = o.id
     JOIN users u ON o.user_id = u.id] *)
Definition payments_orders_users (t : Tables)
  : list (PaymentRow * OrderRow * UserRow) :=
  flat_map
    (fun p =>
       flat_map
         (fun o =>
            if opt_Z_eqb (pay_order_id p) (Some (ord_id o)) then
              map (fun u => (p, o, u))
                  (filter (fun u => ord_user_id o =? user_id u) (users t))
            else [])
         (orders t))
    (payments t).

(** [func paymentStatusHandler(db, logger) http.HandlerFunc].  The query
    is
    [SELECT p.id, p.order_id, p.amount, p.status, p.transaction_id,
            p.created_at, p.completed_at, p.currency
     FROM payments p JOIN orders o ... JOIN users u ...
     WHERE p.id = $1 AND u.telegram_id = $2];
    [Scan] reads [transaction_id] into a Go [string], which a NULL does not
    fit, and every error is answered alike. *)
Definition paymentStatusHandler {B} (db : DB) (env : Env) (r : Request B)
  : Lookup Models.Payment :=
  if negb (String.eqb (Method r) MethodGet) then
    Refused (Error "Метод не поддерживается" StatusMethodNotAllowed)
  else
    let paymentIDStr := Query_Get r "id" in
    if is_empty paymentIDStr then
      Refused
        (sendJSONResponse
           [("message", JString "Необходимо указать id платежа");
            ("status", JString "error")] StatusBadRequest)
    else match Atoi paymentIDStr with
    | Err _ =>
      Refused
        (sendJSONResponse
           [("message", JString "Некорректный ID платежа");
            ("status", JString "error")] StatusBadRequest)
    | Ok paymentID =>
      let telegramIDStr := Query_Get r "telegram_id" in
      if is_empty telegramIDStr then
        Refused
          (sendJSONResponse
             [("message", JString "Необходимо указать telegram_id");
              ("status", JString "error")] StatusBadRequest)
      else match ParseInt64 telegramIDStr with
      | Err _ =>
        Refused
          (sendJSONResponse
             [("message", JString "Некорректный telegram_id");
              ("status", JString "error")] StatusBadRequest)
      | Ok telegramID =>
        let scanned :=
          if fault env 0 then Err "driver: bad connection"
          else
            match find (fun '(p, o, u) =>
                          (pay_id p =? paymentID)
                          && (user_telegram_id u =? telegramID))
                       (payments_orders_users (tables db)) with
            | None => Err "sql: no rows in result set"
            | Some (p, o, u) =>
                match pay_transaction_id p with
                | None => Err "converting NULL to string is unsupported"
                | Some transactionID =>
                    Ok {| Models.payment_ID := pay_id p;
                          Models.payment_OrderID := ord_id o;
                          Models.payment_Amount := pay_amount p;
                          Models.payment_Status := pay_status p;
                          Models.payment_TransactionID := transactionID;
                          Models.payment_CreatedAt := pay_created_at p;
                          Models.payment_CompletedAt := pay_completed_at p;
                          Models.payment_Currency := pay_currency p |}
                end
            end in
        match scanned with
        | Err _ =>
          Refused
            (sendJSONResponse
               [("message", JString "Платеж не найден");
                ("status", JString "error")] StatusNotFound)
        | Ok payment => Served "payment" payment
        end
      end
    end.

End Api.

(* ===================================================================== *)
(** * The transactional service *)
(* ===================================================================== *)

Module Store.

Import Http Db Models.

(** [type GTINData struct]; [Count] is a Go [int]. *)
Record GTINData := {
  GTIN : string;
  Count : Z }.

(** [func prepareOrder(telegramID int64, gtins []GTINData)
     (models.Order, []models.OrderItem)] *)
Definition prepareOrder (telegramID : Z) (gtins : list GTINData)
  : Order * list OrderItem :=
  let '(items, totalAmount) :=
    fold_left
      (fun '(items, totalAmount) gtin =>
         let unitPrice := f64_of_int 100 in
         let item := {| item_ID := 0; item_GTIN := GTIN gtin;
                        item_Quantity := Count gtin; item_Price := unitPrice |} in
         ((items ++ [item])%list,
          f64_add totalAmount (f64_mul (f64_of_int (Count gtin)) unitPrice)))
      gtins ([], f64_zero) in
  ({| order_ID := 0; order_UserID := 0; order_Items := [];
      order_TotalAmount := totalAmount; order_Status := OrderStatusCreated;
      order_PaymentID := ""; order_CreatedAt := 0; order_UpdatedAt := 0 |},
   items).

(** ** One connection of database/sql *)

(** What the connection did, in order. *)
Inductive Event : Type :=
| EvBegin
| EvStatement (sql : string)
| EvCommit
| EvRollback
| EvExternalAPI.

(** [committed] is what every connection sees; [tx] is the view of the open
    transaction, if there is one; [calls] counts the calls made to the
    database so far. *)
Record Conn := {
  committed : Tables;
  sequences : Seqs;
  tx : option Tables;
  calls : nat;
  events : list Event }.

Definition M (A : Type) : Type := Conn -> A * Conn.

Definition ret {A} (a : A) : M A := fun c => (a, c).

Definition bind {A B} (m : M A) (k : A -> M B) : M B :=
  fun c => let '(a, c') := m c in k a c'.

Declare Scope conn_scope.
Delimit Scope conn_scope with conn.
Notation "x <- m ;; k" := (bind m (fun x => k))
  (at level 61, m at next level, right associativity) : conn_scope.
Notation "' pat <- m ;; k" :=
  (bind m (fun x => match x with pat => k end))
  (at level 61, pat pattern, m at next level, right associativity) : conn_scope.
Notation "m ;;; k" := (bind m (fun _ => k))
  (at level 61, right associativity) : conn_scope.
Open Scope conn_scope.

Definition emit (e : Event) : M unit :=
  fun c => (tt, {| committed := committed c; sequences := sequences c;
                   tx := tx c; calls := calls c; events := events c ++ [e] |}).

Definition set_tx (v : option Tables) : M unit :=
  fun c => (tt, {| committed := committed c; sequences := sequences c;
                   tx := v; calls := calls c; events := events c |}).

Definition ErrTxDone : string :=
  "sql: transaction has already been committed or rolled back".

Section Service.

(** Whether the n-th call to the database fails for a reason that neither
    the tables nor the statement's model below determine (connection,
    resources, a sequence that is used up, a value out of a column's range
    where the model does not say so itself). *)
Variable fault : nat -> bool.

(** [CURRENT_TIMESTAMP] *)
Variable db_now : timestamp.

(** The external code-issuing API behind [requestKIZFromExternalAPI]. *)
Variable requestKIZFromExternalAPI :
  list GTINData -> string -> list string * option string.

(** The [%g] verb of [fmt] on a float64. *)
Variable fmt_g : float64 -> string.

(** [time.Now()], and the sixteen bytes that [math/rand] hands out. *)
Variable time_Now : Z.
Variable rand_Read : string.

Definition db_call : M bool :=
  fun c => (fault (calls c),
            {| committed := committed c; sequences := sequences c;
               tx := tx c; calls := S (calls c); events := events c |}).

(** [db.Begin()] *)
Definition Begin : M (option string) :=
  failed <- db_call ;;
  if failed then ret (Some "driver: bad connection")
  else
    (fun c => set_tx (Some (committed c)) c) ;;;
    emit EvBegin ;;;
    ret None.

(** [tx.Commit()]: a transaction that is over answers [ErrTxDone]; a
    commit that fails leaves nothing behind. *)
Definition Commit : M (option string) :=
  fun c =>
  match tx c with
  | None => (Some ErrTxDone, c)
  | Some view =>
      (failed <- db_call ;;
       if failed then
         set_tx None ;;; emit EvRollback ;;; ret (Some "driver: bad connection")
       else
         (fun c' => (tt, {| committed := view; sequences := sequences c';
                            tx := None; calls := calls c';
                            events := events c' |})) ;;;
         emit EvCommit ;;;
         ret None) c
  end.

(** [tx.Rollback()] *)
Definition Rollback : M (option string) :=
  fun c =>
  match tx c with
  | None => (Some ErrTxDone, c)
  | Some _ => (set_tx None ;;; emit EvRollback ;;; ret None) c
  end.

(** A statement sent on the transaction: [run] is what the server does
    with it on the transaction's view and on the sequences. *)
Definition statement {A} (sql : string)
    (run : Tables -> Seqs -> result A * Tables * Seqs) : M (result A) :=
  failed <- db_call ;;
  if failed then ret (Err "driver: bad connection")
  else fun c =>
    match tx c with
    | None => (Err ErrTxDone, c)
    | Some view =>
        let '(r, view', seqs') := run view (sequences c) in
        (r, {| committed := committed c; sequences := seqs';
               tx := Some (if is_ok r then view' else view);
               calls := calls c; events := events c ++ [EvStatement sql] |})
    end.

(** ** The statements, on the tables of DATABASE.sql *)

Definition order_status_enum (s : string) : bool :=
  existsb (String.eqb s)
    ["created"; "pending"; "paid"; "processed"; "completed"; "cancelled";
     "refunded"].

Definition payment_status_enum (s : string) : bool :=
  existsb (String.eqb s)
    ["pending"; "processing"; "completed"; "failed"; "refunded"; "cancelled"].

(** [SELECT id FROM users WHERE telegram_id = $1] *)
Definition select_user_id (telegramID : Z) (t : Tables) (s : Seqs)
  : result (option Z) * Tables * Seqs :=
  (Ok match find (fun u => user_telegram_id u =? telegramID) (users t) with
      | Some u => Some (user_id u)
      | None => None
      end, t, s).

(** [INSERT INTO users (first_name, last_name, middle_name, inn,
     telegram_id, email, username, api_key)
     VALUES ($1, $2, $3, $4, $5, $6, $7, $8) RETURNING id, registered_at]:
    [telegram_id] and [api_key] are [UNIQUE], in DATABASE.sql and in
    [createTables] alike.  What DATABASE.sql alone asks of [inn] (10 or 12
    characters, unique) and of [email] (a pattern), and a text that is too
    long for its column, are failures of the call ([fault]). *)
Definition insert_user (user : User) (t : Tables) (s : Seqs)
  : result (Z * timestamp) * Tables * Seqs :=
  let id := users_id_seq s in
  let s' := next_users_id s in
  if existsb (fun u => (user_telegram_id u =? user_TelegramID user)
                       || opt_string_eqb (user_api_key u) (user_APIKey user))
             (users t)
  then (Err "duplicate key value violates unique constraint", t, s')
  else
    (Ok (id, db_now),
     set_users t
       (users t ++
        [{| user_id := id;
            user_names :=
              Some {| first_name := user_FirstName user;
                      last_name := user_LastName user;
                      middle_name := user_MiddleName user;
                      username := user_Username user |};
            user_telegram_id := user_TelegramID user;
            user_inn := user_INN user; user_email := user_Email user;
            user_created_at := db_now; user_last_active := db_now;
            user_api_key := Some (user_APIKey user) |}]),
     s').

(** Whether the parameters of the INSERT into [orders] are values of
    their columns: [total_amount DECIMAL(10, 2)], [status order_status],
    [payment_id VARCHAR(50)]. *)
Definition order_values (o : Order) : bool :=
  decimal_10_2 (order_TotalAmount o)
  && order_status_enum (order_Status o)
  && match varchar 50 (order_PaymentID o) with Some _ => true | None => false end.

(** [INSERT INTO orders (user_id, total_amount, status, payment_id)
     VALUES ($1, $2, $3, $4) RETURNING id, created_at], on [orders] of
    DATABASE.sql.  The server first takes the parameters as values of the
    columns and refuses a statement whose parameters are not, before it
    draws an id; the row it then forms must refer to a user
    ([user_id REFERENCES users(id)]) and satisfy [total_amount > 0]. *)
Definition insert_order (o : Order) (t : Tables) (s : Seqs)
  : result (Z * timestamp) * Tables * Seqs :=
  if order_values o then
    let id := orders_id_seq s in
    let s' := next_orders_id s in
    if existsb (fun u => user_id u =? order_UserID o) (users t)
       && decimal_positive (order_TotalAmount o)
    then
      (Ok (id, db_now),
       set_orders t
         (orders t ++
          [{| ord_id := id; ord_user_id := order_UserID o;
              ord_total_amount := order_TotalAmount o;
              ord_status := order_Status o;
              ord_payment_id := kept_varchar 50 (order_PaymentID o);
              ord_created_at := db_now; ord_updated_at := db_now |}]),
       s')
    else (Err "violates a constraint of orders", t, s')
  else (Err "a parameter is not a value of its column", t, s).

Definition order_item_row (id orderID : Z) (it : OrderItem) : OrderItemRow :=
  {| oi_id := id; oi_order_id := orderID;
     oi_gtin := kept_varchar 14 (item_GTIN it);
     oi_quantity := item_Quantity it; oi_price := item_Price it |}.

(** Whether the parameters of the INSERT into [order_items] are values of
    their columns: [gtin VARCHAR(14)], [quantity INT],
    [price DECIMAL(10, 2)]. *)
Definition order_item_values (it : OrderItem) : bool :=
  match varchar 14 (item_GTIN it) with Some _ => true | None => false end
  && int4 (item_Quantity it)
  && decimal_10_2 (item_Price it).

(** [LENGTH(gtin)] of the text that the column keeps, in characters. *)
Definition LENGTH_gtin (it : OrderItem) : nat :=
  match varchar 14 (item_GTIN it) with
  | Some chars => List.length chars
  | None => 0
  end.

(** The items that [order_items] takes, whatever the order is. *)
Definition order_item_fits (it : OrderItem) : bool :=
  order_item_values it
  && (LENGTH_gtin it =? 14)%nat
  && (0 <? item_Quantity it)
  && decimal_not_negative (item_Price it).

(** [INSERT INTO order_items (order_id, gtin, quantity, price)
     VALUES ($1, $2, $3, $4)], on [order_items] of DATABASE.sql.  As for
    [orders], the parameters must be values of the columns; the row must
    refer to an order ([order_id REFERENCES orders(id)]) and satisfy
    [LENGTH(gtin) = 14], [quantity > 0] and [price >= 0]. *)
Definition insert_order_item (orderID : Z) (it : OrderItem)
    (t : Tables) (s : Seqs) : result unit * Tables * Seqs :=
  if order_item_values it then
    let id := order_items_id_seq s in
    let s' := next_order_items_id s in
    if existsb (fun o => ord_id o =? orderID) (orders t)
       && (LENGTH_gtin it =? 14)%nat
       && (0 <? item_Quantity it)
       && decimal_not_negative (item_Price it)
    then (Ok tt, set_order_items t (order_items t ++ [order_item_row id orderID it]), s')
    else (Err "violates a constraint of order_items", t, s')
  else (Err "a parameter is not a value of its column", t, s).

(** [INSERT INTO payments (order_id, amount, status) VALUES ($1, $2, $3)
     RETURNING id, transaction_id, created_at]:
    [order_id] references [orders(id)], [amount > 0], [status] is a
    [payment_status].  The statement names no [transaction_id] and the
    column has no default: the row has NULL there.  An amount that
    [DECIMAL(10, 2)] cannot hold is a failure of the call ([fault]). *)
Definition insert_payment (p : Payment) (t : Tables) (s : Seqs)
  : result (Z * option string * timestamp) * Tables * Seqs :=
  let id := payments_id_seq s in
  let s' := next_payments_id s in
  if existsb (fun o => ord_id o =? payment_OrderID p) (orders t)
     && f64_ltb f64_zero (payment_Amount p)
     && payment_status_enum (payment_Status p)
  then
    (Ok (id, None, db_now),
     set_payments t
       (payments t ++
        [{| pay_id := id; pay_user_id := None;
            pay_order_id := Some (payment_OrderID p);
            pay_amount := payment_Amount p; pay_currency := "RUB";
            pay_status := payment_Status p; pay_transaction_id := None;
            pay_created_at := db_now; pay_completed_at := None |}]),
     s')
  else (Err "violates a constraint of payments", t, s').

(** ** The functions of the service *)

(** [func getUserID(tx *sql.Tx, telegramID int64) (int, error)] *)
Definition getUserID (telegramID : Z) : M (Z * option string) :=
  r <- statement "SELECT id FROM users WHERE telegram_id = $1"
         (select_user_id telegramID) ;;
  ret match r with
      | Err e => (0, Some e)
      | Ok None => (0, None)
      | Ok (Some id) => (id, None)
      end.

(** The loop [for i := range items] of [createOrderTx]. *)
Fixpoint insert_items (orderID : Z) (items : list OrderItem)
  : M (option string) :=
  match items with
  | [] => ret None
  | it :: rest =>
      r <- statement "INSERT INTO order_items" (insert_order_item orderID it) ;;
      match r with
      | Err e => ret (Some e)
      | Ok _ => insert_items orderID rest
      end
  end.

(** [func createOrderTx(tx *sql.Tx, order *models.Order,
     items []models.OrderItem) error]; the order comes back with the
    fields that [Scan] wrote through the pointer. *)
Definition createOrderTx (order : Order) (items : list OrderItem)
  : M (Order * option string) :=
  r <- statement "INSERT INTO orders" (insert_order order) ;;
  match r with
  | Err e => ret (order, Some e)
  | Ok (id, created_at) =>
      let order' :=
        {| order_ID := id; order_UserID := order_UserID order;
           order_Items := order_Items order;
           order_TotalAmount := order_TotalAmount order;
           order_Status := order_Status order;
           order_PaymentID := order_PaymentID order;
           order_CreatedAt := created_at;
           order_UpdatedAt := order_UpdatedAt order |} in
      err <- insert_items id items ;;
      ret (order', err)
  end.

(** [func respondJSON(w, status, data)] *)
Definition respondJSON (status : Z) (data : list (string * JValue)) : Response :=
  {| StatusCode := status; Content := JSON data |}.

(** [func respondError(w, status, message)] *)
Definition respondError (status : Z) (message : string) : Response :=
  respondJSON status [("error", JString message)].

(** The body of a code request. *)
Record KIZRequestBody := {
  kiz_TelegramID : Z;
  kiz_GTINs : list GTINData;
  kiz_INN : string }.

Definition with_UserID (o : Order) (userID : Z) : Order :=
  {| order_ID := order_ID o; order_UserID := userID;
     order_Items := order_Items o;
     order_TotalAmount := order_TotalAmount o;
     order_Status := order_Status o; order_PaymentID := order_PaymentID o;
     order_CreatedAt := order_CreatedAt o;
     order_UpdatedAt := order_UpdatedAt o |}.

(** [func handleKIZRequest(w, r, db)].  [defer tx.Rollback()] runs when
    the function returns, whatever the path. *)
Definition handleKIZRequest (r : Request KIZRequestBody) : M Response :=
  match Body r with
  | Err _ => ret (respondError StatusBadRequest "Неверный формат запроса")
  | Ok request =>
    err <- Begin ;;
    match err with
    | Some _ => ret (respondError StatusInternalServerError "Ошибка транзакции")
    | None =>
      resp <-
        (' (userID, err) <- getUserID (kiz_TelegramID request) ;;
         match err with
         | Some _ => ret (respondError StatusInternalServerError "Ошибка БД")
         | None =>
           if userID =? 0 then
             ret (respondError StatusUnauthorized "Пользователь не найден")
           else
             let '(order, items) :=
               prepareOrder (kiz_TelegramID request) (kiz_GTINs request) in
             let order := with_UserID order userID in
             ' (order, err) <- createOrderTx order items ;;
             match err with
             | Some _ =>
               ret (respondError StatusInternalServerError "Ошибка создания заказа")
             | None =>
               err <- Commit ;;
               match err with
               | Some _ =>
                 ret (respondError StatusInternalServerError
                        "Ошибка фиксации транзакции")
               | None =>
                 emit EvExternalAPI ;;;
                 let '(kizs, err) :=
                   requestKIZFromExternalAPI (kiz_GTINs request) (kiz_INN request) in
                 ret (respondJSON StatusCreated
                        [("kizs", JStrings kizs);
                         ("order_id", JNumber (order_ID order));
                         ("status", JString "created")])
               end
             end
         end) ;;
      Rollback ;;;
      ret resp
    end
  end.

(** [func generatePaymentURL(paymentID int, amount float64) string] *)
Definition generatePaymentURL (paymentID : Z) (amount : float64) : string :=
  "https://auth.robokassa.ru/Merchant/Index.aspx?MerchantLogin=test&OutSum="
  ++ fmt_g amount ++ "&InvId=" ++ Itoa paymentID ++ "&SignatureValue=test".

(** The body of a payment request. *)
Record PaymentBody := {
  pb_TelegramID : Z;
  pb_Amount : float64;
  pb_OrderID : Z }.

(** [Scan] into a Go [string]: database/sql does not convert NULL. *)
Definition scan_string (v : option string) : result string :=
  match v with
  | Some s => Ok s
  | None => Err "converting NULL to string is unsupported"
  end.

(** [func handlePayment(w, r, db)] *)
Definition handlePayment (r : Request PaymentBody) : M Response :=
  match Body r with
  | Err _ => ret (respondError StatusBadRequest "Неверный формат запроса")
  | Ok paymentData =>
    err <- Begin ;;
    match err with
    | Some _ => ret (respondError StatusInternalServerError "Ошибка транзакции")
    | None =>
      resp <-
        (' (userID, err) <- getUserID (pb_TelegramID paymentData) ;;
         if (match err with Some _ => true | None => false end) || (userID =? 0)
         then ret (respondError StatusUnauthorized "Пользователь не авторизован")
         else
           let payment :=
             {| payment_ID := 0; payment_OrderID := pb_OrderID paymentData;
                payment_Amount := pb_Amount paymentData;
                payment_Status := PaymentStatusPending;
                payment_TransactionID := ""; payment_CreatedAt := 0;
                payment_CompletedAt := None; payment_Currency := "" |} in
           row <- statement "INSERT INTO payments" (insert_payment payment) ;;
           let scanned :=
             match row with
             | Err e => Err e
             | Ok (id, transaction_id, created_at) =>
                 match scan_string transaction_id with
                 | Err e => Err e
                 | Ok transactionID => Ok (id, transactionID, created_at)
                 end
             end in
           match scanned with
           | Err _ =>
             Rollback ;;;
             ret (respondJSON StatusInternalServerError
                    [("message", JString "Ошибка создания платежа");
                     ("status", JString "error")])
           | Ok (id, _, _) =>
             err <- Commit ;;
             match err with
             | Some _ =>
               ret (respondError StatusInternalServerError "Ошибка фиксации")
             | None =>
               let paymentURL := generatePaymentURL id (payment_Amount payment) in
               ret (respondJSON StatusOK
                      [("payment_id", JNumber id);
                       ("payment_url", JString paymentURL);
                       ("status", JString "created")])
             end
           end) ;;
      Rollback ;;;
      ret resp
    end
  end.

(** [func createUserTx(tx *sql.Tx, user *models.User) error]; the user
    comes back with the fields that [Scan] wrote through the pointer. *)
Definition createUserTx (user : User) : M (User * option string) :=
  r <- statement "INSERT INTO users" (insert_user user) ;;
  ret match r with
      | Err e => (user, Some e)
      | Ok (id, registered_at) =>
          ({| user_ID := id; user_FirstName := user_FirstName user;
              user_LastName := user_LastName user;
              user_MiddleName := user_MiddleName user;
              user_INN := user_INN user;
              user_TelegramID := user_TelegramID user;
              user_Email := user_Email user;
              user_Username := user_Username user;
              user_IsAdmin := user_IsAdmin user;
              user_RegisteredAt := registered_at;
              user_LastActive := user_LastActive user;
              user_APIKey := user_APIKey user |}, None)
      end.

(** [func generateRandomAPIKey() string]; [math/rand]'s [Read] returns
    no error. *)
Definition generateRandomAPIKey : string := hex rand_Read.

(** The body of a registration. *)
Record RegistrationBody := {
  rb_FirstName : string;
  rb_LastName : string;
  rb_MiddleName : string;
  rb_INN : string;
  rb_TelegramID : Z;
  rb_Email : string;
  rb_Username : string }.

(** [func handleUserRegistration(w, r, db)] *)
Definition handleUserRegistration (r : Request RegistrationBody) : M Response :=
  if negb (String.eqb (Method r) MethodPost) then
    ret (Http.Error "Метод не поддерживается" StatusMethodNotAllowed)
  else match Body r with
  | Err _ => ret (respondError StatusBadRequest "Неверный формат запроса")
  | Ok request =>
    if (rb_TelegramID request <=? 0) || is_empty (rb_INN request) then
      ret (respondError StatusBadRequest "Обязательные поля не заполнены")
    else
      err <- Begin ;;
      match err with
      | Some _ => ret (respondError StatusInternalServerError "Ошибка транзакции")
      | None =>
        resp <-
          (let apiKey := generateRandomAPIKey in
           let user :=
             {| user_ID := 0; user_FirstName := rb_FirstName request;
                user_LastName := rb_LastName request;
                user_MiddleName := rb_MiddleName request;
                user_INN := rb_INN request;
                user_TelegramID := rb_TelegramID request;
                user_Email := rb_Email request;
                user_Username := rb_Username request;
                user_IsAdmin := false; user_RegisteredAt := 0;
                user_LastActive := time_Now; user_APIKey := apiKey |} in
           ' (user, err) <- createUserTx user ;;
           match err with
           | Some _ =>
             ret (respondError StatusInternalServerError
                    "Ошибка регистрации пользователя")
           | None =>
             err <- Commit ;;
             match err with
             | Some _ =>
               ret (respondError StatusInternalServerError
                      "Ошибка фиксации транзакции")
             | None =>
               ret (respondJSON StatusCreated
                      [("api_key", JString (user_APIKey user));
                       ("message", JString "Пользователь успешно зарегистрирован");
                       ("user_id", JNumber (user_ID user))])
             end
           end) ;;
        Rollback ;;;
        ret resp
      end
  end.

(** A handler on a fresh connection of the pool: the answer, the
    database as every connection sees it afterwards, and what the
    connection did. *)
Definition serve (h : M Response) (db : DB) : Response * DB * list Event :=
  let '(resp, c) :=
    h {| committed := tables db; sequences := seqs db; tx := None;
         calls := 0; events := [] |} in
  (resp, {| tables := committed c; seqs := sequences c |}, events c).

End Service.

(** [func requestKIZFromExternalAPI(gtins, inn) ([]string, error)], the
    placeholder of the repository. *)
Definition requestKIZFromExternalAPI_stub (gtins : list GTINData) (inn : string)
  : list string * option string :=
  (["KIZ123456"; "KIZ789012"], None).

End Store.

(* ===================================================================== *)
(** * The words of the specification *)
(* ===================================================================== *)

Module Spec.

Import Models Db.

(** "sum(item.quantity × item.price)" over the items of an order, in the
    arithmetic of the amounts. *)
Definition sum_quantity_price (items : list OrderItem) : float64 :=
  fold_left
    (fun acc it => f64_add acc (f64_mul (f64_of_int (item_Quantity it)) (item_Price it)))
    items f64_zero.

(** The item that order assembly makes of a (product code, quantity) pair;
    the unit price is the fixed one of [prepareOrder]. *)
Definition item_of (g : Store.GTINData) : OrderItem :=
  {| item_ID := 0; item_GTIN := Store.GTIN g; item_Quantity := Store.Count g;
     item_Price := f64_of_int 100 |}.

(** An assembled order together with its items. *)
Definition with_Items (o : Order) (items : list OrderItem) : Order :=
  {| order_ID := order_ID o; order_UserID := order_UserID o;
     order_Items := items; order_TotalAmount := order_TotalAmount o;
     order_Status := order_Status o; order_PaymentID := order_PaymentID o;
     order_CreatedAt := order_CreatedAt o; order_UpdatedAt := order_UpdatedAt o |}.

(** "hash(merchantId ":" amount ":" id ":" secret)", in hexadecimal. *)
Definition signature (hash : string -> string)
    (merchantId amount id secret : string) : string :=
  hex (hash (merchantId ++ ":" ++ amount ++ ":" ++ id ++ ":" ++ secret)).

(** "https://<gateway>/...?MerchantLogin=<id>&OutSum=<amount>&InvId=<id>
    &SignatureValue=<signature>" *)
Definition redirect_url (merchantId amount id sig : string) : string :=
  "https://auth.robokassa.ru/Merchant/Index.aspx?MerchantLogin=" ++ merchantId
  ++ "&OutSum=" ++ amount ++ "&InvId=" ++ id ++ "&SignatureValue=" ++ sig.

(** The rows of [order_items] that the items of an order become, with the
    ids the sequence hands out from [id] on; the product code is the text
    that [gtin VARCHAR(14)] keeps of it. *)
Fixpoint item_rows (id orderID : Z) (items : list OrderItem) : list OrderItemRow :=
  match items with
  | [] => []
  | it :: rest =>
      {| oi_id := id; oi_order_id := orderID;
         oi_gtin := kept_varchar 14 (item_GTIN it);
         oi_quantity := item_Quantity it; oi_price := item_Price it |}
      :: item_rows (id + 1) orderID rest
  end.

(** The answer to a registration: "output {internal user id, access
    token}". *)
Definition registered (userID : Z) (apiKey : string) : Http.Response :=
  {| Http.StatusCode := Http.StatusOK;
     Http.Content :=
       Http.JSON
         [("api_key", Http.JString apiKey);
          ("message", Http.JString "Пользователь успешно зарегистрирован");
          ("status", Http.JString "success");
          ("user_id", Http.JNumber userID)] |}.

(** The events that are statements sent on the transaction. *)
Definition is_statement (e : Store.Event) : Prop :=
  exists sql, e = Store.EvStatement sql.

(** What a connection does before its transaction ends: it begins the
    transaction and sends statements. *)
Definition in_transaction (e : Store.Event) : Prop :=
  e = Store.EvBegin \/ is_statement e.

(** The row of [orders] that the header of a new order becomes. *)
Definition order_header (id userID : Z) (total : float64) (ts : timestamp)
  : OrderRow :=
  {| ord_id := id; ord_user_id := userID; ord_total_amount := total;
     ord_status := "created"; ord_payment_id := ""; ord_created_at := ts;
     ord_updated_at := ts |}.

End Spec.

(* ===================================================================== *)
(** * Sample data *)
(* ===================================================================== *)

Module Samples.

Import Http Db.

Definition sample_item (q : Z) : Models.OrderItem :=
  {| Models.item_ID := 0; Models.item_GTIN := "04602380040001";
     Models.item_Quantity := q; Models.item_Price := f64_of_int 100 |}.

Definition sample_order (items : list Models.OrderItem) : Models.Order :=
  {| Models.order_ID := 0; Models.order_UserID := 1; Models.order_Items := items;
     Models.order_TotalAmount := f64_of_int 100;
     Models.order_Status := Models.OrderStatusCreated;
     Models.order_PaymentID := ""; Models.order_CreatedAt := 0;
     Models.order_UpdatedAt := 0 |}.

Definition no_fault : nat -> bool := fun _ => false.

Definition api_env (t : Z) (random : string) : Api.Env :=
  {| Api.time_Now := t; Api.db_now := t; Api.rand_Read := Ok random;
     Api.pdf_file := Ok "temp/kizs_1.pdf"; Api.fault := no_fault |}.

Definition empty_tables : Tables :=
  {| users := []; orders := []; order_items := []; payments := [];
     kiz_requests := [] |}.

Definition fresh_seqs : Seqs :=
  {| users_id_seq := 1; orders_id_seq := 1; order_items_id_seq := 1;
     payments_id_seq := 1; kiz_requests_id_seq := 1 |}.

Definition empty_db : DB := {| tables := empty_tables; seqs := fresh_seqs |}.

Definition request {B} (method path : string) (form : list (string * string))
    (body : B) : Request B :=
  {| Method := method; Path := path; Header := []; Form := form;
     Body := Ok body; ctx_userID := None |}.

Definition kiz_request_no_codes : Request Api.KIZRequest :=
  request "POST" "/api/kizs" []
    {| Api.kreq_TelegramID := 123456789; Api.kreq_GTINs := [];
       Api.kreq_INN := "7707083893" |}.

(** The text of [%g] for the amount of the samples, 100. *)
Definition fmt_100 : float64 -> string := fun _ => "100".

Definition shop : Api.PaymentConfig :=
  {| Api.RobokassaLogin := "shop"; Api.RobokassaPass := "secret" |}.

Definition shop_config : Gateway.Config :=
  {| Gateway.ChestnyZnakAPIURL := "https://example.chestnyznak.ru/api/v3/";
     Gateway.PrivateKeyPath := ""; Gateway.CertificatePath := "";
     Gateway.TelegramBotToken := "token"; Gateway.TelegramChatID := 1;
     Gateway.RobokassaLogin := "shop"; Gateway.RobokassaPassword := "secret";
     Gateway.Port := "8080" |}.

Definition pay_100_for_42 : Gateway.PaymentRequestData :=
  {| Gateway.Amount := f64_of_int 100; Gateway.OrderID := "42" |}.

Definition user_row (id telegramID : Z) (apiKey : string) : UserRow :=
  {| user_id := id; user_names := None; user_telegram_id := telegramID;
     user_inn := "7707083893";
     user_email := ""; user_created_at := 0; user_last_active := 0;
     user_api_key := Some apiKey |}.

Definition one_user_db : DB :=
  {| tables := set_users empty_tables [user_row 1 123456789 "k1"];
     seqs := next_users_id fresh_seqs |}.

Definition payment_request_100 : Request Api.PaymentRequest :=
  request "POST" "/api/payments/create" []
    {| Api.pr_TelegramID := 123456789; Api.pr_Amount := f64_of_int 100;
       Api.pr_ReturnURL := "" |}.

(** Callbacks for payment 1 and the amount "100". *)
Definition callback (method signature : string) : Request unit :=
  request method "/api/payments/callback"
    [("InvId", "1"); ("OutSum", "100"); ("SignatureValue", signature)] tt.

Definition signed_callback : Request unit :=
  callback "POST" (Api.expectedSign shop "100" "1").

Definition pending_payment (id orderID : Z) : PaymentRow :=
  {| pay_id := id; pay_user_id := Some 1; pay_order_id := Some orderID;
     pay_amount := f64_of_int 100; pay_currency := "RUB";
     pay_status := "pending"; pay_transaction_id := None;
     pay_created_at := 0; pay_completed_at := None |}.

Definition order_row (id userID : Z) (status : string) : OrderRow :=
  {| ord_id := id; ord_user_id := userID; ord_total_amount := f64_of_int 100;
     ord_status := status; ord_payment_id := ""; ord_created_at := 0;
     ord_updated_at := 0 |}.

(** One user, the pending order 7 and its pending payment 1. *)
Definition pending_db : DB :=
  {| tables :=
       {| users := [user_row 1 123456789 "k1"];
          orders := [order_row 7 1 "pending"];
          order_items := [];
          payments := [pending_payment 1 7];
          kiz_requests := [] |};
     seqs := fresh_seqs |}.

(** The same, in the tables of DATABASE.sql: the payment has an order and
    no user. *)
Definition sql_pending_db : DB :=
  {| tables :=
       {| users := [user_row 1 123456789 "k1"];
          orders := [order_row 7 1 "pending"];
          order_items := [];
          payments :=
            [{| pay_id := 1; pay_user_id := None; pay_order_id := Some 7;
                pay_amount := f64_of_int 100; pay_currency := "RUB";
                pay_status := "pending"; pay_transaction_id := None;
                pay_created_at := 0; pay_completed_at := None |}];
          kiz_requests := [] |};
     seqs := {| users_id_seq := 2; orders_id_seq := 8; order_items_id_seq := 1;
                payments_id_seq := 2; kiz_requests_id_seq := 1 |} |}.

Definition registration (inn : string) : Api.UserRegistrationRequest :=
  {| Api.reg_TelegramID := 123456789; Api.reg_INN := inn; Api.reg_Email := "" |}.

Definition register_request (inn : string) : Request Api.UserRegistrationRequest :=
  request "POST" "/api/users/register" [] (registration inn).

(** The database after the first registration of 123456789. *)
Definition registered_db : DB :=
  snd (Api.registerUserHandler empty_db (api_env 1000 "0123456789abcdef")
         (register_request "7707083893")).

Definition with_api_key (path key : string) : Request unit :=
  {| Method := "GET"; Path := path; Header := [("X-Api-Key", key)];
     Form := []; Body := Ok tt; ctx_userID := None |}.

(** The lookup of the api key fails in the driver. *)
Definition db_down : Api.Env :=
  {| Api.time_Now := 1000; Api.db_now := 1000;
     Api.rand_Read := Ok "0123456789abcdef";
     Api.pdf_file := Ok "temp/kizs_1.pdf"; Api.fault := fun _ => true |}.

(** Two users; the only order, 7, belongs to the second one. *)
Definition two_users_db : DB :=
  {| tables :=
       {| users := [user_row 1 123456789 "k1"; user_row 2 987654321 "k2"];
          orders := [order_row 7 2 "created"];
          order_items := []; payments := []; kiz_requests := [] |};
     seqs := fresh_seqs |}.

Definition payment_request_unknown : Request Api.PaymentRequest :=
  request "POST" "/api/payments/create" []
    {| Api.pr_TelegramID := 555; Api.pr_Amount := f64_of_int 100;
       Api.pr_ReturnURL := "" |}.

Definition store_payment_request (telegramID orderID : Z)
  : Request Store.PaymentBody :=
  request "POST" "/api/payments" []
    {| Store.pb_TelegramID := telegramID; Store.pb_Amount := f64_of_int 100;
       Store.pb_OrderID := orderID |}.

Definition code_request (gtins : list Store.GTINData)
  : Request Store.KIZRequestBody :=
  request "POST" "/api/kizs" []
    {| Store.kiz_TelegramID := 123456789; Store.kiz_GTINs := gtins;
       Store.kiz_INN := "7707083893" |}.

Definition two_units : Store.GTINData :=
  {| Store.GTIN := "04602380040001"; Store.Count := 2 |}.

Definition no_units : Store.GTINData :=
  {| Store.GTIN := "04602380040001"; Store.Count := 0 |}.

(** A product code of thirteen characters, which [order_items] refuses. *)
Definition short_code : Store.GTINData :=
  {| Store.GTIN := "0460238004000"; Store.Count := 1 |}.

(** The external API is unreachable. *)
Definition api_unavailable (gtins : list Store.GTINData) (inn : string)
  : list string * option string :=
  ([], Some "upstream unavailable").

Definition store_registration : Request Store.RegistrationBody :=
  request "POST" "/api/users/register" []
    {| Store.rb_FirstName := "Ivan"; Store.rb_LastName := "Ivanov";
       Store.rb_MiddleName := ""; Store.rb_INN := "7707083893";
       Store.rb_TelegramID := 123456789; Store.rb_Email := "ivan@example.ru";
       Store.rb_Username := "ivan" |}.

(** The database after the first registration with the transactional
    service. *)
Definition store_registered_db : DB :=
  snd (fst (Store.serve
              (Store.handleUserRegistration no_fault 1000 1000 "0123456789abcdef"
                 store_registration)
              empty_db)).

Definition sample_payment (orderID : Z) (amount : float64) : Models.Payment :=
  {| Models.payment_ID := 0; Models.payment_OrderID := orderID;
     Models.payment_Amount := amount;
     Models.payment_Status := Models.PaymentStatusPending;
     Models.payment_TransactionID := ""; Models.payment_CreatedAt := 0;
     Models.payment_CompletedAt := None; Models.payment_Currency := "RUB" |}.

(** An environment in which the variables of [bindings] are set. *)
Definition environment (bindings : list (string * string)) : Environ :=
  fun key =>
    match find (fun kv => String.eqb (fst kv) key) bindings with
    | Some kv => Some (snd kv)
    | None => None
    end.

(** The environment that the test of package config sets up. *)
Definition test_environment : Environ :=
  environment
    [("DB_PASSWORD", "test_password"); ("CHESTNY_ZNAK_API_KEY", "test_api_key");
     ("SERVER_PORT", "8081"); ("DB_HOST", "test_host")].

(** A [time.ParseDuration] that reads no text as a duration. *)
Definition no_duration (s : string) : result Z := Err "time: invalid duration".

Definition gateway_call (method : string) (query : list (string * string))
    (amount : float64) (orderID : string) : GatewayHttp.Call :=
  {| GatewayHttp.call_Method := method; GatewayHttp.call_Query := query;
     GatewayHttp.call_Body :=
       Ok {| Gateway.Amount := amount; Gateway.OrderID := orderID |};
     GatewayHttp.call_ctx_err := None |}.

(** GET /api/payments/status?id=..&telegram_id=.. *)
Definition status_request (id telegramID : string) : Request unit :=
  request "GET" "/api/payments/status"
    [("id", id); ("telegram_id", telegramID)] tt.

(** The database of [pending_db] after the signed callback for payment 1. *)
Definition completed_db : DB :=
  snd (Api.robokassaCallbackHandler shop pending_db
         (api_env 2000 "0123456789abcdef") signed_callback).

(** The callback that echoes what [createPaymentHandler] put into the
    redirect URL for the amount 100 and the payment [id]. *)
Definition echo_callback (id : Z) : Request unit :=
  request "POST" "/api/payments/callback"
    [("InvId", Itoa id); ("OutSum", "100");
     ("SignatureValue", Api.payment_signatureHash fmt_100 shop (f64_of_int 100) id)]
    tt.

Definition kiz_request (gtins : list string) : Request Api.KIZRequest :=
  request "POST" "/api/kizs" []
    {| Api.kreq_TelegramID := 123456789; Api.kreq_GTINs := gtins;
       Api.kreq_INN := "7707083893" |}.

(** The PDF file cannot be written. *)
Definition disk_full : Api.Env :=
  {| Api.time_Now := 1000; Api.db_now := 1000;
     Api.rand_Read := Ok "0123456789abcdef";
     Api.pdf_file := Err "no space left on device"; Api.fault := no_fault |}.

(** The database of [one_user_db] after the user has created a payment of
    100. *)
Definition created_db : DB :=
  snd (Api.createPaymentHandler fmt_100 shop one_user_db
         (api_env 1000 "0123456789abcdef") payment_request_100).

End Samples.

(* ===================================================================== *)
(** * Properties *)
(* ===================================================================== *)

Import Http Db Samples.

Lemma is_empty_true (s : string) : is_empty s = true <-> s = "".
Proof. destruct s; simpl; split; congruence. Qed.

Lemma is_empty_false (s : string) : is_empty s = false <-> s <> "".
Proof. destruct s; simpl; split; congruence. Qed.

(** ** Validation of orders *)

Lemma OrderItem_Validate_ok (it : Models.OrderItem) :
  Models.OrderItem_Validate it = None -> 0 < Models.item_Quantity it.
Proof.
  unfold Models.OrderItem_Validate.
  destruct (is_empty (Models.item_GTIN it)); [discriminate|].
  destruct (Models.item_Quantity it <=? 0) eqn:Hq; [discriminate|].
  intros _. apply Z.leb_gt in Hq. exact Hq.
Qed.

Lemma validate_items_rejects (items : list Models.OrderItem) :
  forall i,
    (exists it, In it items /\ Models.item_Quantity it <= 0) ->
    exists err, Models.validate_items i items = Some err.
Proof.
  induction items as [|item rest IH]; intros i [it [Hin Hq]].
  - destruct Hin.
  - simpl. destruct (Models.OrderItem_Validate item) eqn:Hv.
    + eexists; reflexivity.
    + destruct Hin as [-> | Hin].
      * apply OrderItem_Validate_ok in Hv. lia.
      * apply IH. exists it. split; assumption.
Qed.

(** ** Order assembly *)

Lemma unit_price_positive : f64_ltb f64_zero (f64_of_int 100) = true.
Proof. vm_compute. reflexivity. Qed.

Lemma prepareOrder_eq (telegramID : Z) (gtins : list Store.GTINData) :
  Store.prepareOrder telegramID gtins =
  ({| Models.order_ID := 0; Models.order_UserID := 0; Models.order_Items := [];
      Models.order_TotalAmount := Spec.sum_quantity_price (map Spec.item_of gtins);
      Models.order_Status := Models.OrderStatusCreated;
      Models.order_PaymentID := ""; Models.order_CreatedAt := 0;
      Models.order_UpdatedAt := 0 |},
   map Spec.item_of gtins).
Proof.
  unfold Store.prepareOrder, Spec.sum_quantity_price.
  match goal with
  | |- context [fold_left ?F gtins (?i0, ?t0)] =>
      assert (H : forall items total,
                 fold_left F gtins (items, total) =
                 ((items ++ map Spec.item_of gtins)%list,
                  fold_left
                    (fun acc it =>
                       f64_add acc
                         (f64_mul (f64_of_int (Models.item_Quantity it))
                                  (Models.item_Price it)))
                    (map Spec.item_of gtins) total))
  end.
  { induction gtins as [|g rest IH]; intros items total.
    - cbn [fold_left map]. rewrite app_nil_r. reflexivity.
    - cbn [fold_left map]. rewrite IH. rewrite <- app_assoc. reflexivity. }
  rewrite H. reflexivity.
Qed.

Lemma CalculateTotal_positive_prices (o : Models.Order) :
  (forall it, In it (Models.order_Items o) ->
              f64_ltb f64_zero (Models.item_Price it) = true) ->
  Models.Order_CalculateTotal o = Spec.sum_quantity_price (Models.order_Items o).
Proof.
  unfold Models.Order_CalculateTotal, Spec.sum_quantity_price.
  generalize (Models.order_Items o) as items. intros items Hpos.
  enough (H : forall total,
             fold_left
               (fun total item =>
                  if f64_ltb f64_zero (Models.item_Price item)
                  then f64_add total
                         (f64_mul (f64_of_int (Models.item_Quantity item))
                                  (Models.item_Price item))
                  else total)
               items total =
             fold_left
               (fun acc it =>
                  f64_add acc
                    (f64_mul (f64_of_int (Models.item_Quantity it))
                             (Models.item_Price it)))
               items total) by apply H.
  induction items as [|it rest IH]; intros total.
  - reflexivity.
  - cbn [fold_left]. rewrite (Hpos it (or_introl eq_refl)).
    apply IH. intros it' Hin. apply Hpos. right. exact Hin.
Qed.

Lemma CalculateTotal_assembled (o : Models.Order) (gtins : list Store.GTINData) :
  Models.Order_CalculateTotal (Spec.with_Items o (map Spec.item_of gtins)) =
  Spec.sum_quantity_price (map Spec.item_of gtins).
Proof.
  rewrite CalculateTotal_positive_prices; [reflexivity|].
  cbn [Spec.with_Items Models.order_Items]. intros it Hin.
  apply in_map_iff in Hin. destruct Hin as [g [<- _]].
  exact unit_price_positive.
Qed.

Lemma sum_quantity_price_of_request (gtins : list Store.GTINData) :
  Spec.sum_quantity_price (map Spec.item_of gtins)
  = fold_left
      (fun total g =>
         f64_add total (f64_mul (f64_of_int (Store.Count g)) (f64_of_int 100)))
      gtins f64_zero.
Proof.
  unfold Spec.sum_quantity_price. generalize f64_zero as total.
  induction gtins as [|g rest IH]; intros total; [reflexivity|].
  cbn [map fold_left]. apply IH.
Qed.

(** C3.  [prepareOrder] makes one item of every (product code, quantity)
    pair of the request, in their order, with that code, that quantity and
    the unit price 100.0; the total amount of the order it assembles is the
    sum over the request of quantity times 100.0, which is the sum over
    these items of quantity times unit price and what [Order.CalculateTotal]
    recomputes from them; its status is "created".  The order assembled
    from two units of "04602380040001" has the total amount 200.0; and
    [Order.CalculateTotal] is that sum for every order whose items have a
    positive unit price.  Amounts are float64 and the sum is taken in the
    order of the items. *)
Theorem prepareOrder_total_amount :
  (forall (telegramID : Z) (gtins : list Store.GTINData),
      let (order, items) := Store.prepareOrder telegramID gtins in
      items
      = map (fun g => {| Models.item_ID := 0; Models.item_GTIN := Store.GTIN g;
                         Models.item_Quantity := Store.Count g;
                         Models.item_Price := f64_of_int 100 |}) gtins
      /\ Models.order_TotalAmount order
         = fold_left
             (fun total g =>
                f64_add total
                  (f64_mul (f64_of_int (Store.Count g)) (f64_of_int 100)))
             gtins f64_zero
      /\ Models.order_TotalAmount order = Spec.sum_quantity_price items
      /\ Models.Order_CalculateTotal (Spec.with_Items order items)
         = Models.order_TotalAmount order
      /\ Models.order_Status order = "created")
  /\
  (let (order, items) :=
     Store.prepareOrder 123456789
       [{| Store.GTIN := "04602380040001"; Store.Count := 2 |}] in
   items = [{| Models.item_ID := 0; Models.item_GTIN := "04602380040001";
               Models.item_Quantity := 2; Models.item_Price := f64_of_int 100 |}]
   /\ Models.order_TotalAmount order = f64_of_int 200
   /\ Models.order_Status order = "created")
  /\
  (forall o : Models.Order,
      (forall it, In it (Models.order_Items o) ->
                  f64_ltb f64_zero (Models.item_Price it) = true) ->
      Models.Order_CalculateTotal o = Spec.sum_quantity_price (Models.order_Items o)).
Proof.
  split; [|split].
  - intros telegramID gtins. rewrite prepareOrder_eq.
    cbn [Models.order_TotalAmount Models.order_Status].
    split; [reflexivity|].
    split; [apply sum_quantity_price_of_request|].
    split; [reflexivity|].
    split; [apply CalculateTotal_assembled | reflexivity].
  - vm_compute. repeat split; reflexivity.
  - exact CalculateTotal_positive_prices.
Qed.

Lemma prepareOrder_total_amount_witness :
  Models.order_TotalAmount (fst (Store.prepareOrder 123456789 [two_units; short_code]))
  = f64_of_int 300
  /\ snd (Store.prepareOrder 123456789 [two_units; short_code])
     = [{| Models.item_ID := 0; Models.item_GTIN := "04602380040001";
           Models.item_Quantity := 2; Models.item_Price := f64_of_int 100 |};
        {| Models.item_ID := 0; Models.item_GTIN := "0460238004000";
           Models.item_Quantity := 1; Models.item_Price := f64_of_int 100 |}]
  /\ Models.Order_CalculateTotal (sample_order [sample_item 2; sample_item 3])
     = f64_of_int 500.
Proof.
  destruct prepareOrder_total_amount as [Hprepare [_ Hcalc]].
  specialize (Hprepare 123456789 [two_units; short_code]).
  destruct (Store.prepareOrder 123456789 [two_units; short_code])
    as [order items].
  destruct Hprepare as [Hitems [Htotal _]]. cbn [fst snd].
  split; [|split].
  - rewrite Htotal. vm_compute. reflexivity.
  - rewrite Hitems. reflexivity.
  - rewrite Hcalc.
    + vm_compute. reflexivity.
    + intros it [<- | [<- | []]]; vm_compute; reflexivity.
Defined.

(** ** Creation of a payment *)

Lemma unhex_hex_byte (c : ascii) (rest : string) :
  unhex (hex_byte c ++ rest) = String c (unhex rest).
Proof.
  destruct c as [b0 b1 b2 b3 b4 b5 b6 b7].
  destruct b0, b1, b2, b3, b4, b5, b6, b7; reflexivity.
Qed.

Lemma unhex_hex (b : string) : unhex (hex b) = b.
Proof.
  induction b as [|c b IH]; [reflexivity|].
  cbn [hex]. rewrite unhex_hex_byte, IH. reflexivity.
Qed.

Lemma hex_inj (a b : string) : hex a = hex b -> a = b.
Proof.
  intros H. rewrite <- (unhex_hex a), <- (unhex_hex b), H. reflexivity.
Qed.

Lemma hex_sha1_not_empty (s : string) : hex (sha1_Sum s) <> "".
Proof.
  unfold sha1_Sum.
  set (h := fold_left sha1_block (blocks s) sha1_init).
  unfold string_of_bytes.
  cbn [flat_map be_bytes app map string_of_list_ascii hex].
  unfold hex_byte. cbn [append]. discriminate.
Qed.

#[global] Opaque sha1_Sum sha256_Sum Itoa f64_of_int f64_leb f64_ltb f64_add f64_mul.

Lemma append_assoc (a b c : string) : ((a ++ b) ++ c = a ++ (b ++ c))%string.
Proof. induction a as [|x a IH]; simpl; [reflexivity | rewrite IH; reflexivity]. Qed.

Lemma redirect_url_Desc (login amount id sig : string) :
  (Spec.redirect_url login amount id sig ++ "&Desc=Оплата услуг&Culture=ru"
   = "https://auth.robokassa.ru/Merchant/Index.aspx?MerchantLogin=" ++ login
     ++ "&OutSum=" ++ amount ++ "&InvId=" ++ id ++ "&SignatureValue=" ++ sig
     ++ "&Desc=" ++ "Оплата услуг" ++ "&Culture=ru")%string.
Proof.
  unfold Spec.redirect_url.
  repeat rewrite append_assoc. reflexivity.
Qed.


(** C4.  Creation of a payment signs the text
    merchant ":" amount ":" id ":" secret, with the amount as [%g] prints it,
    and returns the redirect URL
    https://auth.robokassa.ru/Merchant/Index.aspx?MerchantLogin=..&OutSum=..
    &InvId=..&SignatureValue=.. whose OutSum is that same text of the amount;
    signature and URL are determined by merchant, amount, id and secret.
    [createPayment] hashes with SHA-256; [createPaymentHandler] hashes with
    SHA-1, signs the id of the new payment row and appends
    "&Desc=Оплата услуг&Culture=ru" to the URL. *)
Theorem payment_creation_signature_and_url (fmt_g : float64 -> string) :
  (forall (config : Gateway.Config) (requestData : Gateway.PaymentRequestData),
      f64_leb (Gateway.Amount requestData) f64_zero = false ->
      Gateway.OrderID requestData <> "" ->
      Gateway.createPayment fmt_g config None requestData =
        ({| Gateway.Status := "success";
            Gateway.Message := "URL для оплаты сформирован";
            Gateway.PaymentURL :=
              Spec.redirect_url (Gateway.RobokassaLogin config)
                (fmt_g (Gateway.Amount requestData)) (Gateway.OrderID requestData)
                (Spec.signature sha256_Sum (Gateway.RobokassaLogin config)
                   (fmt_g (Gateway.Amount requestData))
                   (Gateway.OrderID requestData)
                   (Gateway.RobokassaPassword config)) |}, None))
  /\
  (forall (config config' : Gateway.Config)
          (requestData requestData' : Gateway.PaymentRequestData),
      Gateway.RobokassaLogin config = Gateway.RobokassaLogin config' ->
      Gateway.RobokassaPassword config = Gateway.RobokassaPassword config' ->
      Gateway.Amount requestData = Gateway.Amount requestData' ->
      Gateway.OrderID requestData = Gateway.OrderID requestData' ->
      Gateway.createPayment fmt_g config None requestData =
      Gateway.createPayment fmt_g config' None requestData')
  /\
  (forall (rk : Api.PaymentConfig) (db db' : DB) (env : Api.Env)
          (r : Request Api.PaymentRequest) (resp : Response),
      Api.createPaymentHandler fmt_g rk db env r = (resp, db') ->
      StatusCode resp = StatusOK ->
      exists request,
        Body r = Ok request /\
        resp =
          Api.sendJSONResponse
            (Api.encode_PaymentResponse
               {| Api.presp_Status := "success";
                  Api.presp_Message := "Платеж создан";
                  Api.presp_RedirectURL :=
                    (Spec.redirect_url (Api.RobokassaLogin rk)
                       (fmt_g (Api.pr_Amount request))
                       (Itoa (payments_id_seq (seqs db)))
                       (Spec.signature sha1_Sum (Api.RobokassaLogin rk)
                          (fmt_g (Api.pr_Amount request))
                          (Itoa (payments_id_seq (seqs db)))
                          (Api.RobokassaPass rk))
                     ++ "&Desc=Оплата услуг&Culture=ru")%string;
                  Api.presp_PaymentID := payments_id_seq (seqs db);
                  Api.presp_ErrorMsg := "" |}) StatusOK).
Proof.
  split; [|split].
  - intros config requestData Hpos Hid. unfold Gateway.createPayment.
    rewrite Hpos. apply is_empty_false in Hid. rewrite Hid. reflexivity.
  - intros config config' requestData requestData' Hl Hp Ha Ho.
    unfold Gateway.createPayment. rewrite Hl, Hp, Ha, Ho. reflexivity.
  - intros rk db db' env r resp Hrun Hok. unfold Api.createPaymentHandler in Hrun.
    destruct (negb (String.eqb (Method r) MethodPost));
      [inversion Hrun; subst; discriminate Hok|].
    destruct (Body r) as [request|e];
      [|inversion Hrun; subst; discriminate Hok].
    destruct (f64_leb (Api.pr_Amount request) f64_zero);
      [inversion Hrun; subst; discriminate Hok|].
    destruct (Api.fault env 0); [inversion Hrun; subst; discriminate Hok|].
    destruct (Api.select_user_id_by_telegram db (Api.pr_TelegramID request));
      [|inversion Hrun; subst; discriminate Hok].
    destruct (Api.fault env 1); [inversion Hrun; subst; discriminate Hok|].
    unfold Api.insert_payment_returning_id in Hrun.
    inversion Hrun; subst. exists request. split; [reflexivity|].
    unfold Api.payment_redirectURL, Api.payment_signatureHash,
      Api.payment_signature, Spec.signature.
    rewrite redirect_url_Desc. reflexivity.
Qed.

Lemma payment_creation_signature_and_url_witness :
  Gateway.createPayment fmt_100 shop_config None pay_100_for_42 =
    ({| Gateway.Status := "success";
        Gateway.Message := "URL для оплаты сформирован";
        Gateway.PaymentURL :=
          "https://auth.robokassa.ru/Merchant/Index.aspx?MerchantLogin=shop&OutSum=100&InvId=42&SignatureValue=c3282a959d3c18cbdc87488b7c96d7bd5c605f3fc91eafa1a59b85223213e2a9" |},
     None)
  /\ StatusCode (fst (Api.createPaymentHandler fmt_100 shop one_user_db
                        (api_env 1000 "0123456789abcdef") payment_request_100))
     = StatusOK
  /\ exists request,
       Body payment_request_100 = Ok request /\
       fst (Api.createPaymentHandler fmt_100 shop one_user_db
              (api_env 1000 "0123456789abcdef") payment_request_100) =
       Api.sendJSONResponse
         (Api.encode_PaymentResponse
            {| Api.presp_Status := "success"; Api.presp_Message := "Платеж создан";
               Api.presp_RedirectURL :=
                 (Spec.redirect_url "shop" "100" (Itoa 1)
                    (Spec.signature sha1_Sum "shop" "100" (Itoa 1) "secret")
                  ++ "&Desc=Оплата услуг&Culture=ru")%string;
               Api.presp_PaymentID := 1; Api.presp_ErrorMsg := "" |}) StatusOK.
Proof.
  destruct (payment_creation_signature_and_url fmt_100) as [Hgw [_ Hapi]].
  split; [|split].
  - rewrite (Hgw shop_config pay_100_for_42);
      [vm_compute; reflexivity | vm_compute; reflexivity | discriminate].
  - vm_compute. reflexivity.
  - apply (Hapi shop one_user_db
             (snd (Api.createPaymentHandler fmt_100 shop one_user_db
                     (api_env 1000 "0123456789abcdef") payment_request_100))
             (api_env 1000 "0123456789abcdef")).
    + apply surjective_pairing.
    + vm_compute. reflexivity.
Defined.

(** ** The payment callback *)

(** C1 as stated does not hold for two callbacks.  A callback that carries
    no signature is a callback whose signature is not the expected digest,
    and it is answered with 400 "Неверные параметры"; a callback sent with
    PUT and a forged signature is answered with 405.  Neither is answered
    with 403 "Неверная подпись". *)
Lemma forged_callback_without_signature_400 :
  (FormValue (callback "POST" "") "SignatureValue"
     <> Api.expectedSign shop (FormValue (callback "POST" "") "OutSum")
          (FormValue (callback "POST" "") "InvId")
   /\ Api.robokassaCallbackHandler shop empty_db (api_env 1000 "0123456789abcdef")
        (callback "POST" "")
      = (Error "Неверные параметры" StatusBadRequest, empty_db)
   /\ StatusCode (fst (Api.robokassaCallbackHandler shop empty_db
                         (api_env 1000 "0123456789abcdef") (callback "POST" "")))
      <> StatusForbidden)
  /\
  (FormValue (callback "PUT" "deadbeef") "SignatureValue"
     <> Api.expectedSign shop (FormValue (callback "PUT" "deadbeef") "OutSum")
          (FormValue (callback "PUT" "deadbeef") "InvId")
   /\ Api.robokassaCallbackHandler shop empty_db (api_env 1000 "0123456789abcdef")
        (callback "PUT" "deadbeef")
      = (Error "Метод не поддерживается" StatusMethodNotAllowed, empty_db)).
Proof.
  split; [split; [|split] | split].
  - vm_compute. discriminate.
  - vm_compute. reflexivity.
  - vm_compute. discriminate.
  - vm_compute. discriminate.
  - vm_compute. reflexivity.
Qed.

(** C1, amended.  A callback whose SignatureValue is not the hexadecimal
    SHA-1 of login ":" OutSum ":" InvId ":" password changes nothing in the
    database and is rejected: with 405 when the method is neither POST nor
    GET, else with 400 "Неверные параметры" when InvId, OutSum or
    SignatureValue is empty, else with 403 "Неверная подпись". *)
Theorem forged_callback_rejected
    (rk : Api.PaymentConfig) (db : DB) (env : Api.Env) (r : Request unit) :
  FormValue r "SignatureValue"
    <> Api.expectedSign rk (FormValue r "OutSum") (FormValue r "InvId") ->
  snd (Api.robokassaCallbackHandler rk db env r) = db
  /\
  let resp := fst (Api.robokassaCallbackHandler rk db env r) in
  (Method r <> MethodPost /\ Method r <> MethodGet
   /\ resp = Error "Метод не поддерживается" StatusMethodNotAllowed)
  \/
  ((Method r = MethodPost \/ Method r = MethodGet)
   /\ (FormValue r "InvId" = "" \/ FormValue r "OutSum" = ""
       \/ FormValue r "SignatureValue" = "")
   /\ resp = Error "Неверные параметры" StatusBadRequest)
  \/
  ((Method r = MethodPost \/ Method r = MethodGet)
   /\ FormValue r "InvId" <> "" /\ FormValue r "OutSum" <> ""
   /\ FormValue r "SignatureValue" <> ""
   /\ resp = Error "Неверная подпись" StatusForbidden).
Proof.
  intros Hforged. unfold Api.robokassaCallbackHandler.
  destruct (String.eqb_spec (Method r) MethodPost) as [Hpost|Hpost];
    destruct (String.eqb_spec (Method r) MethodGet) as [Hget|Hget];
    cbn [negb andb].
  4: { split; [reflexivity|]. left. cbn [fst]. auto. }
  all: destruct (is_empty (FormValue r "InvId")) eqn:Hinv; cbn [orb];
    [ apply is_empty_true in Hinv; split; [reflexivity|];
      right; left; cbn [fst]; auto |].
  all: destruct (is_empty (FormValue r "OutSum")) eqn:Hout; cbn [orb];
    [ apply is_empty_true in Hout; split; [reflexivity|];
      right; left; cbn [fst]; auto |].
  all: destruct (is_empty (FormValue r "SignatureValue")) eqn:Hsig;
    [ apply is_empty_true in Hsig; split; [reflexivity|];
      right; left; cbn [fst]; auto |].
  all: apply is_empty_false in Hinv, Hout, Hsig.
  all: apply String.eqb_neq in Hforged; rewrite Hforged; cbn [negb].
  all: split; [reflexivity|]; right; right; cbn [fst]; auto 10.
Qed.

Lemma forged_callback_rejected_witness :
  snd (Api.robokassaCallbackHandler shop one_user_db
         (api_env 1000 "0123456789abcdef") (callback "GET" "deadbeef"))
  = one_user_db
  /\ fst (Api.robokassaCallbackHandler shop one_user_db
            (api_env 1000 "0123456789abcdef") (callback "GET" "deadbeef"))
     = Error "Неверная подпись" StatusForbidden.
Proof.
  assert (Hforged :
            FormValue (callback "GET" "deadbeef") "SignatureValue"
            <> Api.expectedSign shop (FormValue (callback "GET" "deadbeef") "OutSum")
                 (FormValue (callback "GET" "deadbeef") "InvId"))
    by (vm_compute; discriminate).
  destruct (forged_callback_rejected shop one_user_db
              (api_env 1000 "0123456789abcdef") (callback "GET" "deadbeef") Hforged)
    as [Hdb Hresp].
  split; [exact Hdb|].
  destruct Hresp as [[_ [Hm _]] | [[_ [Hempty _]] | [_ [_ [_ [_ H403]]]]]].
  - exfalso. apply Hm. reflexivity.
  - exfalso. destruct Hempty as [H | [H | H]]; vm_compute in H; discriminate H.
  - exact H403.
Defined.

(** *** Rows touched by an update *)

Lemma filter_none {A} (f : A -> bool) (l : list A) :
  (forall x, In x l -> f x = false) -> filter f l = [].
Proof.
  induction l as [|a l IH]; intros H; [reflexivity|].
  simpl. rewrite (H a (or_introl eq_refl)). apply IH.
  intros x Hx. apply H. right. exact Hx.
Qed.

Lemma map_unless {A} (f : A -> bool) (g : A -> A) (l : list A) :
  (forall x, In x l -> f x = false) ->
  map (fun x => if f x then g x else x) l = l.
Proof.
  induction l as [|a l IH]; intros H; [reflexivity|].
  simpl. rewrite (H a (or_introl eq_refl)). f_equal. apply IH.
  intros x Hx. apply H. right. exact Hx.
Qed.

Lemma UPDATE_payments_one (ts : timestamp) (where_ : PaymentRow -> bool)
    (set_ : PaymentRow -> PaymentRow) (t : Tables) (ps1 ps2 : list PaymentRow)
    (p : PaymentRow) :
  payments t = (ps1 ++ p :: ps2)%list ->
  where_ p = true ->
  (forall q, In q (ps1 ++ ps2)%list -> where_ q = false) ->
  UPDATE_payments ts where_ set_ t =
    (set_orders (set_payments t (ps1 ++ set_ p :: ps2)%list)
       (update_order_status_on_payment ts p (set_ p) (orders t)), 1).
Proof.
  intros Hps Hp Hothers. unfold UPDATE_payments. rewrite Hps.
  assert (H1 : forall q, In q ps1 -> where_ q = false)
    by (intros q Hq; apply Hothers, in_or_app; left; exact Hq).
  assert (H2 : forall q, In q ps2 -> where_ q = false)
    by (intros q Hq; apply Hothers, in_or_app; right; exact Hq).
  rewrite filter_app, map_app. cbn [filter map]. rewrite Hp.
  rewrite (filter_none _ _ H1), (filter_none _ _ H2).
  rewrite (map_unless _ _ _ H1), (map_unless _ _ _ H2).
  reflexivity.
Qed.

Lemma UPDATE_payments_none (ts : timestamp) (where_ : PaymentRow -> bool)
    (set_ : PaymentRow -> PaymentRow) (t : Tables) :
  (forall q, In q (payments t) -> where_ q = false) ->
  UPDATE_payments ts where_ set_ t =
    (set_orders (set_payments t (payments t)) (orders t), 0).
Proof.
  intros H. unfold UPDATE_payments.
  rewrite (filter_none _ _ H), (map_unless _ _ _ H). reflexivity.
Qed.

Lemma trigger_marks_order_paid (ts : timestamp) (OLD NEW : PaymentRow)
    (os1 os2 : list OrderRow) (o : OrderRow) (oid : Z) :
  pay_status NEW = "completed" ->
  pay_status OLD <> "completed" ->
  pay_order_id NEW = Some oid ->
  ord_id o = oid ->
  ord_status o = "pending" ->
  (forall q, In q (os1 ++ os2)%list -> ord_id q <> oid) ->
  update_order_status_on_payment ts OLD NEW (os1 ++ o :: os2)%list =
    (os1 ++ update_modified_column ts (set_ord_status o "paid") :: os2)%list.
Proof.
  intros Hnew Hold Hoid Ho Hst Hothers. unfold update_order_status_on_payment.
  rewrite Hnew. apply String.eqb_neq in Hold. rewrite Hold. cbn [String.eqb andb negb].
  replace (String.eqb "completed" "completed") with true by reflexivity.
  cbn [andb]. rewrite Hoid.
  assert (H : forall q, In q (os1 ++ os2)%list ->
              opt_Z_eqb (Some (ord_id q)) (Some oid)
              && String.eqb (ord_status q) "pending" = false).
  { intros q Hq. cbn [opt_Z_eqb]. apply Hothers in Hq.
    apply Z.eqb_neq in Hq. rewrite Hq. reflexivity. }
  rewrite map_app. cbn [map].
  rewrite (map_unless _ _ os1), (map_unless _ _ os2).
  - cbn [opt_Z_eqb]. rewrite Ho, Z.eqb_refl, Hst. reflexivity.
  - intros q Hq. apply H, in_or_app. right. exact Hq.
  - intros q Hq. apply H, in_or_app. left. exact Hq.
Qed.

Lemma callback_signed_runs (rk : Api.PaymentConfig) (db : DB) (env : Api.Env)
    (r : Request unit) (paymentID : Z) :
  (Method r = MethodPost \/ Method r = MethodGet) ->
  FormValue r "OutSum" <> "" ->
  FormValue r "SignatureValue"
    = Api.expectedSign rk (FormValue r "OutSum") (FormValue r "InvId") ->
  Atoi (FormValue r "InvId") = Ok paymentID ->
  Api.fault env 0 = false ->
  Api.robokassaCallbackHandler rk db env r =
    (Write ("OK" ++ FormValue r "InvId"),
     fst (Api.update_payment_completed db (Api.db_now env) (Api.time_Now env)
            (FormValue r "Shp_TransactionId") paymentID)).
Proof.
  intros Hm Hout Hsig Hid Hfault. unfold Api.robokassaCallbackHandler.
  assert (Hmethod : negb (String.eqb (Method r) MethodPost)
                    && negb (String.eqb (Method r) MethodGet) = false).
  { destruct Hm as [-> | ->]; reflexivity. }
  rewrite Hmethod.
  assert (Hinv : is_empty (FormValue r "InvId") = false).
  { destruct (FormValue r "InvId"); [discriminate Hid | reflexivity]. }
  rewrite Hinv. apply is_empty_false in Hout. rewrite Hout.
  assert (Hs : is_empty (FormValue r "SignatureValue") = false).
  { apply is_empty_false. rewrite Hsig. apply hex_sha1_not_empty. }
  rewrite Hs. cbn [orb].
  rewrite Hsig at 1. rewrite String.eqb_refl. cbn [negb].
  rewrite Hid, Hfault.
  destruct (Api.update_payment_completed db (Api.db_now env) (Api.time_Now env)
              (FormValue r "Shp_TransactionId") paymentID) as [db' n].
  reflexivity.
Qed.

Lemma callback_on_createTables (rk : Api.PaymentConfig) (db : DB) (env : Api.Env)
    (r : Request unit) :
  Api.robokassaCallbackHandler_on rk payments_of_createTables db env r
  = Api.robokassaCallbackHandler rk db env r.
Proof.
  unfold Api.robokassaCallbackHandler_on, Api.robokassaCallbackHandler.
  replace (forallb (has_column payments_of_createTables)
             Api.update_payment_completed_columns) with true by reflexivity.
  cbn [negb]. rewrite Bool.orb_false_r. reflexivity.
Qed.

Lemma callback_on_DATABASE_sql (rk : Api.PaymentConfig) (db : DB) (env : Api.Env)
    (r : Request unit) (paymentID : Z) :
  (Method r = MethodPost \/ Method r = MethodGet) ->
  FormValue r "OutSum" <> "" ->
  FormValue r "SignatureValue"
    = Api.expectedSign rk (FormValue r "OutSum") (FormValue r "InvId") ->
  Atoi (FormValue r "InvId") = Ok paymentID ->
  Api.robokassaCallbackHandler_on rk payments_of_DATABASE_sql db env r
  = (Error "Ошибка обновления платежа" StatusInternalServerError, db).
Proof.
  intros Hm Hout Hsig Hid. unfold Api.robokassaCallbackHandler_on.
  assert (Hmethod : negb (String.eqb (Method r) MethodPost)
                    && negb (String.eqb (Method r) MethodGet) = false).
  { destruct Hm as [-> | ->]; reflexivity. }
  rewrite Hmethod.
  assert (Hinv : is_empty (FormValue r "InvId") = false).
  { destruct (FormValue r "InvId"); [discriminate Hid | reflexivity]. }
  rewrite Hinv. apply is_empty_false in Hout. rewrite Hout.
  assert (Hs : is_empty (FormValue r "SignatureValue") = false).
  { apply is_empty_false. rewrite Hsig. apply hex_sha1_not_empty. }
  rewrite Hs. cbn [orb].
  rewrite Hsig at 1. rewrite String.eqb_refl. cbn [negb].
  rewrite Hid.
  replace (forallb (has_column payments_of_DATABASE_sql)
             Api.update_payment_completed_columns) with false by reflexivity.
  cbn [negb]. rewrite Bool.orb_true_r. reflexivity.
Qed.

(** C2.  The callback handler and the trigger are written for different
    [payments] tables, and no order becomes "paid" through a callback.
    On the table of DATABASE.sql, the one whose payments have an order and
    on which [update_order_status_on_payment] is defined, the UPDATE of the
    handler names the column [robokassa_id], which the table does not have:
    every correctly signed callback is answered with 500 "Ошибка обновления
    платежа", and the payment and its order stay as they were.  On the table
    that [createTables] of the API declares, the same callback submitted
    twice is acknowledged with "OK" and the id both times; the first call
    makes the one pending row of that id "completed", the second touches no
    row and leaves the database as the first left it; the rows have no
    order, and [orders] is not changed.  The trigger by itself, for a row
    that an UPDATE makes "completed" and whose order is "pending", makes
    that order "paid". *)
Theorem callback_marks_no_order_paid
    (rk : Api.PaymentConfig) (r : Request unit) (paymentID : Z) :
  (Method r = MethodPost \/ Method r = MethodGet) ->
  FormValue r "OutSum" <> "" ->
  FormValue r "SignatureValue"
    = Api.expectedSign rk (FormValue r "OutSum") (FormValue r "InvId") ->
  Atoi (FormValue r "InvId") = Ok paymentID ->
  (forall (db : DB) (env : Api.Env),
      Api.robokassaCallbackHandler_on rk payments_of_DATABASE_sql db env r
      = (Error "Ошибка обновления платежа" StatusInternalServerError, db))
  /\
  (forall (db : DB) (env1 env2 : Api.Env)
          (ps1 ps2 : list PaymentRow) (p : PaymentRow),
      Api.fault env1 0 = false ->
      Api.fault env2 0 = false ->
      payments (tables db) = (ps1 ++ p :: ps2)%list ->
      Forall without_order (payments (tables db)) ->
      pay_id p = paymentID ->
      pay_status p = "pending" ->
      (forall q, In q (ps1 ++ ps2)%list -> pay_id q <> paymentID) ->
      let (resp1, db1) :=
        Api.robokassaCallbackHandler_on rk payments_of_createTables db env1 r in
      let (resp2, db2) :=
        Api.robokassaCallbackHandler_on rk payments_of_createTables db1 env2 r in
      resp1 = Write ("OK" ++ FormValue r "InvId")
      /\ resp2 = Write ("OK" ++ FormValue r "InvId")
      /\ payments (tables db1) =
           (ps1 ++ Api.complete_payment (Api.time_Now env1)
                     (FormValue r "Shp_TransactionId") p :: ps2)%list
      /\ orders (tables db1) = orders (tables db)
      /\ db2 = db1)
  /\
  (forall (ts : timestamp) (OLD NEW : PaymentRow)
          (os1 os2 : list OrderRow) (o : OrderRow),
      pay_status NEW = "completed" ->
      pay_status OLD <> "completed" ->
      pay_order_id NEW = Some (ord_id o) ->
      ord_status o = "pending" ->
      (forall q, In q (os1 ++ os2)%list -> ord_id q <> ord_id o) ->
      update_order_status_on_payment ts OLD NEW (os1 ++ o :: os2)%list =
        (os1 ++ update_modified_column ts (set_ord_status o "paid") :: os2)%list).
Proof.
  intros Hm Hout Hsig Hid. split; [|split].
  - intros db env.
    apply (callback_on_DATABASE_sql rk db env r paymentID); assumption.
  - intros db env1 env2 ps1 ps2 p Hf1 Hf2 Hps Hrows Hp Hst Hps'.
    rewrite callback_on_createTables.
    rewrite (callback_signed_runs rk db env1 r paymentID Hm Hout Hsig Hid Hf1).
    set (where_ := fun q : PaymentRow =>
                     (pay_id q =? paymentID) && String.eqb (pay_status q) "pending").
    assert (Hhit : where_ p = true).
    { unfold where_. rewrite Hp, Z.eqb_refl, Hst. reflexivity. }
    assert (Hmiss : forall q, In q (ps1 ++ ps2)%list -> where_ q = false).
    { intros q Hq. unfold where_. apply Hps' in Hq. apply Z.eqb_neq in Hq.
      rewrite Hq. reflexivity. }
    assert (Hnone : pay_order_id p = None).
    { rewrite Forall_forall in Hrows. apply Hrows. rewrite Hps.
      apply in_or_app. right. left. reflexivity. }
    assert (Hfirst :
      Api.update_payment_completed db (Api.db_now env1) (Api.time_Now env1)
        (FormValue r "Shp_TransactionId") paymentID =
      ({| tables :=
            set_orders
              (set_payments (tables db)
                 (ps1 ++ Api.complete_payment (Api.time_Now env1)
                           (FormValue r "Shp_TransactionId") p :: ps2)%list)
              (orders (tables db));
          seqs := seqs db |}, 1)).
    { unfold Api.update_payment_completed. fold where_.
      rewrite (UPDATE_payments_one _ where_ _ _ ps1 ps2 p Hps Hhit Hmiss).
      unfold update_order_status_on_payment.
      cbn [Api.complete_payment pay_order_id pay_status]. rewrite Hnone.
      cbn [opt_Z_eqb andb].
      rewrite map_id. destruct (_ && _); reflexivity. }
    rewrite Hfirst. cbn [fst snd].
    set (db1 := {| tables := _; seqs := seqs db |}).
    rewrite callback_on_createTables.
    rewrite (callback_signed_runs rk db1 env2 r paymentID Hm Hout Hsig Hid Hf2).
    assert (Hsecond :
      Api.update_payment_completed db1 (Api.db_now env2) (Api.time_Now env2)
        (FormValue r "Shp_TransactionId") paymentID = (db1, 0)).
    { unfold Api.update_payment_completed. fold where_.
      rewrite UPDATE_payments_none; [reflexivity|].
      intros q Hq. unfold db1 in Hq. cbn in Hq.
      apply in_app_or in Hq. destruct Hq as [Hq | [Hq | Hq]].
      - apply Hmiss, in_or_app. left. exact Hq.
      - subst q. unfold where_. cbn. rewrite Bool.andb_false_r. reflexivity.
      - apply Hmiss, in_or_app. right. exact Hq. }
    rewrite Hsecond. cbn [fst snd].
    repeat split; reflexivity.
  - intros ts OLD NEW os1 os2 o Hnew Hold Hoid Hst Hothers.
    apply (trigger_marks_order_paid ts OLD NEW os1 os2 o (ord_id o));
      try assumption. reflexivity.
Qed.

Lemma callback_marks_no_order_paid_witness :
  Api.robokassaCallbackHandler_on shop payments_of_DATABASE_sql sql_pending_db
    (api_env 1000 "0123456789abcdef") signed_callback
  = (Error "Ошибка обновления платежа" StatusInternalServerError, sql_pending_db)
  /\
  (let (resp1, db1) :=
     Api.robokassaCallbackHandler_on shop payments_of_createTables created_db
       (api_env 2000 "0123456789abcdef") signed_callback in
   let (resp2, db2) :=
     Api.robokassaCallbackHandler_on shop payments_of_createTables db1
       (api_env 3000 "0123456789abcdef") signed_callback in
   resp1 = Write "OK1"
   /\ resp2 = Write "OK1"
   /\ map pay_status (payments (tables db1)) = ["completed"]
   /\ orders (tables db1) = orders (tables created_db)
   /\ db2 = db1).
Proof.
  assert (Hsig : FormValue signed_callback "SignatureValue"
                 = Api.expectedSign shop (FormValue signed_callback "OutSum")
                     (FormValue signed_callback "InvId")) by reflexivity.
  assert (Hid : Atoi (FormValue signed_callback "InvId") = Ok 1)
    by (vm_compute; reflexivity).
  assert (Hout : FormValue signed_callback "OutSum" <> "") by discriminate.
  destruct (callback_marks_no_order_paid shop signed_callback 1
              (or_introl eq_refl) Hout Hsig Hid) as [Hsql [Hapi _]].
  split; [apply Hsql|].
  assert (Hrows : payments (tables created_db)
                  = ([] ++ [{| pay_id := 1; pay_user_id := Some 1;
                               pay_order_id := None;
                               pay_amount := f64_of_int 100; pay_currency := "RUB";
                               pay_status := "pending"; pay_transaction_id := None;
                               pay_created_at := 1000;
                               pay_completed_at := None |}])%list)
    by (vm_compute; reflexivity).
  pose proof (Hapi created_db (api_env 2000 "0123456789abcdef")
                (api_env 3000 "0123456789abcdef") [] [] _
                eq_refl eq_refl Hrows) as H.
  cbv zeta in H.
  destruct (Api.robokassaCallbackHandler_on shop payments_of_createTables created_db
              (api_env 2000 "0123456789abcdef") signed_callback) as [resp1 db1].
  destruct (Api.robokassaCallbackHandler_on shop payments_of_createTables db1
              (api_env 3000 "0123456789abcdef") signed_callback) as [resp2 db2].
  destruct H as [H1 [H2 [H3 [H4 H5]]]].
  - rewrite Hrows. constructor; [reflexivity | constructor].
  - reflexivity.
  - reflexivity.
  - intros q [].
  - rewrite H1, H2, H3, H4, H5. repeat split; reflexivity.
Defined.

(** ** Registration *)

Lemma filter_map_hit {A} (hit : A -> bool) (g : A -> A) (l : list A) :
  (forall x, hit (g x) = hit x) ->
  filter hit (map (fun x => if hit x then g x else x) l) = map g (filter hit l).
Proof.
  intros Hg. induction l as [|a l IH]; [reflexivity|].
  cbn [map filter]. destruct (hit a) eqn:Ha.
  - rewrite Hg, Ha. cbn [map]. rewrite IH. reflexivity.
  - rewrite Ha. exact IH.
Qed.

Lemma existsb_false_filter {A} (f : A -> bool) (l : list A) :
  existsb f l = false -> filter f l = [].
Proof.
  induction l as [|a l IH]; [reflexivity|].
  cbn [existsb filter]. destruct (f a); [discriminate|]. exact IH.
Qed.

Lemma filter_cons_existsb {A} (f : A -> bool) (l : list A) (u : A) (rest : list A) :
  filter f l = u :: rest -> existsb f l = true.
Proof.
  induction l as [|a l IH]; [discriminate|].
  cbn [existsb filter]. destruct (f a); [reflexivity|]. exact IH.
Qed.

Lemma register_success_shape (db db1 : DB) (env : Api.Env)
    (r : Request Api.UserRegistrationRequest) (q : Api.UserRegistrationRequest)
    (userID : Z) :
  Body r = Ok q ->
  Api.registerUserHandler db env r
    = (Spec.registered userID (Api.generateAPIKey env), db1) ->
  0 < Api.reg_TelegramID q
  /\ exists u,
       filter (fun u => user_telegram_id u =? Api.reg_TelegramID q)
              (users (tables db1)) = [u]
       /\ user_id u = userID
       /\ user_api_key u = Some (Api.generateAPIKey env)
       /\ (Api.select_exists_user db (Api.reg_TelegramID q) = false ->
           users (tables db1) = (users (tables db) ++ [u])%list).
Proof.
  intros Hbody Hrun. unfold Api.registerUserHandler in Hrun. rewrite Hbody in Hrun.
  destruct (negb (String.eqb (Method r) MethodPost)); [discriminate Hrun|].
  destruct (Api.reg_TelegramID q <=? 0) eqn:Htid; [discriminate Hrun|].
  apply Z.leb_gt in Htid. split; [exact Htid|].
  cbn [orb] in Hrun.
  destruct (is_empty (Api.reg_INN q)); [discriminate Hrun|].
  destruct (Api.fault env 0); [discriminate Hrun|].
  destruct (Api.fault env 1); [discriminate Hrun|].
  destruct (Api.select_exists_user db (Api.reg_TelegramID q)) eqn:Hex.
  - unfold Api.update_user_returning_id in Hrun.
    destruct (existsb _ _ || _) eqn:Hunique; [discriminate Hrun|].
    apply Bool.orb_false_elim in Hunique. destruct Hunique as [_ Hone].
    destruct (filter (fun u => user_telegram_id u =? Api.reg_TelegramID q)
                     (users (tables db))) as [|u rest] eqn:Hf;
      [discriminate Hrun|].
    destruct rest as [|u' rest].
    2: { cbn [List.length] in Hone. apply Z.ltb_ge in Hone. lia. }
    injection Hrun as Hid Hdb. subst db1 userID.
    exists (Api.set_registration u (Api.reg_INN q) (Api.reg_Email q)
              (Api.time_Now env) (Api.generateAPIKey env)).
    cbn [tables users set_users].
    rewrite filter_map_hit by reflexivity. rewrite Hf.
    repeat split; try reflexivity. discriminate.
  - unfold Api.insert_user_returning_id in Hrun.
    destruct (existsb _ _) eqn:Hunique; [discriminate Hrun|].
    injection Hrun as Hid Hdb. subst db1 userID.
    eexists. cbn [tables users set_users].
    rewrite filter_app. unfold Api.select_exists_user in Hex.
    rewrite (existsb_false_filter _ _ Hex). cbn [filter app user_telegram_id].
    rewrite Z.eqb_refl. repeat split; reflexivity.
Qed.

Lemma register_existing (db : DB) (env : Api.Env)
    (r : Request Api.UserRegistrationRequest) (q : Api.UserRegistrationRequest)
    (u : UserRow) :
  Method r = MethodPost ->
  Body r = Ok q ->
  0 < Api.reg_TelegramID q ->
  Api.reg_INN q <> "" ->
  Api.fault env 0 = false ->
  Api.fault env 1 = false ->
  filter (fun u => user_telegram_id u =? Api.reg_TelegramID q) (users (tables db))
    = [u] ->
  (forall v, In v (users (tables db)) ->
             user_telegram_id v <> Api.reg_TelegramID q ->
             user_api_key v <> Some (Api.generateAPIKey env)) ->
  Api.registerUserHandler db env r =
    (Spec.registered (user_id u) (Api.generateAPIKey env),
     {| tables :=
          set_users (tables db)
            (map (fun v =>
                    if user_telegram_id v =? Api.reg_TelegramID q
                    then Api.set_registration v (Api.reg_INN q) (Api.reg_Email q)
                           (Api.time_Now env) (Api.generateAPIKey env)
                    else v)
                 (users (tables db)));
        seqs := seqs db |}).
Proof.
  intros Hm Hbody Htid Hinn Hf0 Hf1 Hrow Hkeys.
  unfold Api.registerUserHandler. rewrite Hm, Hbody. cbn [String.eqb negb].
  replace (String.eqb MethodPost MethodPost) with true by reflexivity.
  cbn [negb].
  apply Z.leb_gt in Htid. rewrite Htid. apply is_empty_false in Hinn.
  rewrite Hinn. cbn [orb]. rewrite Hf0, Hf1.
  unfold Api.select_exists_user. rewrite (filter_cons_existsb _ _ _ _ Hrow).
  unfold Api.update_user_returning_id. rewrite Hrow.
  assert (Hunique :
    existsb (fun v => negb (user_telegram_id v =? Api.reg_TelegramID q)
                      && opt_string_eqb (user_api_key v) (Api.generateAPIKey env))
            (users (tables db)) = false).
  { destruct (existsb _ _) eqn:He; [|reflexivity]. exfalso.
    apply existsb_exists in He. destruct He as [v [Hv Hc]].
    apply Bool.andb_true_iff in Hc. destruct Hc as [Hne Hk].
    apply Bool.negb_true_iff, Z.eqb_neq in Hne.
    apply (Hkeys v Hv Hne).
    unfold opt_string_eqb in Hk. destruct (user_api_key v) as [k|]; [|discriminate].
    apply String.eqb_eq in Hk. rewrite Hk. reflexivity. }
  rewrite Hunique. reflexivity.
Qed.

(** X26.  [registerUserHandler] of the API.  When a registration has been
    answered with the internal user id [userID], a second registration with
    the same telegram id is answered with the same [userID] and with a new
    api key, different from the first whenever the random bytes drawn
    differ.  The first call inserted a row if no user had this telegram id;
    the second call updates the row of that user (inn, email, last_active,
    api_key) and no other. *)
Theorem register_twice_same_user
    (db db1 : DB) (env1 env2 : Api.Env)
    (r1 r2 : Request Api.UserRegistrationRequest)
    (q1 q2 : Api.UserRegistrationRequest) (userID : Z) (b1 b2 : string) :
  Body r1 = Ok q1 ->
  Body r2 = Ok q2 ->
  Method r2 = MethodPost ->
  Api.reg_TelegramID q2 = Api.reg_TelegramID q1 ->
  Api.reg_INN q2 <> "" ->
  Api.rand_Read env1 = Ok b1 ->
  Api.rand_Read env2 = Ok b2 ->
  b1 <> b2 ->
  Api.registerUserHandler db env1 r1 = (Spec.registered userID (hex b1), db1) ->
  Api.fault env2 0 = false ->
  Api.fault env2 1 = false ->
  (forall v, In v (users (tables db1)) ->
             user_telegram_id v <> Api.reg_TelegramID q1 ->
             user_api_key v <> Some (hex b2)) ->
  exists db2,
    Api.registerUserHandler db1 env2 r2 = (Spec.registered userID (hex b2), db2)
    /\ hex b2 <> hex b1
    /\ (Api.select_exists_user db (Api.reg_TelegramID q1) = false ->
        exists u, users (tables db1) = (users (tables db) ++ [u])%list
                  /\ user_id u = userID
                  /\ user_api_key u = Some (hex b1))
    /\ users (tables db2) =
         map (fun v =>
                if user_telegram_id v =? Api.reg_TelegramID q1
                then Api.set_registration v (Api.reg_INN q2) (Api.reg_Email q2)
                       (Api.time_Now env2) (hex b2)
                else v)
             (users (tables db1)).
Proof.
  intros Hb1 Hb2 Hm Htid Hinn Hr1 Hr2 Hdiff Hfirst Hf0 Hf1 Hkeys.
  assert (Hk1 : Api.generateAPIKey env1 = hex b1)
    by (unfold Api.generateAPIKey; rewrite Hr1; reflexivity).
  assert (Hk2 : Api.generateAPIKey env2 = hex b2)
    by (unfold Api.generateAPIKey; rewrite Hr2; reflexivity).
  rewrite <- Hk1 in Hfirst.
  destruct (register_success_shape db db1 env1 r1 q1 userID Hb1 Hfirst)
    as [Hpos [u [Hrow [Hid [Hkey Hins]]]]].
  rewrite <- Htid in Hrow, Hpos, Hkeys.
  rewrite <- Hk2 in Hkeys.
  pose proof (register_existing db1 env2 r2 q2 u Hm Hb2 Hpos Hinn Hf0 Hf1 Hrow Hkeys)
    as Hsecond.
  rewrite Hid, Hk2, Htid in Hsecond.
  eexists. split; [exact Hsecond|]. split; [|split].
  - intros Heq. apply Hdiff. symmetry. apply hex_inj. exact Heq.
  - intros Habsent. exists u. rewrite <- Hk1.
    split; [apply Hins; exact Habsent | split; assumption].
  - reflexivity.
Qed.

Lemma register_twice_same_user_witness :
  exists db2,
    Api.registerUserHandler registered_db (api_env 2000 "fedcba9876543210")
      (register_request "7707083893")
    = (Spec.registered 1 (hex "fedcba9876543210"), db2)
    /\ hex "fedcba9876543210" <> hex "0123456789abcdef"
    /\ map user_api_key (users (tables db2)) = [Some (hex "fedcba9876543210")].
Proof.
  destruct (register_twice_same_user empty_db registered_db
              (api_env 1000 "0123456789abcdef") (api_env 2000 "fedcba9876543210")
              (register_request "7707083893") (register_request "7707083893")
              (registration "7707083893") (registration "7707083893") 1
              "0123456789abcdef" "fedcba9876543210")
    as [db2 [Hsecond [Hchanged [_ Husers]]]].
  - reflexivity.
  - reflexivity.
  - reflexivity.
  - reflexivity.
  - discriminate.
  - reflexivity.
  - reflexivity.
  - discriminate.
  - vm_compute. reflexivity.
  - reflexivity.
  - reflexivity.
  - intros v [<- | []] Hne. exfalso. apply Hne. reflexivity.
  - exists db2. split; [exact Hsecond|]. split; [exact Hchanged|].
    rewrite Husers. vm_compute. reflexivity.
Defined.

(** ** Authentication *)

Lemma find_all_false {A} (f : A -> bool) (l : list A) :
  (forall x, In x l -> f x = false) -> find f l = None.
Proof.
  induction l as [|a l IH]; intros H; [reflexivity|].
  cbn [find]. rewrite (H a (or_introl eq_refl)). apply IH.
  intros x Hx. apply H. right. exact Hx.
Qed.

Lemma opt_string_eqb_false (o : option string) (s : string) :
  opt_string_eqb o s = false <-> o <> Some s.
Proof.
  unfold opt_string_eqb. destruct o as [x|].
  - split.
    + intros H Heq. injection Heq as ->. rewrite String.eqb_refl in H. discriminate.
    + intros H. apply String.eqb_neq. intros ->. apply H. reflexivity.
  - split; [discriminate | reflexivity].
Qed.

Lemma select_by_api_key_none (db : DB) (apiKey : string) :
  Api.select_user_id_by_api_key db apiKey = None
  <-> (forall u, In u (users (tables db)) -> user_api_key u <> Some apiKey).
Proof.
  unfold Api.select_user_id_by_api_key. split.
  - intros H u Hu.
    destruct (find _ _) eqn:Hfind; [discriminate|].
    apply opt_string_eqb_false. exact (find_none _ _ Hfind u Hu).
  - intros H. rewrite find_all_false; [reflexivity|].
    intros u Hu. apply opt_string_eqb_false. apply H. exact Hu.
Qed.

(** C10 as stated does not hold for two requests.  A request for a page
    under /docs/, which is not in the map [publicPaths], is forwarded
    although it carries an api key that no user has; and a request that
    carries the api key of a user is answered 401 when the query that looks
    the key up fails. *)
Lemma authMiddleware_401_not_only_unknown_keys :
  (Api.publicPaths (Path (with_api_key "/docs/index.html" "nobody")) = false
   /\ Header_Get (with_api_key "/docs/index.html" "nobody") "X-Api-Key" <> ""
   /\ (forall u, In u (users (tables one_user_db)) ->
                 user_api_key u <> Some "nobody")
   /\ Api.authenticate one_user_db (api_env 1000 "0123456789abcdef")
        (with_api_key "/docs/index.html" "nobody")
      = Api.Forward (with_api_key "/docs/index.html" "nobody") one_user_db 0%nat)
  /\
  (Api.publicPaths (Path (with_api_key "/api/kizs" "k1")) = false
   /\ (exists u, In u (users (tables one_user_db)) /\ user_api_key u = Some "k1")
   /\ Api.authenticate one_user_db db_down (with_api_key "/api/kizs" "k1")
      = Api.Reject (Error "Неавторизованный доступ" StatusUnauthorized)).
Proof.
  split.
  - split; [reflexivity|]. split; [discriminate|]. split; [|reflexivity].
    intros u [<- | []]. discriminate.
  - split; [reflexivity|]. split; [|reflexivity].
    exists (user_row 1 123456789 "k1"). split; [left|]; reflexivity.
Qed.

(** C10, amended.  For a request to a path that is neither in [publicPaths]
    nor under /docs/, [authMiddleware] answers 401 by itself if and only if
    the request carries a non-empty X-API-Key for which the lookup yields no
    user: the query fails, or no user has this api key.  It never answers
    anything else by itself, and a request without X-API-Key (or with an
    empty one) goes to the next handler as it is, with no query made. *)
Theorem authMiddleware_unauthorized {B : Type}
    (db : DB) (env : Api.Env) (r : Request B) :
  Api.publicPaths (Path r) = false ->
  HasPrefix (Path r) "/docs/" = false ->
  (Api.authenticate db env r
     = Api.Reject (Error "Неавторизованный доступ" StatusUnauthorized)
   <-> Header_Get r "X-Api-Key" <> ""
       /\ (Api.fault env 0 = true
           \/ forall u, In u (users (tables db)) ->
                        user_api_key u <> Some (Header_Get r "X-Api-Key")))
  /\ (forall resp, Api.authenticate db env r = Api.Reject resp ->
                   resp = Error "Неавторизованный доступ" StatusUnauthorized)
  /\ (Header_Get r "X-Api-Key" = "" ->
      Api.authenticate db env r = Api.Forward r db 0%nat
      /\ forall next : Api.Handler B,
           Api.authMiddleware next db env r = next db (Api.after 0 env) r).
Proof.
  intros Hmap Hdocs. unfold Api.authMiddleware, Api.authenticate.
  rewrite Hmap, Hdocs. cbn [orb].
  destruct (is_empty (Header_Get r "X-Api-Key")) eqn:Hkey.
  - apply is_empty_true in Hkey. split; [|split].
    + split; [discriminate | intros [Hne _]; contradiction].
    + discriminate.
    + intros _. split; reflexivity.
  - apply is_empty_false in Hkey.
    destruct (Api.fault env 0) eqn:Hfault.
    + split; [|split].
      * split; [intros _; split; [exact Hkey | left; reflexivity] | reflexivity].
      * intros resp H. injection H as <-. reflexivity.
      * intros Hempty. contradiction.
    + destruct (Api.select_user_id_by_api_key db (Header_Get r "X-Api-Key"))
        as [userID|] eqn:Hsel.
      * split; [|split].
        -- split; [discriminate|].
           intros [_ [Hf | Hnone]]; [discriminate Hf|].
           apply select_by_api_key_none in Hnone. congruence.
        -- discriminate.
        -- intros Hempty. contradiction.
      * split; [|split].
        -- split; [|reflexivity].
           intros _. split; [exact Hkey|]. right.
           apply select_by_api_key_none. exact Hsel.
        -- intros resp H. injection H as <-. reflexivity.
        -- intros Hempty. contradiction.
Qed.

Lemma authMiddleware_unauthorized_witness :
  Api.authenticate one_user_db (api_env 1000 "0123456789abcdef")
    (with_api_key "/api/kizs" "nobody")
  = Api.Reject (Error "Неавторизованный доступ" StatusUnauthorized).
Proof.
  apply (authMiddleware_unauthorized one_user_db (api_env 1000 "0123456789abcdef")
           (with_api_key "/api/kizs" "nobody")).
  - reflexivity.
  - reflexivity.
  - split; [discriminate|]. right. intros u [<- | []]. discriminate.
Defined.

(** ** Who may create a payment *)

Lemma select_by_telegram_none (us : list UserRow) (telegramID : Z) :
  (forall u, In u us -> user_telegram_id u <> telegramID) ->
  find (fun u => user_telegram_id u =? telegramID) us = None.
Proof.
  intros H. apply find_all_false. intros u Hu. apply Z.eqb_neq. apply H. exact Hu.
Qed.

Lemma createPaymentHandler_created (fmt_g : float64 -> string)
    (rk : Api.PaymentConfig) (db db' : DB) (env : Api.Env)
    (r : Request Api.PaymentRequest) (resp : Response) :
  Api.createPaymentHandler fmt_g rk db env r = (resp, db') ->
  StatusCode resp = StatusOK ->
  exists q userID,
    Body r = Ok q
    /\ Api.select_user_id_by_telegram db (Api.pr_TelegramID q) = Some userID
    /\ payments (tables db') =
         (payments (tables db) ++
          [{| pay_id := payments_id_seq (seqs db); pay_user_id := Some userID;
              pay_order_id := None; pay_amount := Api.pr_Amount q;
              pay_currency := "RUB"; pay_status := "pending";
              pay_transaction_id := None; pay_created_at := Api.db_now env;
              pay_completed_at := None |}])%list
    /\ orders (tables db') = orders (tables db).
Proof.
  intros Hrun Hok. unfold Api.createPaymentHandler in Hrun.
  destruct (negb (String.eqb (Method r) MethodPost));
    [inversion Hrun; subst; discriminate Hok|].
  destruct (Body r) as [q|e]; [|inversion Hrun; subst; discriminate Hok].
  destruct (f64_leb (Api.pr_Amount q) f64_zero);
    [inversion Hrun; subst; discriminate Hok|].
  destruct (Api.fault env 0); [inversion Hrun; subst; discriminate Hok|].
  destruct (Api.select_user_id_by_telegram db (Api.pr_TelegramID q))
    as [userID|] eqn:Hsel; [|inversion Hrun; subst; discriminate Hok].
  destruct (Api.fault env 1); [inversion Hrun; subst; discriminate Hok|].
  unfold Api.insert_payment_returning_id in Hrun.
  injection Hrun as Hresp Hdb. subst db'.
  exists q, userID. repeat split; try reflexivity. exact Hsel.
Qed.

Ltac run_conn :=
  unfold Store.serve, Store.getUserID, Store.statement, Store.Begin,
    Store.Commit, Store.Rollback, Store.db_call, Store.bind, Store.ret,
    Store.emit, Store.set_tx;
  cbn [fst snd Store.committed Store.sequences Store.tx Store.calls Store.events
       tables seqs app is_ok].


(** ** Values as the server takes them *)

Lemma utf8_chars_shorter (n : nat) :
  forall (s : string) (chars : list string),
    (String.length s <= n)%nat ->
    utf8_chars s = Some chars ->
    (List.length chars <= String.length s)%nat.
Proof.
  induction n as [|n IH]; intros s chars Hn Hs.
  - destruct s; [|cbn in Hn; lia]. injection Hs as <-. cbn. lia.
  - destruct s as [|c0 s1]; [injection Hs as <-; cbn; lia|].
    cbn [utf8_chars] in Hs. cbn [String.length] in *.
    destruct (byte_in 1 127 c0).
    { destruct (utf8_chars s1) as [l|] eqn:H1; [|discriminate Hs].
      injection Hs as <-. cbn [List.length].
      specialize (IH s1 l ltac:(lia) H1). lia. }
    destruct (byte_in 194 223 c0).
    { destruct s1 as [|c1 s2]; [discriminate Hs|].
      destruct (byte_in 128 191 c1); [|discriminate Hs].
      destruct (utf8_chars s2) as [l|] eqn:H2; [|discriminate Hs].
      injection Hs as <-. cbn [List.length String.length] in *.
      specialize (IH s2 l ltac:(lia) H2). lia. }
    destruct (byte_in 224 239 c0).
    { destruct s1 as [|c1 [|c2 s3]]; try discriminate Hs.
      destruct (_ && _); [|discriminate Hs].
      destruct (utf8_chars s3) as [l|] eqn:H3; [|discriminate Hs].
      injection Hs as <-. cbn [List.length String.length] in *.
      specialize (IH s3 l ltac:(lia) H3). lia. }
    destruct (byte_in 240 244 c0); [|discriminate Hs].
    destruct s1 as [|c1 [|c2 [|c3 s4]]]; try discriminate Hs.
    destruct (_ && _); [|discriminate Hs].
    destruct (utf8_chars s4) as [l|] eqn:H4; [|discriminate Hs].
    injection Hs as <-. cbn [List.length String.length] in *.
    specialize (IH s4 l ltac:(lia) H4). lia.
Qed.

Lemma utf8_chars_ascii (s : string) :
  ascii_text s = true ->
  utf8_chars s = Some (map (fun c => String c "") (list_ascii_of_string s)).
Proof.
  unfold ascii_text. induction s as [|c s IH]; intros H; [reflexivity|].
  cbn [list_ascii_of_string forallb] in H. apply Bool.andb_true_iff in H.
  destruct H as [Hc Hs]. cbn [utf8_chars list_ascii_of_string map].
  rewrite Hc, (IH Hs). reflexivity.
Qed.

Lemma concat_singletons (s : string) :
  String.concat "" (map (fun c => String c "") (list_ascii_of_string s)) = s.
Proof.
  induction s as [|c s IH]; [reflexivity|].
  cbn [list_ascii_of_string map]. destruct s as [|c' s']; [reflexivity|].
  cbn [list_ascii_of_string map String.concat] in *. rewrite IH. reflexivity.
Qed.

Lemma length_list_ascii (s : string) :
  List.length (list_ascii_of_string s) = String.length s.
Proof. induction s as [|c s IH]; cbn; [reflexivity | rewrite IH; reflexivity]. Qed.

(** A text of 14 ASCII characters is a value of [VARCHAR(14)], and the
    column keeps it as it is. *)
Lemma varchar_14_ascii (s : string) :
  ascii_text s = true ->
  String.length s = 14%nat ->
  varchar 14 s = Some (map (fun c => String c "") (list_ascii_of_string s))
  /\ kept_varchar 14 s = s.
Proof.
  intros Hascii Hlen.
  assert (H : varchar 14 s
              = Some (map (fun c => String c "") (list_ascii_of_string s))).
  { unfold varchar. rewrite (utf8_chars_ascii s Hascii).
    rewrite skipn_all2 by (rewrite length_map, length_list_ascii; lia).
    cbn [forallb]. rewrite firstn_all2 by (rewrite length_map, length_list_ascii; lia).
    reflexivity. }
  split; [exact H|]. unfold kept_varchar. rewrite H. apply concat_singletons.
Qed.

(** A text of fewer than 14 bytes has fewer than 14 characters. *)
Lemma varchar_14_short (s : string) (chars : list string) :
  (String.length s < 14)%nat ->
  varchar 14 s = Some chars ->
  (List.length chars < 14)%nat.
Proof.
  unfold varchar. intros Hlen H.
  destruct (utf8_chars s) as [l|] eqn:Hl; [|discriminate H].
  destruct (forallb _ _); [|discriminate H].
  assert (Hc : chars = firstn 14 l) by congruence.
  pose proof (utf8_chars_shorter _ s l (Nat.le_refl _) Hl).
  rewrite Hc, length_firstn. lia.
Qed.

(** ** The order transaction *)

Lemma insert_items_run (fault : nat -> bool) (orderID : Z)
    (items : list Models.OrderItem) :
  forall (c : Store.Conn) (view : Tables),
    Store.tx c = Some view ->
    let (err, c') := Store.insert_items fault orderID items c in
    Store.committed c' = Store.committed c
    /\ (exists evs, Store.events c' = (Store.events c ++ evs)%list
                    /\ Forall Spec.is_statement evs)
    /\ (exists view', Store.tx c' = Some view')
    /\ (err = None ->
        Store.tx c' =
          Some (set_order_items view
                  (order_items view ++
                   Spec.item_rows (order_items_id_seq (Store.sequences c))
                     orderID items)%list)).
Proof.
  induction items as [|it rest IH]; intros c view Htx.
  - cbn. split; [reflexivity|]. split; [exists []; rewrite app_nil_r; auto|].
    split; [eauto|]. intros _. rewrite Htx, app_nil_r.
    destruct view; reflexivity.
  - cbn [Store.insert_items]. run_conn.
    destruct (fault (Store.calls c)).
    + cbn. split; [reflexivity|]. split; [exists []; rewrite app_nil_r; auto|].
      split; [eauto|]. discriminate.
    + cbn. rewrite Htx. unfold Store.insert_order_item.
      destruct (Store.order_item_values it);
        [destruct (existsb _ _ && _ && _ && _)|].
      * cbn.
        match goal with
        | |- context [Store.insert_items fault orderID rest ?c1] =>
            specialize (IH c1 _ eq_refl);
            destruct (Store.insert_items fault orderID rest c1) as [err c']
        end.
        cbn in IH. destruct IH as [Hc [[evs [Hev Hst]] [Hopen Hok]]].
        split; [exact Hc|]. split; [|split; [exact Hopen|]].
        -- exists (Store.EvStatement "INSERT INTO order_items" :: evs).
           rewrite Hev, <- app_assoc. split; [reflexivity|].
           constructor; [eexists; reflexivity | exact Hst].
        -- intros Herr. rewrite (Hok Herr). unfold Store.order_item_row.
           rewrite <- app_assoc. reflexivity.
      * cbn. split; [reflexivity|]. split; [|split; [eauto | discriminate]].
        exists [Store.EvStatement "INSERT INTO order_items"]. split; [reflexivity|].
        constructor; [eexists; reflexivity | constructor].
      * cbn. split; [reflexivity|]. split; [|split; [eauto | discriminate]].
        exists [Store.EvStatement "INSERT INTO order_items"]. split; [reflexivity|].
        constructor; [eexists; reflexivity | constructor].
Qed.

Lemma statements_only (evs : list Store.Event) :
  Forall Spec.is_statement evs ->
  ~ In Store.EvCommit evs /\ ~ In Store.EvExternalAPI evs.
Proof.
  intros H. rewrite Forall_forall in H.
  split; intros Hin; destruct (H _ Hin) as [sql Hsql]; discriminate Hsql.
Qed.

Lemma handleKIZRequest_outcome (fault : nat -> bool) (db_now : timestamp)
    (ext : list Store.GTINData -> string -> list string * option string)
    (r : Request Store.KIZRequestBody) (db : DB) :
  let '(resp, db', evs) := Store.serve (Store.handleKIZRequest fault db_now ext r) db in
  (StatusCode resp <> StatusCreated
   /\ tables db' = tables db
   /\ ~ In Store.EvCommit evs /\ ~ In Store.EvExternalAPI evs
   /\ (In Store.EvBegin evs -> In Store.EvRollback evs))
  \/
  (exists q userID pre,
      Body r = Ok q
      /\ resp = Store.respondJSON StatusCreated
                 [("kizs", JStrings (fst (ext (Store.kiz_GTINs q) (Store.kiz_INN q))));
                  ("order_id", JNumber (orders_id_seq (seqs db)));
                  ("status", JString "created")]
      /\ evs = (pre ++ [Store.EvCommit; Store.EvExternalAPI])%list
      /\ Forall Spec.in_transaction pre
      /\ tables db' =
          set_order_items
            (set_orders (tables db)
               (orders (tables db) ++
                [Spec.order_header (orders_id_seq (seqs db)) userID
                   (Spec.sum_quantity_price (map Spec.item_of (Store.kiz_GTINs q)))
                   db_now])%list)
            (order_items (tables db) ++
             Spec.item_rows (order_items_id_seq (seqs db)) (orders_id_seq (seqs db))
               (map Spec.item_of (Store.kiz_GTINs q)))%list).
Proof.
  unfold Store.handleKIZRequest. destruct (Body r) as [q|e]; run_conn.
  2: { left. cbn. split; [discriminate|]. split; [reflexivity|]. tauto. }
  destruct db as [t s].
  destruct (fault 0%nat); cbn.
  { left. split; [discriminate|]. split; [reflexivity|]. tauto. }
  destruct (fault 1%nat); cbn.
  { left. split; [discriminate|]. split; [reflexivity|].
    intuition discriminate. }
  unfold Store.select_user_id.
  destruct (find _ (users t)) as [u|]; cbn.
  2: { left. split; [discriminate|]. split; [reflexivity|].
       intuition discriminate. }
  destruct (user_id u =? 0); cbn.
  { left. split; [discriminate|]. split; [reflexivity|].
    intuition discriminate. }
  rewrite prepareOrder_eq. unfold Store.createOrderTx. run_conn.
  destruct (fault 2%nat); cbn.
  { left. split; [discriminate|]. split; [reflexivity|].
    intuition discriminate. }
  unfold Store.insert_order.
  destruct (Store.order_values _); cbn.
  2: { left. split; [discriminate|]. split; [reflexivity|].
       intuition discriminate. }
  destruct (existsb _ _ && _); cbn.
  2: { left. split; [discriminate|]. split; [reflexivity|].
       intuition discriminate. }
  match goal with
  | |- context [Store.insert_items ?f ?id ?its ?c] =>
      pose proof (insert_items_run f id its c _ eq_refl) as Hitems;
      destruct (Store.insert_items f id its c) as [err c3]
  end.
  cbn in Hitems.
  destruct Hitems as [Hcommitted [[evs [Hevents Hstmts]] [[view3 Hopen] Hdone]]].
  destruct (statements_only evs Hstmts) as [Hnc Hne].
  assert (Hfailed :
    forall evs0,
      evs0 = (Store.events c3 ++ [Store.EvRollback])%list ->
      ~ In Store.EvCommit evs0 /\ ~ In Store.EvExternalAPI evs0
      /\ (In Store.EvBegin evs0 -> In Store.EvRollback evs0)).
  { intros evs0 ->. rewrite Hevents.
    split; [|split].
    - intros Hin. cbn in Hin.
      repeat (destruct Hin as [Hin|Hin]; [discriminate Hin|]).
      apply in_app_or in Hin. destruct Hin as [Hin|[Hin|[]]];
        [auto | discriminate Hin].
    - intros Hin. cbn in Hin.
      repeat (destruct Hin as [Hin|Hin]; [discriminate Hin|]).
      apply in_app_or in Hin. destruct Hin as [Hin|[Hin|[]]];
        [auto | discriminate Hin].
    - intros _. apply in_or_app. right. left. reflexivity. }
  destruct err as [e|]; cbn.
  - rewrite Hopen. cbn. rewrite Hcommitted. left.
    split; [discriminate|]. split; [reflexivity|].
    apply Hfailed. reflexivity.
  - rewrite Hopen. specialize (Hdone eq_refl). rewrite Hopen in Hdone.
    injection Hdone as Hview.
    destruct (fault (Store.calls c3)); cbn.
    + rewrite Hcommitted. left.
      split; [discriminate|]. split; [reflexivity|].
      apply Hfailed. reflexivity.
    + destruct (ext (Store.kiz_GTINs q) (Store.kiz_INN q)) as [kizs err] eqn:Hext.
      cbn. right.
      exists q, (user_id u),
        (Store.EvBegin
           :: Store.EvStatement "SELECT id FROM users WHERE telegram_id = $1"
           :: Store.EvStatement "INSERT INTO orders" :: evs).
      split; [reflexivity|]. split; [rewrite Hext; reflexivity|].
      split; [rewrite Hevents; cbn; rewrite <- app_assoc; reflexivity|].
      split; [|exact Hview].
      constructor; [left; reflexivity|].
      constructor; [right; eexists; reflexivity|].
      constructor; [right; eexists; reflexivity|].
      apply Forall_impl with (P := Spec.is_statement);
        [intros x Hx; right; exact Hx | exact Hstmts].
Qed.

(** C5.  Whatever fails between the beginning of the transaction and its
    commit (the insertion of the header, the insertion of any item, the
    commit itself), the transaction is rolled back, the tables are
    afterwards what they were before the request, and the answer is not 201;
    when the transaction commits, the header and every item of the order
    are there together. *)
Theorem order_creation_all_or_nothing
    (fault : nat -> bool) (db_now : timestamp)
    (ext : list Store.GTINData -> string -> list string * option string)
    (r : Request Store.KIZRequestBody) (db db' : DB)
    (resp : Response) (evs : list Store.Event) :
  Store.serve (Store.handleKIZRequest fault db_now ext r) db = (resp, db', evs) ->
  (~ In Store.EvCommit evs ->
   tables db' = tables db
   /\ StatusCode resp <> StatusCreated
   /\ (In Store.EvBegin evs -> In Store.EvRollback evs))
  /\
  (In Store.EvCommit evs ->
   exists q userID,
     Body r = Ok q
     /\ StatusCode resp = StatusCreated
     /\ tables db' =
          set_order_items
            (set_orders (tables db)
               (orders (tables db) ++
                [Spec.order_header (orders_id_seq (seqs db)) userID
                   (Spec.sum_quantity_price (map Spec.item_of (Store.kiz_GTINs q)))
                   db_now])%list)
            (order_items (tables db) ++
             Spec.item_rows (order_items_id_seq (seqs db)) (orders_id_seq (seqs db))
               (map Spec.item_of (Store.kiz_GTINs q)))%list).
Proof.
  intros Hrun.
  pose proof (handleKIZRequest_outcome fault db_now ext r db) as H.
  rewrite Hrun in H.
  destruct H as [[Hstatus [Htables [Hnc [_ Hrb]]]]
                | [q [userID [pre [Hb [Hr [He [_ Ht]]]]]]]].
  - split; [intros _; repeat split; assumption | intros Hc; contradiction].
  - split.
    + intros Hnc. exfalso. apply Hnc. rewrite He.
      apply in_or_app. right. left. reflexivity.
    + intros _. exists q, userID. rewrite Hr. repeat split; assumption.
Qed.

Lemma order_creation_all_or_nothing_witness :
  exists resp db' evs,
    Store.serve
      (Store.handleKIZRequest no_fault 1000 Store.requestKIZFromExternalAPI_stub
         (code_request [two_units; short_code]))
      one_user_db = (resp, db', evs)
    /\ In (Store.EvStatement "INSERT INTO orders") evs
    /\ In Store.EvRollback evs
    /\ tables db' = tables one_user_db
    /\ StatusCode resp = StatusInternalServerError.
Proof.
  destruct (Store.serve
              (Store.handleKIZRequest no_fault 1000
                 Store.requestKIZFromExternalAPI_stub
                 (code_request [two_units; short_code]))
              one_user_db) as [[resp db'] evs] eqn:Hrun.
  exists resp, db', evs. split; [reflexivity|].
  destruct (order_creation_all_or_nothing _ _ _ _ _ _ _ _ Hrun) as [Hfail _].
  vm_compute in Hrun. injection Hrun as Hresp Hdb Hevs.
  assert (Hnc : ~ In Store.EvCommit evs).
  { rewrite <- Hevs. cbn. intuition discriminate. }
  destruct (Hfail Hnc) as [Htables [_ Hrollback]].
  split; [|split; [|split; [exact Htables|]]].
  - rewrite <- Hevs. cbn. tauto.
  - apply Hrollback. rewrite <- Hevs. left. reflexivity.
  - rewrite <- Hresp. reflexivity.
Defined.

(** C8.  When [handleKIZRequest] calls the external API, the connection has
    begun its transaction, sent its statements and committed, in this order,
    and the call is the last thing that happens: nothing rolls back.
    Whatever the call returns, an error included, the order is in the
    database and the answer is 201 with the id of the order and the codes
    that the call returned. *)
Theorem external_call_after_commit
    (fault : nat -> bool) (db_now : timestamp)
    (ext : list Store.GTINData -> string -> list string * option string)
    (r : Request Store.KIZRequestBody) (db db' : DB)
    (resp : Response) (evs : list Store.Event) :
  Store.serve (Store.handleKIZRequest fault db_now ext r) db = (resp, db', evs) ->
  In Store.EvExternalAPI evs ->
  (exists pre,
      evs = (pre ++ [Store.EvCommit; Store.EvExternalAPI])%list
      /\ Forall Spec.in_transaction pre)
  /\
  (exists q userID,
      Body r = Ok q
      /\ resp = Store.respondJSON StatusCreated
                 [("kizs", JStrings (fst (ext (Store.kiz_GTINs q) (Store.kiz_INN q))));
                  ("order_id", JNumber (orders_id_seq (seqs db)));
                  ("status", JString "created")]
      /\ In (Spec.order_header (orders_id_seq (seqs db)) userID
               (Spec.sum_quantity_price (map Spec.item_of (Store.kiz_GTINs q)))
               db_now)
            (orders (tables db'))).
Proof.
  intros Hrun Hcall.
  pose proof (handleKIZRequest_outcome fault db_now ext r db) as H.
  rewrite Hrun in H.
  destruct H as [[_ [_ [_ [Hne _]]]] | [q [userID [pre [Hb [Hr [He [Hpre Ht]]]]]]]].
  - contradiction.
  - split; [exists pre; split; assumption|].
    exists q, userID. split; [exact Hb|]. split; [exact Hr|].
    rewrite Ht. cbn [orders set_order_items set_orders].
    apply in_or_app. right. left. reflexivity.
Qed.

Lemma external_call_after_commit_witness :
  exists resp db' evs,
    Store.serve
      (Store.handleKIZRequest no_fault 1000 api_unavailable (code_request [two_units]))
      one_user_db = (resp, db', evs)
    /\ evs = [Store.EvBegin;
              Store.EvStatement "SELECT id FROM users WHERE telegram_id = $1";
              Store.EvStatement "INSERT INTO orders";
              Store.EvStatement "INSERT INTO order_items";
              Store.EvCommit; Store.EvExternalAPI]
    /\ resp = Store.respondJSON StatusCreated
                [("kizs", JStrings []); ("order_id", JNumber 1);
                 ("status", JString "created")]
    /\ In (Spec.order_header 1 1 (f64_of_int 200) 1000) (orders (tables db')).
Proof.
  destruct (Store.serve
              (Store.handleKIZRequest no_fault 1000 api_unavailable
                 (code_request [two_units]))
              one_user_db) as [[resp db'] evs] eqn:Hrun.
  exists resp, db', evs. split; [reflexivity|].
  assert (Hevs : evs = [Store.EvBegin;
              Store.EvStatement "SELECT id FROM users WHERE telegram_id = $1";
              Store.EvStatement "INSERT INTO orders";
              Store.EvStatement "INSERT INTO order_items";
              Store.EvCommit; Store.EvExternalAPI]).
  { vm_compute in Hrun. injection Hrun as _ _ Hevs. symmetry. exact Hevs. }
  assert (Hcall : In Store.EvExternalAPI evs) by (rewrite Hevs; cbn; tauto).
  destruct (external_call_after_commit _ _ _ _ _ _ _ _ Hrun Hcall)
    as [_ [q [userID [Hb [Hr Hin]]]]].
  injection Hb as <-.
  split; [exact Hevs|]. split; [exact Hr|].
  assert (HuserID : userID = 1).
  { vm_compute in Hrun. injection Hrun as _ Hdb _. rewrite <- Hdb in Hin.
    cbn in Hin. destruct Hin as [Hin | []]. injection Hin as Hu. auto. }
  rewrite HuserID in Hin. exact Hin.
Defined.

(** *** Orders that the tables refuse, and orders that they take *)

Lemma insert_items_invalid (fault : nat -> bool) (orderID : Z)
    (items : list Models.OrderItem) :
  forall (c : Store.Conn) (view : Tables),
    Store.tx c = Some view ->
    (exists it, In it items /\ Store.order_item_fits it = false) ->
    exists e, fst (Store.insert_items fault orderID items c) = Some e.
Proof.
  induction items as [|it rest IH]; intros c view Htx [bad [Hin Hbad]];
    [destruct Hin|].
  cbn [Store.insert_items]. run_conn.
  destruct (fault (Store.calls c)); [cbn; eexists; reflexivity|].
  cbn. rewrite Htx. unfold Store.insert_order_item.
  destruct (Store.order_item_values it) eqn:Hvalues; [|cbn; eexists; reflexivity].
  destruct (existsb _ _ && _ && _ && _) eqn:Hok; [|cbn; eexists; reflexivity].
  cbn.
  match goal with
  | |- context [Store.insert_items fault orderID rest ?c1] =>
      apply (IH c1 _ eq_refl)
  end.
  destruct Hin as [-> | Hin]; [|exists bad; split; assumption].
  exfalso. unfold Store.order_item_fits in Hbad. rewrite Hvalues in Hbad.
  apply Bool.andb_true_iff in Hok. destruct Hok as [Hok Hprice].
  apply Bool.andb_true_iff in Hok. destruct Hok as [Hok Hq].
  apply Bool.andb_true_iff in Hok. destruct Hok as [_ Hlen].
  rewrite Hlen, Hq, Hprice in Hbad. discriminate Hbad.
Qed.

Lemma insert_items_valid (fault : nat -> bool) (orderID : Z)
    (items : list Models.OrderItem) :
  (forall n, fault n = false) ->
  Forall (fun it => Store.order_item_fits it = true) items ->
  forall (c : Store.Conn) (view : Tables),
    Store.tx c = Some view ->
    existsb (fun o => ord_id o =? orderID) (orders view) = true ->
    fst (Store.insert_items fault orderID items c) = None.
Proof.
  intros Hfault Hitems. induction Hitems as [|it rest Hfits _ IH];
    intros c view Htx Horder; [reflexivity|].
  cbn [Store.insert_items]. run_conn. rewrite Hfault. cbn. rewrite Htx.
  unfold Store.insert_order_item. unfold Store.order_item_fits in Hfits.
  apply Bool.andb_true_iff in Hfits. destruct Hfits as [Hfits Hprice].
  apply Bool.andb_true_iff in Hfits. destruct Hfits as [Hfits Hq].
  apply Bool.andb_true_iff in Hfits. destruct Hfits as [Hvalues Hlen].
  rewrite Hvalues, Horder, Hlen, Hq, Hprice. cbn.
  match goal with
  | |- context [Store.insert_items fault orderID rest ?c1] =>
      apply (IH c1 _ eq_refl)
  end.
  cbn [orders set_order_items]. exact Horder.
Qed.

Lemma nonpositive_quantity_does_not_fit (g : Store.GTINData) :
  Store.Count g <= 0 -> Store.order_item_fits (Spec.item_of g) = false.
Proof.
  intros Hq. unfold Store.order_item_fits.
  cbn [Spec.item_of Models.item_Quantity].
  replace (0 <? Store.Count g) with false by (symmetry; apply Z.ltb_ge; exact Hq).
  rewrite Bool.andb_false_r. reflexivity.
Qed.

Lemma existsb_snoc {A} (f : A -> bool) (l : list A) (x : A) :
  f x = true -> existsb f (l ++ [x])%list = true.
Proof.
  intros Hx. rewrite existsb_app. cbn [existsb]. rewrite Hx.
  rewrite Bool.orb_true_r. reflexivity.
Qed.

(** An order without items, or with an item that [order_items] does not
    take, is not stored. *)
Lemma handleKIZRequest_refused (fault : nat -> bool) (db_now : timestamp)
    (ext : list Store.GTINData -> string -> list string * option string)
    (r : Request Store.KIZRequestBody) (q : Store.KIZRequestBody) (db : DB) :
  Body r = Ok q ->
  (Store.kiz_GTINs q = []
   \/ exists g, In g (Store.kiz_GTINs q)
                /\ Store.order_item_fits (Spec.item_of g) = false) ->
  let '(resp, db', evs) :=
    Store.serve (Store.handleKIZRequest fault db_now ext r) db in
  StatusCode resp <> StatusCreated
  /\ tables db' = tables db
  /\ ~ In Store.EvCommit evs
  /\ ~ In Store.EvExternalAPI evs.
Proof.
  intros Hbody Hbad. unfold Store.handleKIZRequest. rewrite Hbody. run_conn.
  destruct db as [t s].
  destruct (fault 0%nat); cbn.
  { split; [discriminate|]. split; [reflexivity|]. tauto. }
  destruct (fault 1%nat); cbn.
  { split; [discriminate|]. split; [reflexivity|]. intuition discriminate. }
  unfold Store.select_user_id.
  destruct (find _ (users t)) as [u|]; cbn.
  2: { split; [discriminate|]. split; [reflexivity|]. intuition discriminate. }
  destruct (user_id u =? 0); cbn.
  { split; [discriminate|]. split; [reflexivity|]. intuition discriminate. }
  rewrite prepareOrder_eq. unfold Store.createOrderTx. run_conn.
  destruct (fault 2%nat); cbn.
  { split; [discriminate|]. split; [reflexivity|]. intuition discriminate. }
  unfold Store.insert_order.
  destruct (Store.order_values _); cbn.
  2: { split; [discriminate|]. split; [reflexivity|]. intuition discriminate. }
  destruct (existsb _ _ && _) eqn:Hok; cbn.
  2: { split; [discriminate|]. split; [reflexivity|]. intuition discriminate. }
  assert (Hitem :
    exists it, In it (map Spec.item_of (Store.kiz_GTINs q))
               /\ Store.order_item_fits it = false).
  { destruct Hbad as [Hnil | [g [Hg Hb]]].
    - exfalso. rewrite Hnil in Hok.
      cbn [Store.with_UserID Models.order_TotalAmount map] in Hok.
      replace (decimal_positive (Spec.sum_quantity_price [])) with false in Hok
        by (vm_compute; reflexivity).
      rewrite Bool.andb_false_r in Hok. discriminate Hok.
    - exists (Spec.item_of g). split; [apply in_map; exact Hg | exact Hb]. }
  match goal with
  | |- context [Store.insert_items ?f ?id ?its ?c] =>
      pose proof (insert_items_run f id its c _ eq_refl) as Hrun;
      destruct (insert_items_invalid f id its c _ eq_refl Hitem) as [e He];
      destruct (Store.insert_items f id its c) as [err c3]
  end.
  cbn [fst] in He. subst err. cbn in Hrun.
  destruct Hrun as [Hcommitted [[evs [Hevents Hstmts]] [[view3 Hopen] _]]].
  destruct (statements_only evs Hstmts) as [Hnc Hne].
  cbn. rewrite Hopen. cbn. rewrite Hcommitted, Hevents.
  split; [discriminate|]. split; [reflexivity|].
  split; intros Hin; cbn in Hin;
    repeat (destruct Hin as [Hin|Hin]; [discriminate Hin|]);
    apply in_app_or in Hin; destruct Hin as [Hin|[Hin|[]]];
    try discriminate Hin; auto.
Qed.

(** When the database works and the user is known, such an order is
    answered with the error of order creation. *)
Lemma handleKIZRequest_refused_500 (fault : nat -> bool) (db_now : timestamp)
    (ext : list Store.GTINData -> string -> list string * option string)
    (r : Request Store.KIZRequestBody) (q : Store.KIZRequestBody) (db : DB)
    (u : UserRow) :
  Body r = Ok q ->
  (forall n, fault n = false) ->
  find (fun u => user_telegram_id u =? Store.kiz_TelegramID q) (users (tables db))
    = Some u ->
  user_id u <> 0 ->
  (Store.kiz_GTINs q = []
   \/ exists g, In g (Store.kiz_GTINs q)
                /\ Store.order_item_fits (Spec.item_of g) = false) ->
  fst (fst (Store.serve (Store.handleKIZRequest fault db_now ext r) db))
  = Store.respondError StatusInternalServerError "Ошибка создания заказа".
Proof.
  intros Hbody Hfault Hfind Hid Hbad.
  unfold Store.handleKIZRequest. rewrite Hbody. run_conn.
  destruct db as [t s]. cbn [tables seqs] in *.
  rewrite (Hfault 0%nat). cbn. rewrite (Hfault 1%nat). cbn.
  unfold Store.select_user_id. rewrite Hfind. cbn.
  apply Z.eqb_neq in Hid. rewrite Hid. cbn.
  rewrite prepareOrder_eq. unfold Store.createOrderTx. run_conn.
  rewrite (Hfault 2%nat). cbn.
  unfold Store.insert_order.
  destruct (Store.order_values _); cbn; [|reflexivity].
  destruct (existsb _ _ && _) eqn:Hok; cbn; [|reflexivity].
  assert (Hitem :
    exists it, In it (map Spec.item_of (Store.kiz_GTINs q))
               /\ Store.order_item_fits it = false).
  { destruct Hbad as [Hnil | [g [Hg Hb]]].
    - exfalso. rewrite Hnil in Hok.
      cbn [Store.with_UserID Models.order_TotalAmount map] in Hok.
      replace (decimal_positive (Spec.sum_quantity_price [])) with false in Hok
        by (vm_compute; reflexivity).
      rewrite Bool.andb_false_r in Hok. discriminate Hok.
    - exists (Spec.item_of g). split; [apply in_map; exact Hg | exact Hb]. }
  match goal with
  | |- context [Store.insert_items ?f ?id ?its ?c] =>
      pose proof (insert_items_run f id its c _ eq_refl) as Hrun;
      destruct (insert_items_invalid f id its c _ eq_refl Hitem) as [e He];
      destruct (Store.insert_items f id its c) as [err c3]
  end.
  cbn [fst] in He. subst err. cbn in Hrun.
  destruct Hrun as [_ [_ [[view3 Hopen] _]]].
  cbn. rewrite Hopen. reflexivity.
Qed.

(** What [handleKIZRequest] does for a user it knows, on a database that
    works, with a total and items that the tables take. *)
Lemma handleKIZRequest_success (fault : nat -> bool) (db_now : timestamp)
    (ext : list Store.GTINData -> string -> list string * option string)
    (r : Request Store.KIZRequestBody) (q : Store.KIZRequestBody) (db : DB)
    (u : UserRow) :
  Body r = Ok q ->
  (forall n, fault n = false) ->
  find (fun u => user_telegram_id u =? Store.kiz_TelegramID q) (users (tables db))
    = Some u ->
  user_id u <> 0 ->
  Forall (fun g => Store.order_item_fits (Spec.item_of g) = true)
         (Store.kiz_GTINs q) ->
  decimal_10_2 (Spec.sum_quantity_price (map Spec.item_of (Store.kiz_GTINs q)))
    = true ->
  decimal_positive (Spec.sum_quantity_price (map Spec.item_of (Store.kiz_GTINs q)))
    = true ->
  exists db' evs,
    Store.serve (Store.handleKIZRequest fault db_now ext r) db
    = (Store.respondJSON StatusCreated
         [("kizs", JStrings (fst (ext (Store.kiz_GTINs q) (Store.kiz_INN q))));
          ("order_id", JNumber (orders_id_seq (seqs db)));
          ("status", JString "created")], db', evs)
    /\ tables db' =
         set_order_items
           (set_orders (tables db)
              (orders (tables db) ++
               [Spec.order_header (orders_id_seq (seqs db)) (user_id u)
                  (Spec.sum_quantity_price (map Spec.item_of (Store.kiz_GTINs q)))
                  db_now])%list)
           (order_items (tables db) ++
            Spec.item_rows (order_items_id_seq (seqs db)) (orders_id_seq (seqs db))
              (map Spec.item_of (Store.kiz_GTINs q)))%list.
Proof.
  intros Hbody Hfault Hfind Hid Hgtins Hfits Htotal.
  unfold Store.handleKIZRequest. rewrite Hbody. run_conn.
  destruct db as [t s]. cbn [tables seqs] in *.
  rewrite (Hfault 0%nat). cbn. rewrite (Hfault 1%nat). cbn.
  unfold Store.select_user_id. rewrite Hfind. cbn.
  apply Z.eqb_neq in Hid. rewrite Hid. cbn.
  rewrite prepareOrder_eq. unfold Store.createOrderTx. run_conn.
  rewrite (Hfault 2%nat). cbn.
  unfold Store.insert_order, Store.order_values.
  cbn [Store.with_UserID Models.order_UserID Models.order_TotalAmount
       Models.order_Status Models.order_PaymentID].
  assert (Huser : existsb (fun u0 => user_id u0 =? user_id u) (users t) = true).
  { apply existsb_exists. exists u. split; [|apply Z.eqb_refl].
    apply find_some in Hfind. apply Hfind. }
  rewrite Huser, Hfits, Htotal.
  replace (Store.order_status_enum Models.OrderStatusCreated) with true
    by reflexivity.
  replace (varchar 50 "") with (Some (@nil string)) by reflexivity.
  replace (kept_varchar 50 "") with "" by reflexivity.
  cbn.
  match goal with
  | |- context [Store.insert_items ?f ?id ?its ?c] =>
      pose proof (insert_items_run f id its c _ eq_refl) as Hrun;
      pose proof (insert_items_valid f id its Hfault
                    (proj2 (Forall_map _ _ _) Hgtins) c _ eq_refl) as Hvalid;
      destruct (Store.insert_items f id its c) as [err c3]
  end.
  cbn [fst] in Hvalid.
  assert (Herr : err = None)
    by (apply Hvalid; cbn [orders set_orders]; apply existsb_snoc, Z.eqb_refl).
  subst err. cbn in Hrun.
  destruct Hrun as [Hcommitted [_ [_ Hdone]]].
  specialize (Hdone eq_refl). cbn. rewrite Hdone. rewrite Hfault. cbn.
  destruct (ext (Store.kiz_GTINs q) (Store.kiz_INN q)) as [kizs e]. cbn.
  eexists. eexists. split; reflexivity.
Qed.

(** C9.  [Order.Validate] returns an error for every order whose list of
    items is empty and for every order with an item of quantity zero or
    less, but no handler calls it.  A request without product codes is
    answered with a validation failure by [kizHandler], whose request has
    no quantities: 400 "Отсутствуют обязательные параметры" (405 when the
    method is not POST), the database being left as it was.  The
    transactional [handleKIZRequest], whose request has quantities, stores
    nothing for a request without product codes or with a quantity of zero
    or less, and answers, when the database works and the user is known,
    with 500 "Ошибка создания заказа": the refusal is that of a constraint
    of the tables, inside the transaction, not a validation. *)
Theorem order_validation_rejects :
  (forall o : Models.Order,
      Models.order_Items o = []
      \/ (exists it, In it (Models.order_Items o) /\ Models.item_Quantity it <= 0) ->
      exists err, Models.Order_Validate o = Some err)
  /\
  (forall (db : DB) (env : Api.Env) (r : Request Api.KIZRequest) request,
      Body r = Ok request ->
      Api.kreq_GTINs request = [] ->
      snd (Api.kizHandler db env r) = db
      /\ (Method r = MethodPost ->
          fst (Api.kizHandler db env r) =
            Api.sendJSONResponse
              [("status", JString "error");
               ("message", JString "Отсутствуют обязательные параметры")]
              StatusBadRequest)
      /\ (Method r <> MethodPost ->
          fst (Api.kizHandler db env r) =
            Error "Метод не поддерживается" StatusMethodNotAllowed))
  /\
  (forall (fault : nat -> bool) (db_now : timestamp)
          (ext : list Store.GTINData -> string -> list string * option string)
          (r : Request Store.KIZRequestBody) (q : Store.KIZRequestBody) (db : DB),
      Body r = Ok q ->
      Store.kiz_GTINs q = []
      \/ (exists g, In g (Store.kiz_GTINs q) /\ Store.Count g <= 0) ->
      (let '(resp, db', evs) :=
         Store.serve (Store.handleKIZRequest fault db_now ext r) db in
       StatusCode resp <> StatusCreated
       /\ tables db' = tables db
       /\ ~ In Store.EvCommit evs)
      /\ (forall u : UserRow,
            (forall n, fault n = false) ->
            find (fun u => user_telegram_id u =? Store.kiz_TelegramID q)
                 (users (tables db)) = Some u ->
            user_id u <> 0 ->
            fst (fst (Store.serve (Store.handleKIZRequest fault db_now ext r) db))
            = Store.respondError StatusInternalServerError
                "Ошибка создания заказа")).
Proof.
  split; [|split].
  - intros o H. unfold Models.Order_Validate.
    destruct (Models.order_UserID o <=? 0); [eexists; reflexivity|].
    destruct H as [Hnil | Hbad].
    + rewrite Hnil. simpl. eexists; reflexivity.
    + destruct (List.length (Models.order_Items o) =? 0)%nat;
        [eexists; reflexivity|].
      destruct (validate_items_rejects _ 0 Hbad) as [err Herr].
      rewrite Herr. eexists; reflexivity.
  - intros db env r request Hb Hg. unfold Api.kizHandler.
    rewrite Hb, Hg.
    destruct (String.eqb_spec (Method r) MethodPost) as [Hm|Hm]; cbn [negb].
    + cbn [List.length Nat.eqb orb]. rewrite Bool.orb_true_r. cbn [orb].
      split; [reflexivity|]. split; [reflexivity|]. intros H. contradiction.
    + split; [reflexivity|]. split; [intros H; contradiction | reflexivity].
  - intros fault db_now ext r q db Hbody Hbad.
    assert (Hrefused :
      Store.kiz_GTINs q = []
      \/ exists g, In g (Store.kiz_GTINs q)
                   /\ Store.order_item_fits (Spec.item_of g) = false).
    { destruct Hbad as [Hnil | [g [Hg Hq]]]; [left; exact Hnil | right].
      exists g. split; [exact Hg|]. apply nonpositive_quantity_does_not_fit, Hq. }
    split.
    + pose proof (handleKIZRequest_refused fault db_now ext r q db Hbody Hrefused)
        as H.
      destruct (Store.serve _ db) as [[resp db'] evs].
      destruct H as [Hstatus [Htables [Hnc _]]]. repeat split; assumption.
    + intros u Hfault Hfind Hid.
      apply (handleKIZRequest_refused_500 fault db_now ext r q db u);
        assumption.
Qed.

Lemma order_validation_rejects_witness :
  (exists err, Models.Order_Validate (sample_order []) = Some err)
  /\ (exists err, Models.Order_Validate (sample_order [sample_item 2; sample_item 0])
                  = Some err)
  /\ Api.kizHandler empty_db (api_env 1000 "0123456789abcdef") kiz_request_no_codes
     = (Api.sendJSONResponse
          [("status", JString "error");
           ("message", JString "Отсутствуют обязательные параметры")]
          StatusBadRequest, empty_db)
  /\ fst (fst (Store.serve
                 (Store.handleKIZRequest no_fault 1000
                    Store.requestKIZFromExternalAPI_stub
                    (code_request [two_units; no_units]))
                 one_user_db))
     = Store.respondError StatusInternalServerError "Ошибка создания заказа".
Proof.
  destruct order_validation_rejects as [Hvalidate [Hhandler Hstore]].
  split; [|split; [|split]].
  - apply Hvalidate. left. reflexivity.
  - apply Hvalidate. right. exists (sample_item 0). simpl. split; [tauto | lia].
  - destruct (Hhandler empty_db (api_env 1000 "0123456789abcdef")
                kiz_request_no_codes
                {| Api.kreq_TelegramID := 123456789; Api.kreq_GTINs := [];
                   Api.kreq_INN := "7707083893" |} eq_refl eq_refl)
      as [Hdb [H400 _]].
    rewrite (surjective_pairing (Api.kizHandler _ _ _)).
    rewrite Hdb, H400; reflexivity.
  - destruct (Hstore no_fault 1000 Store.requestKIZFromExternalAPI_stub
                (code_request [two_units; no_units])
                {| Store.kiz_TelegramID := 123456789;
                   Store.kiz_GTINs := [two_units; no_units];
                   Store.kiz_INN := "7707083893" |}
                one_user_db eq_refl) as [_ H500].
    + right. exists no_units. split; [right; left; reflexivity | discriminate].
    + apply (H500 (user_row 1 123456789 "k1")).
      * reflexivity.
      * reflexivity.
      * discriminate.
Defined.

(** C9 as stated does not hold: the transactional service answers a
    request that names the quantity 0 for its second product code with the
    server error 500 "Ошибка создания заказа", after it has sent the header
    and both items to the database, and not with a validation failure. *)
Lemma nonpositive_quantity_answered_500 :
  let '(resp, db', evs) :=
    Store.serve
      (Store.handleKIZRequest no_fault 1000 Store.requestKIZFromExternalAPI_stub
         (code_request [two_units; no_units]))
      one_user_db in
  resp = Store.respondError StatusInternalServerError "Ошибка создания заказа"
  /\ StatusCode resp = 500
  /\ tables db' = tables one_user_db
  /\ evs = [Store.EvBegin;
            Store.EvStatement "SELECT id FROM users WHERE telegram_id = $1";
            Store.EvStatement "INSERT INTO orders";
            Store.EvStatement "INSERT INTO order_items";
            Store.EvStatement "INSERT INTO order_items";
            Store.EvRollback].
Proof. vm_compute. repeat split; reflexivity. Qed.

(** *** Registration with the transactional service *)

Lemma handleUserRegistration_known_user
    (fault : nat -> bool) (db_now time_Now : Z) (random : string)
    (r : Request Store.RegistrationBody) (q : Store.RegistrationBody) (db : DB) :
  Body r = Ok q ->
  (exists u, In u (users (tables db))
             /\ user_telegram_id u = Store.rb_TelegramID q) ->
  let '(resp, db', _) :=
    Store.serve (Store.handleUserRegistration fault db_now time_Now random r) db in
  StatusCode resp <> StatusCreated /\ tables db' = tables db.
Proof.
  intros Hbody [u [Hu Htid]]. unfold Store.handleUserRegistration.
  rewrite Hbody.
  destruct (negb (String.eqb (Method r) MethodPost)); run_conn;
    [split; [discriminate | reflexivity]|].
  destruct ((Store.rb_TelegramID q <=? 0) || is_empty (Store.rb_INN q)); run_conn;
    [split; [discriminate | reflexivity]|].
  unfold Store.createUserTx. run_conn. destruct db as [t s].
  destruct (fault 0%nat); cbn; [split; [discriminate | reflexivity]|].
  destruct (fault 1%nat); cbn; [split; [discriminate | reflexivity]|].
  unfold Store.insert_user.
  assert (Hdup :
    existsb (fun v => (user_telegram_id v =? Store.rb_TelegramID q)
                      || opt_string_eqb (user_api_key v) (hex random))
            (users t) = true).
  { apply existsb_exists. exists u. split; [exact Hu|].
    rewrite Htid, Z.eqb_refl. reflexivity. }
  cbn. unfold Store.generateRandomAPIKey. rewrite Hdup. cbn.
  split; [discriminate | reflexivity].
Qed.

(** C6.  The transactional service answers the first registration of the
    telegram id 123456789 (tax id "7707083893") with 201 and the user id 1,
    and the second one, with the same body, with 500 "Ошибка регистрации
    пользователя": [handleUserRegistration] always inserts, the insertion
    violates the uniqueness of [telegram_id], and the row of the user keeps
    the api key of the first call. *)
Theorem handleUserRegistration_twice_fails :
  Store.serve
    (Store.handleUserRegistration no_fault 1000 1000 "0123456789abcdef"
       store_registration) empty_db
  = (Store.respondJSON StatusCreated
       [("api_key", JString "30313233343536373839616263646566");
        ("message", JString "Пользователь успешно зарегистрирован");
        ("user_id", JNumber 1)],
     store_registered_db,
     [Store.EvBegin; Store.EvStatement "INSERT INTO users"; Store.EvCommit])
  /\
  (let '(resp, db', evs) :=
     Store.serve
       (Store.handleUserRegistration no_fault 2000 2000 "fedcba9876543210"
          store_registration) store_registered_db in
   resp = Store.respondError StatusInternalServerError
            "Ошибка регистрации пользователя"
   /\ tables db' = tables store_registered_db
   /\ map user_api_key (users (tables db'))
      = [Some "30313233343536373839616263646566"]
   /\ evs = [Store.EvBegin; Store.EvStatement "INSERT INTO users";
             Store.EvRollback]).
Proof.
  split.
  - vm_compute. reflexivity.
  - vm_compute. repeat split; reflexivity.
Qed.

(* ===================================================================== *)
(** * Further properties of the code *)
(* ===================================================================== *)

(** ** Strings *)

Lemma length_append (a b : string) :
  String.length (a ++ b) = (String.length a + String.length b)%nat.
Proof. induction a as [|c a IH]; simpl; [reflexivity | rewrite IH; reflexivity]. Qed.

Lemma prefix_app (p s : string) :
  String.prefix p s = true <-> exists b, s = p ++ b.
Proof.
  revert s. induction p as [|c p IH]; intros s.
  - split; [intros _; exists s; reflexivity | intros _; destruct s; reflexivity].
  - destruct s as [|d s]; simpl.
    + split; [discriminate | intros [b Hb]; discriminate Hb].
    + destruct (ascii_dec c d) as [->|Hne].
      * rewrite IH. split; intros [b Hb]; exists b.
        -- rewrite Hb. reflexivity.
        -- injection Hb as Hb. exact Hb.
      * split; [discriminate|]. intros [b Hb]. injection Hb as Hc _.
        exfalso. apply Hne. symmetry. exact Hc.
Qed.

Lemma Contains_unfold (s substr : string) :
  Contains s substr =
  String.prefix substr s
  || match s with
     | EmptyString => false
     | String _ rest => Contains rest substr
     end.
Proof. destruct s; reflexivity. Qed.

Lemma Contains_spec (s substr : string) :
  Contains s substr = true <-> exists a b, s = a ++ substr ++ b.
Proof.
  split.
  - induction s as [|c s IH]; rewrite Contains_unfold; intros H;
      apply Bool.orb_true_iff in H; destruct H as [H|H].
    + apply prefix_app in H. destruct H as [b Hb]. exists "", b. exact Hb.
    + discriminate H.
    + apply prefix_app in H. destruct H as [b Hb]. exists "", b. exact Hb.
    + destruct (IH H) as [a [b Hab]]. exists (String c a), b.
      rewrite Hab. reflexivity.
  - intros [a [b Hab]]. revert s Hab. induction a as [|c a IH]; intros s Hab.
    + rewrite Contains_unfold.
      replace (String.prefix substr s) with true; [reflexivity|].
      symmetry. apply prefix_app. exists b. exact Hab.
    + rewrite Hab. rewrite Contains_unfold. cbn [append].
      rewrite (IH _ eq_refl). apply Bool.orb_true_r.
Qed.

(** ** The models *)

(** X1.  [User.Validate] accepts a user exactly when the telegram id is
    positive, the tax id is not empty, and the e-mail address is empty or
    has an "@" somewhere in it. *)
Theorem User_Validate_accepts (u : Models.User) :
  Models.User_Validate u = None
  <-> 0 < Models.user_TelegramID u
      /\ Models.user_INN u <> ""
      /\ (Models.user_Email u = ""
          \/ exists a b, Models.user_Email u = a ++ "@" ++ b).
Proof.
  unfold Models.User_Validate.
  destruct (Models.user_TelegramID u <=? 0) eqn:Htid.
  { apply Z.leb_le in Htid. split; [discriminate | intros [H _]; lia]. }
  apply Z.leb_gt in Htid.
  destruct (is_empty (Models.user_INN u)) eqn:Hinn.
  { apply is_empty_true in Hinn. split; [discriminate|].
    intros [_ [H _]]. contradiction. }
  apply is_empty_false in Hinn.
  destruct (is_empty (Models.user_Email u)) eqn:Hemail; cbn [negb andb].
  { apply is_empty_true in Hemail. split; [|reflexivity].
    intros _. repeat split; auto. }
  apply is_empty_false in Hemail.
  destruct (Contains (Models.user_Email u) "@") eqn:Hat; cbn [negb].
  - apply Contains_spec in Hat. split; [|reflexivity].
    intros _. repeat split; auto.
  - split; [discriminate|]. intros [_ [_ [He | Hc]]]; [contradiction|].
    apply Contains_spec in Hc. rewrite Hc in Hat. discriminate Hat.
Qed.

(** X2.  [User.FullName] lists the last, first and middle name in this
    order, leaves out the names that are empty, and puts one space between
    two names it lists and none before or after: it is empty exactly when
    the three names are, and its length is that of the names plus one for
    every name listed after the first. *)
Theorem User_FullName_parts (u : Models.User) :
  let last := Models.user_LastName u in
  let first := Models.user_FirstName u in
  let middle := Models.user_MiddleName u in
  let listed := filter (fun s => negb (is_empty s)) [last; first; middle] in
  Models.User_FullName u = Join listed " "
  /\ (Models.User_FullName u = "" <-> last = "" /\ first = "" /\ middle = "")
  /\ String.length (Models.User_FullName u)
     = (String.length last + String.length first + String.length middle
        + (List.length listed - 1))%nat
  /\ (last <> "" -> first <> "" -> middle <> "" ->
      Models.User_FullName u = last ++ " " ++ first ++ " " ++ middle).
Proof.
  unfold Models.User_FullName. cbv zeta.
  destruct (Models.user_LastName u) as [|l0 l];
    destruct (Models.user_FirstName u) as [|f0 f];
    destruct (Models.user_MiddleName u) as [|m0 m];
    cbn [is_empty negb app filter Join List.length append String.length].
  all: repeat (rewrite length_append; cbn [String.length]).
  all: split; [reflexivity|].
  all: split; [split; [intros H; try discriminate H; auto
                      | intros [H1 [H2 H3]]; try discriminate H1;
                        try discriminate H2; try discriminate H3; reflexivity]|].
  all: split; [lia|].
  all: intros H1 H2 H3; try (exfalso; apply H1; reflexivity);
    try (exfalso; apply H2; reflexivity); try (exfalso; apply H3; reflexivity).
  reflexivity.
Qed.

Lemma OrderItem_Validate_accepts (it : Models.OrderItem) :
  Models.OrderItem_Validate it = None
  <-> Models.item_GTIN it <> "" /\ 0 < Models.item_Quantity it.
Proof.
  unfold Models.OrderItem_Validate.
  destruct (is_empty (Models.item_GTIN it)) eqn:Hg.
  { apply is_empty_true in Hg. split; [discriminate | intros [H _]; contradiction]. }
  apply is_empty_false in Hg.
  destruct (Models.item_Quantity it <=? 0) eqn:Hq.
  { apply Z.leb_le in Hq. split; [discriminate | intros [_ H]; lia]. }
  apply Z.leb_gt in Hq. split; [auto | reflexivity].
Qed.

Lemma validate_items_first_invalid (valid : list Models.OrderItem)
    (bad : Models.OrderItem) (rest : list Models.OrderItem) (err : string) :
  forall i,
    Forall (fun it => Models.OrderItem_Validate it = None) valid ->
    Models.OrderItem_Validate bad = Some err ->
    Models.validate_items i (valid ++ bad :: rest)%list
    = Some ("ошибка в товаре #" ++ Itoa (i + Z.of_nat (List.length valid) + 1)
            ++ ": " ++ err).
Proof.
  induction valid as [|it valid IH]; intros i Hvalid Hbad.
  - cbn [app Models.validate_items List.length]. rewrite Hbad.
    replace (i + Z.of_nat 0 + 1) with (i + 1) by lia. reflexivity.
  - inversion Hvalid as [|x xs Hit Hrest]; subst.
    cbn [app Models.validate_items]. rewrite Hit.
    rewrite (IH (i + 1) Hrest Hbad).
    replace (i + 1 + Z.of_nat (List.length valid) + 1)
      with (i + Z.of_nat (List.length (it :: valid)) + 1)
      by (cbn [List.length]; lia).
    reflexivity.
Qed.

Lemma validate_items_accepts (items : list Models.OrderItem) :
  forall i,
    Models.validate_items i items = None
    <-> Forall (fun it => Models.OrderItem_Validate it = None) items.
Proof.
  induction items as [|it items IH]; intros i; cbn [Models.validate_items].
  - split; [constructor | reflexivity].
  - destruct (Models.OrderItem_Validate it) eqn:Hit.
    + split; [discriminate|]. intros H. inversion H; subst. congruence.
    + rewrite IH. split; [intros H; constructor; assumption|].
      intros H. inversion H; subst. assumption.
Qed.

(** X3.  When an item of an order is invalid, [Order.Validate] reports the
    first invalid item, by its position counted from 1, with the error of
    [OrderItem.Validate] for it. *)
Theorem Order_Validate_reports_first_invalid_item
    (o : Models.Order) (valid : list Models.OrderItem) (bad : Models.OrderItem)
    (rest : list Models.OrderItem) (err : string) :
  0 < Models.order_UserID o ->
  Models.order_Items o = (valid ++ bad :: rest)%list ->
  Forall (fun it => Models.OrderItem_Validate it = None) valid ->
  Models.OrderItem_Validate bad = Some err ->
  Models.Order_Validate o
  = Some ("ошибка в товаре #" ++ Itoa (Z.of_nat (List.length valid) + 1)
          ++ ": " ++ err).
Proof.
  intros Huser Hitems Hvalid Hbad. unfold Models.Order_Validate.
  apply Z.leb_gt in Huser. rewrite Huser. rewrite Hitems.
  rewrite length_app. cbn [List.length].
  replace (List.length valid + S (List.length rest) =? 0)%nat with false
    by (symmetry; apply Nat.eqb_neq; lia).
  rewrite (validate_items_first_invalid valid bad rest err 0 Hvalid Hbad).
  reflexivity.
Qed.

Lemma Order_Validate_reports_first_invalid_item_witness :
  Models.Order_Validate (sample_order [sample_item 2; sample_item 0; sample_item (-1)])
  = Some ("ошибка в товаре #" ++ Itoa 2 ++ ": "
          ++ "количество должно быть положительным числом").
Proof.
  apply (Order_Validate_reports_first_invalid_item
           (sample_order [sample_item 2; sample_item 0; sample_item (-1)])
           [sample_item 2] (sample_item 0) [sample_item (-1)]).
  - reflexivity.
  - reflexivity.
  - constructor; [reflexivity | constructor].
  - reflexivity.
Defined.

(** X4.  [Order.Validate] accepts an order exactly when the user id is
    positive, there is an item, every item has a product code and a positive
    quantity, and the total amount is not below or equal to zero. *)
Theorem Order_Validate_accepts (o : Models.Order) :
  Models.Order_Validate o = None
  <-> 0 < Models.order_UserID o
      /\ Models.order_Items o <> []
      /\ Forall (fun it => Models.item_GTIN it <> "" /\ 0 < Models.item_Quantity it)
                (Models.order_Items o)
      /\ f64_leb (Models.order_TotalAmount o) f64_zero = false.
Proof.
  unfold Models.Order_Validate.
  destruct (Models.order_UserID o <=? 0) eqn:Huser.
  { apply Z.leb_le in Huser. split; [discriminate | intros [H _]; lia]. }
  apply Z.leb_gt in Huser.
  destruct (Models.order_Items o) as [|it items] eqn:Hitems.
  { cbn. split; [discriminate | intros [_ [H _]]; contradiction]. }
  cbn [List.length Nat.eqb].
  destruct (Models.validate_items 0 (it :: items)) as [err|] eqn:Hv.
  - split; [discriminate|]. intros [_ [_ [Hall _]]].
    assert (Hnone : Models.validate_items 0 (it :: items) = None).
    { apply validate_items_accepts.
      apply Forall_impl with (2 := Hall).
      intros x Hx. apply OrderItem_Validate_accepts. exact Hx. }
    congruence.
  - apply validate_items_accepts in Hv.
    assert (Hall : Forall (fun it => Models.item_GTIN it <> ""
                                     /\ 0 < Models.item_Quantity it) (it :: items)).
    { apply Forall_impl with (2 := Hv).
      intros x Hx. apply OrderItem_Validate_accepts. exact Hx. }
    destruct (f64_leb (Models.order_TotalAmount o) f64_zero).
    + split; [discriminate | intros [_ [_ [_ H]]]; discriminate H].
    + split; [|reflexivity]. intros _.
      repeat split; auto. discriminate.
Qed.

(** ** Decimal numbers: [Atoi] reads what [Itoa] writes *)

Lemma parse_digits_step (acc : Z) (c : ascii) (rest : string) :
  is_digit c = true ->
  parse_digits acc (String c rest) = parse_digits (10 * acc + digit_val c) rest.
Proof. intros H. cbn [parse_digits]. rewrite H. reflexivity. Qed.

Lemma parse_digits_acc (d : Decimal.uint) :
  forall a : positive,
    parse_digits (Z.pos a) (NilEmpty.string_of_uint d)
    = Some (Z.pos (Pos.of_uint_acc d a)).
Proof.
  induction d; intros a; cbn [NilEmpty.string_of_uint Pos.of_uint_acc];
    [reflexivity | ..];
    rewrite parse_digits_step by reflexivity;
    match goal with
    | |- parse_digits ?acc _ = Some (Z.pos (Pos.of_uint_acc _ ?b)) =>
        replace acc with (Z.pos b)
          by (match goal with
              | |- context [digit_val ?c] =>
                  let v := eval vm_compute in (digit_val c) in
                  change (digit_val c) with v
              end; lia)
    end;
    apply IHd.
Qed.

Lemma parse_digits_uint (d : Decimal.uint) :
  parse_digits 0 (NilEmpty.string_of_uint d) = Some (Z.of_N (Pos.of_uint d)).
Proof.
  induction d; cbn [NilEmpty.string_of_uint Pos.of_uint];
    [reflexivity | ..];
    rewrite parse_digits_step by reflexivity;
    [exact IHd | ..];
    match goal with
    | |- parse_digits ?acc _ = Some (Z.of_N (N.pos (Pos.of_uint_acc _ ?b))) =>
        replace acc with (Z.pos b) by reflexivity
    end;
    apply parse_digits_acc.
Qed.

Lemma string_of_uint_digits (d : Decimal.uint) :
  d <> Decimal.Nil ->
  NilZero.string_of_uint d = NilEmpty.string_of_uint d
  /\ exists c rest, NilEmpty.string_of_uint d = String c rest /\ is_digit c = true.
Proof.
  intros Hd. destruct d; [contradiction | ..];
    (split; [reflexivity | eexists; eexists; split; reflexivity]).
Qed.

Lemma Atoi_unsigned (c : ascii) (rest : string) :
  is_digit c = true ->
  Atoi (String c rest)
  = match parse_digits 0 (String c rest) with
    | None => Err "invalid syntax"
    | Some n => if (minInt <=? n) && (n <=? maxInt) then Ok n
                else Err "value out of range"
    end.
Proof.
  destruct c as [b0 b1 b2 b3 b4 b5 b6 b7].
  destruct b0, b1, b2, b3, b4, b5, b6, b7; intros H;
    try discriminate H; reflexivity.
Qed.

Lemma Atoi_Itoa (n : Z) : minInt <= n <= maxInt -> Atoi (Itoa n) = Ok n.
Proof.
  intros Hrange.
  assert (Hin : (minInt <=? n) && (n <=? maxInt) = true).
  { apply Bool.andb_true_iff. split; apply Z.leb_le; lia. }
  with_strategy transparent [Itoa] unfold Itoa.
  destruct n as [|p|p]; cbn [Z.to_int NilZero.string_of_int].
  - reflexivity.
  - destruct (string_of_uint_digits (Pos.to_uint p) (Unsigned.to_uint_nonnil p))
      as [-> [c [rest [Hs Hc]]]].
    pose proof (parse_digits_uint (Pos.to_uint p)) as Hparse.
    rewrite Unsigned.of_to in Hparse. rewrite Hs in *.
    rewrite (Atoi_unsigned c rest Hc), Hparse. cbn [Z.of_N]. rewrite Hin.
    reflexivity.
  - destruct (string_of_uint_digits (Pos.to_uint p) (Unsigned.to_uint_nonnil p))
      as [-> [c [rest [Hs Hc]]]].
    pose proof (parse_digits_uint (Pos.to_uint p)) as Hparse.
    rewrite Unsigned.of_to in Hparse. rewrite Hs in *.
    unfold Atoi. cbn [is_empty]. rewrite Hparse. cbn [Z.of_N Z.opp].
    rewrite Hin. reflexivity.
Qed.

(** ** Statuses *)

(** X5.  The statuses that [Order.IsValidStatus] and
    [Payment.IsValidStatus] accept are the values of the types
    [order_status] and [payment_status] of DATABASE.sql, which the tables
    accept. *)
Theorem IsValidStatus_matches_schema
    (o : Models.Order) (p : Models.Payment) (status : string) :
  Models.Order_IsValidStatus o status = Store.order_status_enum status
  /\ Models.Payment_IsValidStatus p status = Store.payment_status_enum status.
Proof.
  unfold Models.Order_IsValidStatus, Store.order_status_enum,
    Models.Payment_IsValidStatus, Store.payment_status_enum.
  cbn [existsb]. rewrite !(String.eqb_sym status). split; reflexivity.
Qed.

Lemma trigger_keeps_orders (P : OrderRow -> Prop) (ts : timestamp)
    (OLD NEW : PaymentRow) (os : list OrderRow) :
  (forall o, P o -> P (update_modified_column ts (set_ord_status o "paid"))) ->
  Forall P os -> Forall P (update_order_status_on_payment ts OLD NEW os).
Proof.
  intros Hpaid Hos. unfold update_order_status_on_payment.
  destruct (_ && _); [|exact Hos].
  induction Hos as [|o os Ho Hos IH]; cbn [map]; constructor; [|exact IH].
  destruct (_ && _); [apply Hpaid|]; exact Ho.
Qed.

Lemma UPDATE_payments_keeps (Pp : PaymentRow -> Prop) (Po : OrderRow -> Prop)
    (ts : timestamp) (where_ : PaymentRow -> bool)
    (set_ : PaymentRow -> PaymentRow) (t : Tables) :
  (forall p, Pp p -> Pp (set_ p)) ->
  (forall o, Po o -> Po (update_modified_column ts (set_ord_status o "paid"))) ->
  Forall Pp (payments t) -> Forall Po (orders t) ->
  Forall Pp (payments (fst (UPDATE_payments ts where_ set_ t)))
  /\ Forall Po (orders (fst (UPDATE_payments ts where_ set_ t)))
  /\ users (fst (UPDATE_payments ts where_ set_ t)) = users t.
Proof.
  intros Hset Hpaid Hp Ho. unfold UPDATE_payments.
  cbn [fst payments orders users set_orders set_payments].
  split; [|split; [|reflexivity]].
  - induction Hp as [|p ps Hp Hps IH]; cbn [map]; constructor; [|exact IH].
    destruct (where_ p); [apply Hset|]; exact Hp.
  - generalize (filter where_ (payments t)) as touched.
    intros touched. revert Ho. generalize (orders t) as os.
    induction touched as [|OLD touched IH]; intros os Hos; cbn [fold_left];
      [exact Hos|].
    apply IH. apply trigger_keeps_orders; assumption.
Qed.

Lemma callback_outcome (rk : Api.PaymentConfig) (db : DB) (env : Api.Env)
    (r : Request unit) :
  snd (Api.robokassaCallbackHandler rk db env r) = db
  \/ exists paymentID,
       snd (Api.robokassaCallbackHandler rk db env r)
       = {| tables :=
              fst (UPDATE_payments (Api.db_now env)
                     (fun p => (pay_id p =? paymentID)
                               && String.eqb (pay_status p) "pending")
                     (Api.complete_payment (Api.time_Now env)
                        (FormValue r "Shp_TransactionId"))
                     (tables db));
            seqs := seqs db |}.
Proof.
  unfold Api.robokassaCallbackHandler.
  destruct (_ && _); [left; reflexivity|].
  destruct (_ || _); [left; reflexivity|].
  destruct (negb _); [left; reflexivity|].
  destruct (Atoi _) as [paymentID|e]; [|left; reflexivity].
  destruct (Api.fault env 0); [left; reflexivity|].
  right. exists paymentID. unfold Api.update_payment_completed.
  destruct (UPDATE_payments _ _ _ _) as [t n]. reflexivity.
Qed.

(** X6.  The payment callback keeps the statuses within those that the
    models accept: when every payment and every order of the database has a
    valid status, so they have after [robokassaCallbackHandler] and the
    trigger [update_order_status_on_payment] have run, whatever the
    request. *)
Theorem callback_keeps_statuses_valid
    (rk : Api.PaymentConfig) (db : DB) (env : Api.Env) (r : Request unit)
    (o : Models.Order) (p : Models.Payment) :
  Forall (fun row => Models.Payment_IsValidStatus p (pay_status row) = true)
         (payments (tables db)) ->
  Forall (fun row => Models.Order_IsValidStatus o (ord_status row) = true)
         (orders (tables db)) ->
  Forall (fun row => Models.Payment_IsValidStatus p (pay_status row) = true)
         (payments (tables (snd (Api.robokassaCallbackHandler rk db env r))))
  /\ Forall (fun row => Models.Order_IsValidStatus o (ord_status row) = true)
            (orders (tables (snd (Api.robokassaCallbackHandler rk db env r)))).
Proof.
  intros Hp Ho.
  destruct (callback_outcome rk db env r) as [-> | [paymentID ->]];
    [split; assumption|].
  cbn [tables].
  match goal with
  | |- context [UPDATE_payments ?ts ?w ?s ?t] =>
      destruct (UPDATE_payments_keeps
                  (fun row => Models.Payment_IsValidStatus p (pay_status row) = true)
                  (fun row => Models.Order_IsValidStatus o (ord_status row) = true)
                  ts w s t) as [H1 [H2 _]]
  end; try assumption; try (intros; reflexivity).
  split; assumption.
Qed.

Lemma callback_keeps_statuses_valid_witness :
  Forall (fun row =>
            Models.Payment_IsValidStatus (sample_payment 7 (f64_of_int 100))
              (pay_status row) = true)
         (payments (tables (snd (Api.robokassaCallbackHandler shop pending_db
                                   (api_env 1000 "0123456789abcdef")
                                   signed_callback))))
  /\ Forall (fun row =>
               Models.Order_IsValidStatus (sample_order []) (ord_status row) = true)
            (orders (tables (snd (Api.robokassaCallbackHandler shop pending_db
                                    (api_env 1000 "0123456789abcdef")
                                    signed_callback)))).
Proof.
  apply (callback_keeps_statuses_valid shop pending_db
           (api_env 1000 "0123456789abcdef") signed_callback).
  - constructor; [reflexivity | constructor].
  - constructor; [reflexivity | constructor].
Defined.

(** ** Amounts *)

Lemma f64_leb_zero (x : float64) :
  f64_is_nan x = false -> f64_leb x f64_zero = negb (f64_ltb f64_zero x).
Proof.
  destruct x as [s|s| |s m e]; intros H; try discriminate H;
    try destruct s; vm_compute; reflexivity.
Qed.

Lemma f64_leb_nan (x : float64) :
  f64_is_nan x = true -> f64_leb x f64_zero = false.
Proof.
  destruct x as [s|s| |s m e]; intros H; try discriminate H.
  vm_compute. reflexivity.
Qed.

(** X7.  [Payment.Validate] accepts a payment whose amount is a number
    exactly when the order id is positive and the amount is above zero,
    which is what the table [payments] demands of an amount; an amount
    that is not a number passes the check of the amount. *)
Theorem Payment_Validate_accepts (p : Models.Payment) :
  (f64_is_nan (Models.payment_Amount p) = false ->
   (Models.Payment_Validate p = None
    <-> 0 < Models.payment_OrderID p
        /\ f64_ltb f64_zero (Models.payment_Amount p) = true))
  /\
  (f64_is_nan (Models.payment_Amount p) = true ->
   (Models.Payment_Validate p = None <-> 0 < Models.payment_OrderID p)).
Proof.
  unfold Models.Payment_Validate. split; intros Hnan.
  - rewrite (f64_leb_zero _ Hnan).
    destruct (Models.payment_OrderID p <=? 0) eqn:Hid.
    + apply Z.leb_le in Hid. split; [discriminate | intros [H _]; lia].
    + apply Z.leb_gt in Hid.
      destruct (f64_ltb f64_zero (Models.payment_Amount p)); cbn [negb].
      * split; [auto | reflexivity].
      * split; [discriminate | intros [_ H]; discriminate H].
  - rewrite (f64_leb_nan _ Hnan).
    destruct (Models.payment_OrderID p <=? 0) eqn:Hid.
    + apply Z.leb_le in Hid. split; [discriminate | lia].
    + apply Z.leb_gt in Hid. split; [auto | reflexivity].
Qed.

Lemma Payment_Validate_accepts_witness :
  Models.Payment_Validate (sample_payment 7 (f64_of_int 100)) = None
  /\ Models.Payment_Validate (sample_payment 7 (f64_of_int 0)) <> None
  /\ Models.Payment_Validate (sample_payment 7 S754_nan) = None.
Proof.
  assert (H100 : f64_is_nan (f64_of_int 100) = false) by (vm_compute; reflexivity).
  assert (H0 : f64_is_nan (f64_of_int 0) = false) by (vm_compute; reflexivity).
  split; [|split].
  - apply (proj1 (Payment_Validate_accepts (sample_payment 7 (f64_of_int 100))) H100).
    split; [reflexivity | vm_compute; reflexivity].
  - intros H.
    apply (proj1 (Payment_Validate_accepts (sample_payment 7 (f64_of_int 0))) H0) in H.
    destruct H as [_ H]. vm_compute in H. discriminate H.
  - apply (proj2 (Payment_Validate_accepts (sample_payment 7 S754_nan)) eq_refl).
    reflexivity.
Defined.

(** ** Configuration from the environment *)

Lemma Gateway_getEnv_set (environ : Environ) (key defaultValue value : string) :
  environ key = Some value -> value <> "" ->
  Gateway.getEnv environ key defaultValue = value.
Proof.
  intros Hset Hne. unfold Gateway.getEnv, Getenv, LookupEnv. rewrite Hset.
  cbn [fst]. apply is_empty_false in Hne. rewrite Hne. reflexivity.
Qed.

Lemma Gateway_getEnv_not_empty (environ : Environ) (key defaultValue : string) :
  defaultValue <> "" -> Gateway.getEnv environ key defaultValue <> "".
Proof.
  intros Hd. unfold Gateway.getEnv.
  destruct (is_empty (Getenv environ key)) eqn:He; [exact Hd|].
  apply is_empty_false. exact He.
Qed.

Lemma Gateway_getEnv_no_default (environ : Environ) (key : string) :
  Gateway.getEnv environ key "" = Getenv environ key.
Proof.
  unfold Gateway.getEnv.
  destruct (is_empty (Getenv environ key)) eqn:He; [|reflexivity].
  apply is_empty_true in He. symmetry. exact He.
Qed.

Lemma getEnv_agree (environ : Environ) (key defaultValue : string) :
  Api.getEnv environ key defaultValue = Gateway.getEnv environ key defaultValue
  /\ Config.getEnv environ key defaultValue
     = Gateway.getEnv environ key defaultValue.
Proof.
  unfold Api.getEnv, Config.getEnv, Gateway.getEnv, Getenv, LookupEnv.
  destruct (environ key) as [value|]; cbn [fst andb];
    [destruct (is_empty value)|]; split; reflexivity.
Qed.

(** X8.  The three [getEnv] of the repository (the stand-alone service,
    the API, package config) are one function: the value of the variable
    when it is set and not empty, the default when it is not set or set to
    the empty string; so a setting with a non-empty default is never empty.
    In [initConfig], the port, the host, port, user and name of the
    database, the URL and the two paths are therefore never empty, and the
    password of the database and the Robokassa credentials are what the
    environment holds, empty when it holds nothing. *)
Theorem getEnv_defaults (environ : Environ) :
  (forall key defaultValue : string,
      Api.getEnv environ key defaultValue = Gateway.getEnv environ key defaultValue
      /\ Config.getEnv environ key defaultValue
         = Gateway.getEnv environ key defaultValue
      /\ (forall value, environ key = Some value -> value <> "" ->
                        Gateway.getEnv environ key defaultValue = value)
      /\ (environ key = None \/ environ key = Some "" ->
          Gateway.getEnv environ key defaultValue = defaultValue)
      /\ (defaultValue <> "" -> Gateway.getEnv environ key defaultValue <> ""))
  /\
  (let c := Api.initConfig environ in
   Api.HTTPPort c <> ""
   /\ Api.DBConfig_Host (Api.Config_DBConfig c) <> ""
   /\ Api.DBConfig_Port (Api.Config_DBConfig c) <> ""
   /\ Api.DBConfig_User (Api.Config_DBConfig c) <> ""
   /\ Api.DBConfig_Name (Api.Config_DBConfig c) <> ""
   /\ Api.ChestnyZnak_URL (Api.Config_ChestnyZnakConfig c) <> ""
   /\ Api.ChestnyZnak_PrivateKeyPath (Api.Config_ChestnyZnakConfig c) <> ""
   /\ Api.ChestnyZnak_CertPath (Api.Config_ChestnyZnakConfig c) <> ""
   /\ Api.DBConfig_Password (Api.Config_DBConfig c) = Getenv environ "DB_PASSWORD"
   /\ Api.RobokassaLogin (Api.Config_PaymentConfig c)
      = Getenv environ "ROBOKASSA_LOGIN"
   /\ Api.RobokassaPass (Api.Config_PaymentConfig c)
      = Getenv environ "ROBOKASSA_PASSWORD").
Proof.
  split.
  - intros key defaultValue.
    destruct (getEnv_agree environ key defaultValue) as [Hapi Hcfg].
    split; [exact Hapi|]. split; [exact Hcfg|].
    split; [intros value; apply Gateway_getEnv_set|].
    split; [|apply Gateway_getEnv_not_empty].
    intros Hunset. unfold Gateway.getEnv, Getenv, LookupEnv.
    destruct Hunset as [-> | ->]; reflexivity.
  - cbv zeta. unfold Api.initConfig.
    cbn [Api.HTTPPort Api.Config_DBConfig Api.Config_ChestnyZnakConfig
         Api.Config_PaymentConfig Api.DBConfig_Host Api.DBConfig_Port
         Api.DBConfig_User Api.DBConfig_Name Api.DBConfig_Password
         Api.ChestnyZnak_URL Api.ChestnyZnak_PrivateKeyPath
         Api.ChestnyZnak_CertPath Api.RobokassaLogin Api.RobokassaPass].
    repeat match goal with
           | |- context [Api.getEnv environ ?k ?d] =>
               rewrite (proj1 (getEnv_agree environ k d))
           end.
    rewrite !Gateway_getEnv_no_default.
    repeat split; try reflexivity; apply Gateway_getEnv_not_empty; discriminate.
Qed.

Lemma Itoa_not_empty (n : Z) : minInt <= n <= maxInt -> Itoa n <> "".
Proof.
  intros Hrange Hempty. pose proof (Atoi_Itoa n Hrange) as H.
  rewrite Hempty in H. discriminate H.
Qed.

(** X9.  [getIntEnv] returns the number that the variable holds in decimal
    digits, and the default when the variable is not set, is empty, or does
    not hold a 64-bit number. *)
Theorem getIntEnv_reads_decimal
    (environ : Environ) (key : string) (defaultValue : Z) :
  (forall n, minInt <= n <= maxInt -> environ key = Some (Itoa n) ->
             Gateway.getIntEnv environ key defaultValue = n)
  /\ (environ key = None \/ environ key = Some "" ->
      Gateway.getIntEnv environ key defaultValue = defaultValue)
  /\ (forall value e, environ key = Some value -> ParseInt64 value = Err e ->
                      Gateway.getIntEnv environ key defaultValue = defaultValue).
Proof.
  unfold Gateway.getIntEnv, Getenv, LookupEnv. split; [|split].
  - intros n Hrange ->. cbn [fst].
    pose proof (Itoa_not_empty n Hrange) as Hne. apply is_empty_false in Hne.
    rewrite Hne. unfold ParseInt64. rewrite (Atoi_Itoa n Hrange). reflexivity.
  - intros [-> | ->]; reflexivity.
  - intros value e -> Herr. cbn [fst]. rewrite Herr.
    destruct (is_empty value); reflexivity.
Qed.

Lemma getIntEnv_reads_decimal_witness :
  Gateway.getIntEnv (environment [("TELEGRAM_CHAT_ID", Itoa (-1001234567890))])
    "TELEGRAM_CHAT_ID" 0 = -1001234567890
  /\ Gateway.getIntEnv (environment [("TELEGRAM_CHAT_ID", "12a")])
       "TELEGRAM_CHAT_ID" 0 = 0.
Proof.
  split.
  - apply (getIntEnv_reads_decimal
             (environment [("TELEGRAM_CHAT_ID", Itoa (-1001234567890))])
             "TELEGRAM_CHAT_ID" 0).
    + vm_compute. split; discriminate.
    + reflexivity.
  - apply (proj2 (proj2 (getIntEnv_reads_decimal
                           (environment [("TELEGRAM_CHAT_ID", "12a")])
                           "TELEGRAM_CHAT_ID" 0)) "12a" "invalid syntax");
      reflexivity.
Defined.

(** X10.  The configuration that [loadConfig] reads passes
    [validateConfig] exactly when the environment holds a bot token, a chat
    id that is a 64-bit number other than zero, and the Robokassa login and
    password; a chat id that is not a number counts as missing. *)
Theorem loadConfig_valid (environ : Environ) :
  Gateway.validateConfig (Gateway.loadConfig environ) = None
  <-> Getenv environ "TELEGRAM_BOT_TOKEN" <> ""
      /\ (exists n, ParseInt64 (Getenv environ "TELEGRAM_CHAT_ID") = Ok n /\ n <> 0)
      /\ Getenv environ "ROBOKASSA_LOGIN" <> ""
      /\ Getenv environ "ROBOKASSA_PASSWORD" <> "".
Proof.
  unfold Gateway.validateConfig, Gateway.loadConfig.
  cbn [Gateway.TelegramBotToken Gateway.TelegramChatID Gateway.RobokassaLogin
       Gateway.RobokassaPassword].
  rewrite !Gateway_getEnv_no_default. unfold Gateway.getIntEnv.
  destruct (is_empty (Getenv environ "TELEGRAM_BOT_TOKEN")) eqn:Htoken; cbn [orb].
  { apply is_empty_true in Htoken. split; [discriminate|].
    intros [H _]. contradiction. }
  apply is_empty_false in Htoken.
  destruct (is_empty (Getenv environ "TELEGRAM_CHAT_ID")) eqn:Hchat.
  { apply is_empty_true in Hchat. rewrite Hchat. cbn.
    split; [discriminate|]. intros [_ [[n [Hn _]] _]]. discriminate Hn. }
  destruct (ParseInt64 (Getenv environ "TELEGRAM_CHAT_ID")) as [n|e] eqn:Hparse.
  2: { cbn. split; [discriminate|]. intros [_ [[n [Hn _]] _]]. discriminate Hn. }
  destruct (n =? 0) eqn:Hzero.
  { apply Z.eqb_eq in Hzero. split; [discriminate|].
    intros [_ [[n' [Hn' Hne]] _]]. injection Hn' as <-. contradiction. }
  apply Z.eqb_neq in Hzero.
  destruct (is_empty (Getenv environ "ROBOKASSA_LOGIN")) eqn:Hlogin; cbn [orb].
  { apply is_empty_true in Hlogin. split; [discriminate|].
    intros [_ [_ [H _]]]. contradiction. }
  apply is_empty_false in Hlogin.
  destruct (is_empty (Getenv environ "ROBOKASSA_PASSWORD")) eqn:Hpass.
  { apply is_empty_true in Hpass. split; [discriminate|].
    intros [_ [_ [_ H]]]. contradiction. }
  apply is_empty_false in Hpass.
  split; [|reflexivity]. intros _.
  split; [exact Htoken|]. split; [exists n; split; [reflexivity | exact Hzero]|].
  split; assumption.
Qed.

Lemma Config_getEnv_set (environ : Environ) (key defaultValue value : string) :
  environ key = Some value -> value <> "" ->
  Config.getEnv environ key defaultValue = value.
Proof.
  intros Hset Hne. rewrite (proj2 (getEnv_agree environ key defaultValue)).
  apply Gateway_getEnv_set; assumption.
Qed.

Lemma Config_getEnv_unset (environ : Environ) (key defaultValue : string) :
  environ key = None -> Config.getEnv environ key defaultValue = defaultValue.
Proof.
  intros Hunset. unfold Config.getEnv, Getenv, LookupEnv. rewrite Hunset.
  reflexivity.
Qed.

(** X11.  What the test of package config checks of [Load] holds in every
    environment of its kind: when DB_PASSWORD, CHESTNY_ZNAK_API_KEY,
    SERVER_PORT and DB_HOST are set to non-empty values and
    SERVER_READ_TIMEOUT and DB_SSL_MODE are not set, [Load] succeeds with
    these four values, a read timeout of 15 seconds and the SSL mode
    "disable". *)
Theorem Load_reads_environment
    (environ : Environ) (ParseDuration : string -> result Z)
    (password apiKey port host : string) :
  environ "DB_PASSWORD" = Some password -> password <> "" ->
  environ "CHESTNY_ZNAK_API_KEY" = Some apiKey -> apiKey <> "" ->
  environ "SERVER_PORT" = Some port -> port <> "" ->
  environ "DB_HOST" = Some host -> host <> "" ->
  environ "SERVER_READ_TIMEOUT" = None ->
  environ "DB_SSL_MODE" = None ->
  exists cfg,
    Config.Load environ ParseDuration = Ok cfg
    /\ Config.Server_Port (Config.Server cfg) = port
    /\ Config.Host (Config.Database cfg) = host
    /\ Config.Password (Config.Database cfg) = password
    /\ Config.APIKey (Config.API cfg) = apiKey
    /\ Config.ReadTimeout (Config.Server cfg) = 15 * Config.Second
    /\ Config.SSLMode (Config.Database cfg) = "disable".
Proof.
  intros Hpw Hpw' Hkey Hkey' Hport Hport' Hhost Hhost' Htimeout Hssl.
  unfold Config.Load, Config.validate.
  cbn [Config.Database Config.API Config.Password Config.APIKey].
  rewrite (Config_getEnv_set environ _ _ _ Hpw Hpw').
  rewrite (Config_getEnv_set environ _ _ _ Hkey Hkey').
  apply is_empty_false in Hpw'. rewrite Hpw'.
  apply is_empty_false in Hkey'. rewrite Hkey'.
  eexists. split; [reflexivity|].
  cbn [Config.Server Config.Database Config.API Config.Server_Port Config.Host
       Config.Password Config.APIKey Config.ReadTimeout Config.SSLMode].
  rewrite (Config_getEnv_set environ _ _ _ Hport Hport').
  rewrite (Config_getEnv_set environ _ _ _ Hhost Hhost').
  rewrite (Config_getEnv_unset environ _ _ Hssl).
  unfold Config.getDurationEnv, Getenv, LookupEnv. rewrite Htimeout.
  repeat split; reflexivity.
Qed.

Lemma Load_reads_environment_witness :
  exists cfg,
    Config.Load test_environment no_duration = Ok cfg
    /\ Config.Server_Port (Config.Server cfg) = "8081"
    /\ Config.Host (Config.Database cfg) = "test_host"
    /\ Config.Password (Config.Database cfg) = "test_password"
    /\ Config.APIKey (Config.API cfg) = "test_api_key"
    /\ Config.ReadTimeout (Config.Server cfg) = 15 * Config.Second
    /\ Config.SSLMode (Config.Database cfg) = "disable".
Proof.
  apply (Load_reads_environment test_environment no_duration
           "test_password" "test_api_key" "8081" "test_host");
    try reflexivity; discriminate.
Defined.

(** X12.  [Load] fails exactly when the environment gives no password of
    the database or no API key, a variable set to the empty string counting
    as not set; no other setting makes it fail, an unreadable duration
    being replaced by its default. *)
Theorem Load_fails_without_secrets
    (environ : Environ) (ParseDuration : string -> result Z) :
  is_ok (Config.Load environ ParseDuration) = false
  <-> Getenv environ "DB_PASSWORD" = ""
      \/ Getenv environ "CHESTNY_ZNAK_API_KEY" = "".
Proof.
  unfold Config.Load, Config.validate.
  cbn [Config.Database Config.API Config.Password Config.APIKey].
  rewrite !(proj2 (getEnv_agree environ _ _)), !Gateway_getEnv_no_default.
  destruct (is_empty (Getenv environ "DB_PASSWORD")) eqn:Hpw.
  { apply is_empty_true in Hpw. cbn [is_ok]. split; [auto | reflexivity]. }
  apply is_empty_false in Hpw.
  destruct (is_empty (Getenv environ "CHESTNY_ZNAK_API_KEY")) eqn:Hkey.
  { apply is_empty_true in Hkey. cbn [is_ok]. split; [auto | reflexivity]. }
  apply is_empty_false in Hkey. cbn [is_ok].
  split; [discriminate | intros [H | H]; contradiction].
Qed.

(** ** The HTTP handler of the stand-alone payment service *)

(** X13.  [handlePaymentRequest] answers every POST whose body decodes and
    whose telegram id is absent or a number with the status 200, also when
    [createPayment] refuses the request: the refusal is in the body, with
    the status "error" and no payment URL.  The telegram id has no part in
    the answer. *)
Theorem handlePaymentRequest_answers_200
    (fmt_g : float64 -> string) (config : Gateway.Config)
    (r : GatewayHttp.Call) (data : Gateway.PaymentRequestData) :
  GatewayHttp.call_Method r = MethodPost ->
  GatewayHttp.call_Body r = Ok data ->
  (assoc "telegram_id" (GatewayHttp.call_Query r) = ""
   \/ exists n, ParseInt64 (assoc "telegram_id" (GatewayHttp.call_Query r)) = Ok n) ->
  GatewayHttp.handlePaymentRequest fmt_g config r
  = {| StatusCode := StatusOK;
       Content :=
         JSON (GatewayHttp.encode_PaymentResponse
                 (fst (Gateway.createPayment fmt_g config
                         (GatewayHttp.call_ctx_err r) data))) |}
  /\ (f64_leb (Gateway.Amount data) f64_zero = true ->
      GatewayHttp.handlePaymentRequest fmt_g config r
      = {| StatusCode := StatusOK;
           Content := JSON [("status", JString "error");
                            ("message", JString "Некорректная сумма платежа")] |})
  /\ (f64_leb (Gateway.Amount data) f64_zero = false ->
      Gateway.OrderID data = "" ->
      GatewayHttp.handlePaymentRequest fmt_g config r
      = {| StatusCode := StatusOK;
           Content := JSON [("status", JString "error");
                            ("message", JString "Не указан ID заказа")] |})
  /\ (forall e,
        f64_leb (Gateway.Amount data) f64_zero = false ->
        Gateway.OrderID data <> "" ->
        GatewayHttp.call_ctx_err r = Some e ->
        GatewayHttp.handlePaymentRequest fmt_g config r
        = {| StatusCode := StatusOK;
             Content := JSON [("status", JString "error");
                              ("message", JString "Операция отменена")] |}).
Proof.
  intros Hm Hbody Hid.
  assert (Hrun :
    GatewayHttp.handlePaymentRequest fmt_g config r
    = {| StatusCode := StatusOK;
         Content :=
           JSON (GatewayHttp.encode_PaymentResponse
                   (fst (Gateway.createPayment fmt_g config
                           (GatewayHttp.call_ctx_err r) data))) |}).
  { unfold GatewayHttp.handlePaymentRequest. rewrite Hm, Hbody.
    replace (String.eqb MethodPost MethodPost) with true by reflexivity.
    cbn [negb].
    destruct Hid as [-> | [n Hn]].
    - cbn [is_empty].
      destruct (Gateway.createPayment _ _ _ _) as [response err]. reflexivity.
    - rewrite Hn.
      destruct (is_empty _);
        destruct (Gateway.createPayment _ _ _ _) as [response err]; reflexivity. }
  split; [exact Hrun|]. rewrite Hrun. unfold Gateway.createPayment.
  split; [|split].
  - intros Hamount. rewrite Hamount. reflexivity.
  - intros Hamount Horder. rewrite Hamount, Horder. reflexivity.
  - intros e Hamount Horder Hctx. rewrite Hamount, Hctx.
    apply is_empty_false in Horder. rewrite Horder. reflexivity.
Qed.

Lemma handlePaymentRequest_answers_200_witness :
  GatewayHttp.handlePaymentRequest fmt_100 shop_config
    (gateway_call "POST" [("telegram_id", "123456789")] (f64_of_int 0) "42")
  = {| StatusCode := StatusOK;
       Content := JSON [("status", JString "error");
                        ("message", JString "Некорректная сумма платежа")] |}.
Proof.
  apply (handlePaymentRequest_answers_200 fmt_100 shop_config
           (gateway_call "POST" [("telegram_id", "123456789")] (f64_of_int 0) "42")
           {| Gateway.Amount := f64_of_int 0; Gateway.OrderID := "42" |}).
  - reflexivity.
  - reflexivity.
  - right. exists 123456789. vm_compute. reflexivity.
  - vm_compute. reflexivity.
Defined.

(** ** Who may pay for an order *)





(** ** From the creation of a payment to its completion *)




(** ** From a registration to an authenticated request *)

Lemma filter_one_split {A} (f : A -> bool) (l : list A) (x : A) :
  filter f l = [x] ->
  exists l1 l2,
    l = (l1 ++ x :: l2)%list /\ f x = true
    /\ (forall y, In y (l1 ++ l2)%list -> f y = false).
Proof.
  induction l as [|a l IH]; intros Hf; [discriminate Hf|].
  cbn [filter] in Hf. destruct (f a) eqn:Ha.
  - injection Hf as -> Hrest. exists [], l. split; [reflexivity|].
    split; [exact Ha|]. cbn [app]. intros y Hy.
    destruct (f y) eqn:Hy'; [|reflexivity].
    assert (Hin : In y (filter f l)) by (apply filter_In; split; assumption).
    rewrite Hrest in Hin. destruct Hin.
  - destruct (IH Hf) as [l1 [l2 [-> [Hx Hothers]]]].
    exists (a :: l1), l2. split; [reflexivity|]. split; [exact Hx|].
    intros y [<- | Hy]; [exact Ha | apply Hothers; exact Hy].
Qed.

Lemma existsb_false_all {A} (f : A -> bool) (l : list A) :
  existsb f l = false -> forall x, In x l -> f x = false.
Proof.
  intros H x Hx. destruct (f x) eqn:Hfx; [|reflexivity].
  assert (He : existsb f l = true) by (apply existsb_exists; exists x; auto).
  congruence.
Qed.

Lemma find_first {A} (f : A -> bool) (l1 l2 : list A) (x : A) :
  (forall y, In y l1 -> f y = false) -> f x = true ->
  find f (l1 ++ x :: l2)%list = Some x.
Proof.
  intros Hl1 Hx. induction l1 as [|a l1 IH]; cbn [app find].
  - rewrite Hx. reflexivity.
  - rewrite (Hl1 a (or_introl eq_refl)). apply IH.
    intros y Hy. apply Hl1. right. exact Hy.
Qed.

(** The row that a successful registration leaves: the only one with the
    telegram id and the only one with the api key. *)
Lemma register_success_row (db db1 : DB) (env : Api.Env)
    (r : Request Api.UserRegistrationRequest) (q : Api.UserRegistrationRequest)
    (userID : Z) :
  Body r = Ok q ->
  Api.registerUserHandler db env r
    = (Spec.registered userID (Api.generateAPIKey env), db1) ->
  exists us1 u us2,
    users (tables db1) = (us1 ++ u :: us2)%list
    /\ user_id u = userID
    /\ user_telegram_id u = Api.reg_TelegramID q
    /\ user_inn u = Api.reg_INN q
    /\ user_email u = Api.reg_Email q
    /\ user_api_key u = Some (Api.generateAPIKey env)
    /\ (forall v, In v (us1 ++ us2)%list ->
                  user_telegram_id v <> Api.reg_TelegramID q
                  /\ user_api_key v <> Some (Api.generateAPIKey env)).
Proof.
  intros Hbody Hrun. unfold Api.registerUserHandler in Hrun. rewrite Hbody in Hrun.
  destruct (negb (String.eqb (Method r) MethodPost)); [discriminate Hrun|].
  destruct ((Api.reg_TelegramID q <=? 0) || is_empty (Api.reg_INN q));
    [discriminate Hrun|].
  destruct (Api.fault env 0); [discriminate Hrun|].
  destruct (Api.fault env 1); [discriminate Hrun|].
  destruct (Api.select_exists_user db (Api.reg_TelegramID q)) eqn:Hex.
  - unfold Api.update_user_returning_id in Hrun.
    destruct (existsb _ _ || _) eqn:Hunique; [discriminate Hrun|].
    apply Bool.orb_false_elim in Hunique. destruct Hunique as [Hkeys Hone].
    destruct (filter (fun u => user_telegram_id u =? Api.reg_TelegramID q)
                     (users (tables db))) as [|u rest] eqn:Hf;
      [discriminate Hrun|].
    destruct rest as [|u' rest].
    2: { cbn [List.length] in Hone. apply Z.ltb_ge in Hone. lia. }
    injection Hrun as Hid Hdb. subst db1 userID.
    destruct (filter_one_split _ _ _ Hf) as [us1 [us2 [Hus [Hu Hothers]]]].
    exists us1,
      (Api.set_registration u (Api.reg_INN q) (Api.reg_Email q)
         (Api.time_Now env) (Api.generateAPIKey env)), us2.
    cbn [tables users set_users]. rewrite Hus, map_app. cbn [map]. rewrite Hu.
    assert (H1 : forall y, In y us1 ->
                   (user_telegram_id y =? Api.reg_TelegramID q) = false)
      by (intros y Hy; apply Hothers, in_or_app; left; exact Hy).
    assert (H2 : forall y, In y us2 ->
                   (user_telegram_id y =? Api.reg_TelegramID q) = false)
      by (intros y Hy; apply Hothers, in_or_app; right; exact Hy).
    rewrite (map_unless _ _ us1 H1), (map_unless _ _ us2 H2).
    split; [reflexivity|]. split; [reflexivity|].
    split; [apply Z.eqb_eq; exact Hu|]. split; [reflexivity|].
    split; [reflexivity|]. split; [reflexivity|].
    intros v Hv. pose proof (Hothers v Hv) as Hmiss.
    split; [apply Z.eqb_neq; exact Hmiss|].
    assert (Hin : In v (users (tables db))).
    { rewrite Hus. apply in_app_or in Hv. apply in_or_app.
      destruct Hv as [Hv|Hv]; [left | right; right]; exact Hv. }
    pose proof (existsb_false_all _ _ Hkeys v Hin) as Hkey. cbn beta in Hkey.
    rewrite Hmiss in Hkey. cbn [negb andb] in Hkey.
    apply opt_string_eqb_false. exact Hkey.
  - unfold Api.insert_user_returning_id in Hrun.
    destruct (existsb _ _) eqn:Hunique; [discriminate Hrun|].
    injection Hrun as Hid Hdb. subst db1 userID.
    eexists (users (tables db)), _, []. cbn [tables users set_users].
    split; [reflexivity|]. cbn [user_id user_telegram_id user_inn user_email
                                user_api_key].
    repeat (split; [reflexivity|]).
    intros v Hv. rewrite app_nil_r in Hv.
    pose proof (existsb_false_all _ _ Hunique v Hv) as Hkey. cbn beta in Hkey.
    apply Bool.orb_false_elim in Hkey. destruct Hkey as [Htid Hkey].
    split; [apply Z.eqb_neq; exact Htid | apply opt_string_eqb_false; exact Hkey].
Qed.

(** X15.  The api key that [registerUserHandler] hands out authenticates
    the user it was handed to: a later request to a protected path that
    carries this key in X-API-Key passes [authMiddleware], which records the
    time in [last_active] of this user and gives the request, with the id of
    this user in its context, to the next handler. *)
Theorem registered_key_authenticates {B : Type}
    (db db1 : DB) (env env' : Api.Env)
    (r : Request Api.UserRegistrationRequest) (q : Api.UserRegistrationRequest)
    (userID : Z) (req : Request B) :
  Body r = Ok q ->
  Api.registerUserHandler db env r
    = (Spec.registered userID (Api.generateAPIKey env), db1) ->
  Api.generateAPIKey env <> "" ->
  Api.publicPaths (Path req) = false ->
  HasPrefix (Path req) "/docs/" = false ->
  Header_Get req "X-Api-Key" = Api.generateAPIKey env ->
  Api.fault env' 0 = false ->
  Api.fault env' 1 = false ->
  Api.authenticate db1 env' req
  = Api.Forward (WithUserID req userID)
      (Api.update_last_active db1 (Api.time_Now env') userID) 2%nat
  /\ forall next : Api.Handler B,
       Api.authMiddleware next db1 env' req
       = next (Api.update_last_active db1 (Api.time_Now env') userID)
              (Api.after 2 env') (WithUserID req userID).
Proof.
  intros Hbody Hrun Hkey Hpublic Hdocs Hheader Hf0 Hf1.
  destruct (register_success_row db db1 env r q userID Hbody Hrun)
    as [us1 [u [us2 [Hus [Hid [_ [_ [_ [Hukey Hothers]]]]]]]]].
  assert (Hfound :
    Api.select_user_id_by_api_key db1 (Api.generateAPIKey env) = Some userID).
  { unfold Api.select_user_id_by_api_key. rewrite Hus.
    rewrite find_first.
    - rewrite Hid. reflexivity.
    - intros v Hv. apply opt_string_eqb_false.
      apply (Hothers v). apply in_or_app. left. exact Hv.
    - rewrite Hukey. cbn [opt_string_eqb]. apply String.eqb_refl. }
  assert (Hauth :
    Api.authenticate db1 env' req
    = Api.Forward (WithUserID req userID)
        (Api.update_last_active db1 (Api.time_Now env') userID) 2%nat).
  { unfold Api.authenticate. rewrite Hpublic, Hdocs. cbn [orb].
    rewrite Hheader. apply is_empty_false in Hkey. rewrite Hkey.
    rewrite Hf0, Hfound, Hf1. reflexivity. }
  split; [exact Hauth|]. intros next. unfold Api.authMiddleware.
  rewrite Hauth. reflexivity.
Qed.

Lemma registered_key_authenticates_witness :
  Api.authenticate registered_db (api_env 2000 "fedcba9876543210")
    (with_api_key "/api/kizs" (hex "0123456789abcdef"))
  = Api.Forward (WithUserID (with_api_key "/api/kizs" (hex "0123456789abcdef")) 1)
      (Api.update_last_active registered_db 2000 1) 2%nat.
Proof.
  apply (registered_key_authenticates empty_db registered_db
           (api_env 1000 "0123456789abcdef") (api_env 2000 "fedcba9876543210")
           (register_request "7707083893") (registration "7707083893") 1
           (with_api_key "/api/kizs" (hex "0123456789abcdef"))).
  - reflexivity.
  - vm_compute. reflexivity.
  - discriminate.
  - reflexivity.
  - reflexivity.
  - reflexivity.
  - reflexivity.
  - reflexivity.
Defined.

(** ** The status of a payment *)

Lemma joined_rows (t : Tables) (p : PaymentRow) (o : OrderRow) (u : UserRow) :
  In (p, o, u) (Api.payments_orders_users t) ->
  In p (payments t) /\ In o (orders t) /\ In u (users t)
  /\ pay_order_id p = Some (ord_id o) /\ ord_user_id o = user_id u.
Proof.
  unfold Api.payments_orders_users. intros H.
  apply in_flat_map in H. destruct H as [p' [Hp H]].
  apply in_flat_map in H. destruct H as [o' [Ho H]].
  destruct (opt_Z_eqb (pay_order_id p') (Some (ord_id o'))) eqn:Hjoin;
    [|destruct H].
  apply in_map_iff in H. destruct H as [u' [Heq Hu]].
  injection Heq as -> -> ->.
  apply filter_In in Hu. destruct Hu as [Hu Huser].
  apply Z.eqb_eq in Huser.
  unfold opt_Z_eqb in Hjoin.
  destruct (pay_order_id p) as [oid|]; [|discriminate Hjoin].
  apply Z.eqb_eq in Hjoin. subst oid.
  repeat split; assumption.
Qed.

(** X16.  [paymentStatusHandler] shows a payment only to the user it
    belongs to: when it answers with a payment, the request was a GET, the
    payment has the id asked for, its order belongs to the user whose
    telegram id the request carries, and the row has a transaction id; the
    answer holds the columns of this row. *)
Theorem paymentStatusHandler_serves_owner {B : Type}
    (db : DB) (env : Api.Env) (r : Request B)
    (key : string) (payment : Models.Payment) :
  Api.paymentStatusHandler db env r = Api.Served key payment ->
  Method r = MethodGet
  /\ key = "payment"
  /\ exists p o u transactionID,
       In p (payments (tables db)) /\ In o (orders (tables db))
       /\ In u (users (tables db))
       /\ pay_order_id p = Some (ord_id o)
       /\ ord_user_id o = user_id u
       /\ Atoi (Query_Get r "id") = Ok (pay_id p)
       /\ ParseInt64 (Query_Get r "telegram_id") = Ok (user_telegram_id u)
       /\ pay_transaction_id p = Some transactionID
       /\ payment
          = {| Models.payment_ID := pay_id p;
               Models.payment_OrderID := ord_id o;
               Models.payment_Amount := pay_amount p;
               Models.payment_Status := pay_status p;
               Models.payment_TransactionID := transactionID;
               Models.payment_CreatedAt := pay_created_at p;
               Models.payment_CompletedAt := pay_completed_at p;
               Models.payment_Currency := pay_currency p |}.
Proof.
  unfold Api.paymentStatusHandler. intros H.
  destruct (String.eqb_spec (Method r) MethodGet) as [Hm|Hm]; cbn [negb] in H;
    [|discriminate H].
  destruct (is_empty (Query_Get r "id")); [discriminate H|].
  destruct (Atoi (Query_Get r "id")) as [paymentID|e]; [|discriminate H].
  destruct (is_empty (Query_Get r "telegram_id")); [discriminate H|].
  destruct (ParseInt64 (Query_Get r "telegram_id")) as [telegramID|e];
    [|discriminate H].
  destruct (Api.fault env 0); [discriminate H|].
  destruct (find _ _) as [[[p o] u]|] eqn:Hfind; [|discriminate H].
  destruct (pay_transaction_id p) as [transactionID|] eqn:Htx; [|discriminate H].
  injection H as <- <-.
  apply find_some in Hfind. destruct Hfind as [Hin Hmatch].
  apply Bool.andb_true_iff in Hmatch. destruct Hmatch as [Hid Htid].
  apply Z.eqb_eq in Hid, Htid.
  destruct (joined_rows _ _ _ _ Hin) as [Hp [Ho [Hu [Hjoin Howner]]]].
  split; [exact Hm|]. split; [reflexivity|].
  exists p, o, u, transactionID. rewrite Hid, Htid.
  repeat split; assumption.
Qed.

Lemma paymentStatusHandler_serves_owner_witness :
  exists p o u transactionID,
    In p (payments (tables completed_db)) /\ In o (orders (tables completed_db))
    /\ In u (users (tables completed_db))
    /\ pay_order_id p = Some (ord_id o)
    /\ ord_user_id o = user_id u
    /\ Atoi (Query_Get (status_request "1" "123456789") "id") = Ok (pay_id p)
    /\ ParseInt64 (Query_Get (status_request "1" "123456789") "telegram_id")
       = Ok (user_telegram_id u)
    /\ pay_transaction_id p = Some transactionID
    /\ {| Models.payment_ID := 1; Models.payment_OrderID := 7;
          Models.payment_Amount := f64_of_int 100;
          Models.payment_Status := "completed";
          Models.payment_TransactionID := "";
          Models.payment_CreatedAt := 0;
          Models.payment_CompletedAt := Some 2000;
          Models.payment_Currency := "RUB" |}
       = {| Models.payment_ID := pay_id p;
            Models.payment_OrderID := ord_id o;
            Models.payment_Amount := pay_amount p;
            Models.payment_Status := pay_status p;
            Models.payment_TransactionID := transactionID;
            Models.payment_CreatedAt := pay_created_at p;
            Models.payment_CompletedAt := pay_completed_at p;
            Models.payment_Currency := pay_currency p |}.
Proof.
  apply (paymentStatusHandler_serves_owner completed_db
           (api_env 3000 "0123456789abcdef") (status_request "1" "123456789")
           "payment").
  vm_compute. reflexivity.
Defined.

Lemma served_row {B : Type} (db : DB) (env : Api.Env) (r : Request B)
    (key : string) (payment : Models.Payment) :
  Api.paymentStatusHandler db env r = Api.Served key payment ->
  exists p, In p (payments (tables db))
            /\ Atoi (Query_Get r "id") = Ok (pay_id p)
            /\ pay_order_id p <> None /\ pay_transaction_id p <> None.
Proof.
  unfold Api.paymentStatusHandler. intros H.
  destruct (negb _); [discriminate H|].
  destruct (is_empty (Query_Get r "id")); [discriminate H|].
  destruct (Atoi (Query_Get r "id")) as [paymentID|e]; [|discriminate H].
  destruct (is_empty (Query_Get r "telegram_id")); [discriminate H|].
  destruct (ParseInt64 (Query_Get r "telegram_id")) as [telegramID|e];
    [|discriminate H].
  destruct (Api.fault env 0); [discriminate H|].
  destruct (find _ _) as [[[p o] u]|] eqn:Hfind; [|discriminate H].
  destruct (pay_transaction_id p) as [transactionID|] eqn:Htx; [|discriminate H].
  apply find_some in Hfind. destruct Hfind as [Hin Hmatch].
  apply Bool.andb_true_iff in Hmatch. destruct Hmatch as [Hid _].
  apply Z.eqb_eq in Hid.
  destruct (joined_rows _ _ _ _ Hin) as [Hp [_ [_ [Hjoin _]]]].
  exists p. rewrite Hid, Hjoin, Htx. repeat split; try assumption; discriminate.
Qed.

(** X17.  The status of a payment that [createPaymentHandler] has created
    cannot be read: the row has no order and no transaction id, and
    [paymentStatusHandler], asked for the id of the new payment, answers
    with no payment, whoever asks, before the callback and after it. *)
Theorem created_payment_is_not_served {B : Type}
    (fmt_g : float64 -> string) (rk : Api.PaymentConfig) (db db1 : DB)
    (env env' : Api.Env) (r : Request Api.PaymentRequest) (resp : Response)
    (req : Request B) :
  Api.createPaymentHandler fmt_g rk db env r = (resp, db1) ->
  StatusCode resp = StatusOK ->
  Forall (fun p => pay_id p < payments_id_seq (seqs db)) (payments (tables db)) ->
  Atoi (Query_Get req "id") = Ok (payments_id_seq (seqs db)) ->
  (forall key payment,
      Api.paymentStatusHandler db1 env' req <> Api.Served key payment)
  /\ (forall (env'' : Api.Env) (cb : Request unit) key payment,
        Api.paymentStatusHandler
          (snd (Api.robokassaCallbackHandler rk db1 env'' cb)) env' req
        <> Api.Served key payment).
Proof.
  intros Hrun Hok Hbelow Hid.
  destruct (createPaymentHandler_created fmt_g rk db db1 env r resp Hrun Hok)
    as [q [userID [_ [_ [Hpayments _]]]]].
  rewrite Forall_forall in Hbelow.
  assert (Hnone : forall p, In p (payments (tables db1)) ->
            pay_id p = payments_id_seq (seqs db) -> pay_order_id p = None).
  { intros p Hp Hpid. rewrite Hpayments in Hp. apply in_app_or in Hp.
    destruct Hp as [Hp | [<- | []]]; [|reflexivity].
    apply Hbelow in Hp. lia. }
  split.
  - intros key payment Hserved.
    destruct (served_row _ _ _ _ _ Hserved) as [p [Hp [Hpid [Horder _]]]].
    rewrite Hid in Hpid. injection Hpid as Hpid.
    apply Horder. apply Hnone; [exact Hp | symmetry; exact Hpid].
  - intros env'' cb key payment Hserved.
    destruct (served_row _ _ _ _ _ Hserved) as [p [Hp [Hpid [Horder _]]]].
    rewrite Hid in Hpid. injection Hpid as Hpid.
    destruct (callback_outcome rk db1 env'' cb) as [Hsame | [paymentID Hdb]].
    + rewrite Hsame in Hp. apply Horder.
      apply Hnone; [exact Hp | symmetry; exact Hpid].
    + rewrite Hdb in Hp. cbn [tables] in Hp.
      unfold UPDATE_payments in Hp.
      cbn [fst payments set_orders set_payments] in Hp.
      apply in_map_iff in Hp. destruct Hp as [p0 [Hp0 Hin0]].
      assert (Hsame : pay_id p = pay_id p0 /\ pay_order_id p = pay_order_id p0).
      { destruct (_ && _) in Hp0; subst p; split; reflexivity. }
      destruct Hsame as [Hi Ho]. apply Horder. rewrite Ho.
      apply Hnone; [exact Hin0 | rewrite <- Hi; symmetry; exact Hpid].
Qed.

Lemma created_payment_is_not_served_witness :
  (forall key payment,
      Api.paymentStatusHandler
        (snd (Api.createPaymentHandler fmt_100 shop one_user_db
                (api_env 1000 "0123456789abcdef") payment_request_100))
        (api_env 3000 "0123456789abcdef") (status_request "1" "123456789")
      <> Api.Served key payment)
  /\ Api.paymentStatusHandler
       (snd (Api.createPaymentHandler fmt_100 shop one_user_db
               (api_env 1000 "0123456789abcdef") payment_request_100))
       (api_env 3000 "0123456789abcdef") (status_request "1" "123456789")
     = Api.Refused
         (Api.sendJSONResponse
            [("message", JString "Платеж не найден"); ("status", JString "error")]
            StatusNotFound).
Proof.
  split; [|vm_compute; reflexivity].
  refine (proj1 (created_payment_is_not_served fmt_100 shop one_user_db
                   (snd (Api.createPaymentHandler fmt_100 shop one_user_db
                           (api_env 1000 "0123456789abcdef") payment_request_100))
                   (api_env 1000 "0123456789abcdef")
                   (api_env 3000 "0123456789abcdef")
                   payment_request_100
                   (fst (Api.createPaymentHandler fmt_100 shop one_user_db
                           (api_env 1000 "0123456789abcdef") payment_request_100))
                   (status_request "1" "123456789") _ _ _ _)).
  - apply surjective_pairing.
  - vm_compute. reflexivity.
  - constructor.
  - vm_compute. reflexivity.
Defined.

(** ** Requests for codes *)

(** X18.  A valid request to [kizHandler] is recorded in [kiz_requests]
    before the PDF is written: the row is there whether the file could be
    written (200) or not (500), and a failure to record the request is not
    reported.  The codes of the answer are the two fixed ones, whatever
    product codes the request names. *)
Theorem kizHandler_records_request
    (db : DB) (env : Api.Env) (r : Request Api.KIZRequest) (q : Api.KIZRequest) :
  Method r = MethodPost ->
  Body r = Ok q ->
  0 < Api.kreq_TelegramID q ->
  Api.kreq_GTINs q <> [] ->
  Api.kreq_INN q <> "" ->
  snd (Api.kizHandler db env r)
  = (if Api.fault env 0 then db
     else Api.insert_kiz_request db (Api.kreq_TelegramID q) (Api.kreq_INN q)
            (Api.time_Now env))
  /\ (forall filename, Api.pdf_file env = Ok filename ->
        fst (Api.kizHandler db env r)
        = Api.sendJSONResponse
            (Api.encode_KIZResponse
               {| Api.kresp_Status := "success";
                  Api.kresp_Message := "КИЗы успешно сгенерированы";
                  Api.kresp_KIZs := ["KIZ123456"; "KIZ789012"];
                  Api.kresp_FilePath := filename; Api.kresp_ErrorMsg := "" |})
            StatusOK)
  /\ (forall e, Api.pdf_file env = Err e ->
        fst (Api.kizHandler db env r)
        = Api.sendJSONResponse
            (Api.encode_KIZResponse
               {| Api.kresp_Status := "error";
                  Api.kresp_Message := "Ошибка генерации PDF";
                  Api.kresp_KIZs := []; Api.kresp_FilePath := "";
                  Api.kresp_ErrorMsg := e |})
            StatusInternalServerError).
Proof.
  intros Hm Hbody Htid Hgtins Hinn. unfold Api.kizHandler.
  rewrite Hm, Hbody.
  replace (String.eqb MethodPost MethodPost) with true by reflexivity.
  cbn [negb].
  apply Z.leb_gt in Htid. rewrite Htid.
  apply is_empty_false in Hinn. rewrite Hinn.
  destruct (Api.kreq_GTINs q) as [|g gtins]; [contradiction|].
  cbn [List.length Nat.eqb orb]. unfold Api.generateKIZPDF.
  destruct (Api.pdf_file env) as [filename|e].
  - split; [reflexivity|]. split.
    + intros f Hf. injection Hf as <-. reflexivity.
    + intros e He. discriminate He.
  - split; [reflexivity|]. split.
    + intros f Hf. discriminate Hf.
    + intros e' He. injection He as <-. reflexivity.
Qed.

Lemma kizHandler_records_request_witness :
  kiz_requests (tables (snd (Api.kizHandler empty_db disk_full
                               (kiz_request ["04602380040001"]))))
  = [{| kr_id := 1; kr_telegram_id := 123456789; kr_inn := "7707083893";
        kr_request_time := 1000; kr_status := "pending" |}]
  /\ StatusCode (fst (Api.kizHandler empty_db disk_full
                        (kiz_request ["04602380040001"])))
     = StatusInternalServerError.
Proof.
  destruct (kizHandler_records_request empty_db disk_full
              (kiz_request ["04602380040001"])
              {| Api.kreq_TelegramID := 123456789;
                 Api.kreq_GTINs := ["04602380040001"];
                 Api.kreq_INN := "7707083893" |})
    as [Hdb [_ Herr]]; try reflexivity; try discriminate.
  rewrite Hdb, (Herr "no space left on device" eq_refl).
  split; reflexivity.
Defined.

(** ** The ids of payments *)

Lemma NoDup_snoc {A} (l : list A) (x : A) :
  NoDup l -> ~ In x l -> NoDup (l ++ [x])%list.
Proof.
  intros Hl Hx. induction Hl as [|a l Ha Hl IH]; cbn [app].
  - constructor; [intros [] | constructor].
  - constructor.
    + intros Hin. apply in_app_or in Hin. destruct Hin as [Hin | [<- | []]].
      * contradiction.
      * apply Hx. left. reflexivity.
    + apply IH. intros Hin. apply Hx. right. exact Hin.
Qed.

Lemma createPaymentHandler_outcome (fmt_g : float64 -> string)
    (rk : Api.PaymentConfig) (db : DB) (env : Api.Env)
    (r : Request Api.PaymentRequest) :
  snd (Api.createPaymentHandler fmt_g rk db env r) = db
  \/ exists userID amount,
       snd (Api.createPaymentHandler fmt_g rk db env r)
       = snd (Api.insert_payment_returning_id db (Api.db_now env) userID amount).
Proof.
  unfold Api.createPaymentHandler.
  destruct (negb _); [left; reflexivity|].
  destruct (Body r) as [q|e]; [|left; reflexivity].
  destruct (f64_leb _ _); [left; reflexivity|].
  destruct (Api.fault env 0); [left; reflexivity|].
  destruct (Api.select_user_id_by_telegram _ _) as [userID|]; [|left; reflexivity].
  destruct (Api.fault env 1); [left; reflexivity|].
  right. exists userID, (Api.pr_Amount q). reflexivity.
Qed.

Lemma map_pay_id_update (where_ : PaymentRow -> bool) (set_ : PaymentRow -> PaymentRow)
    (ps : list PaymentRow) :
  (forall p, pay_id (set_ p) = pay_id p) ->
  map pay_id (map (fun p => if where_ p then set_ p else p) ps) = map pay_id ps.
Proof.
  intros Hid. induction ps as [|p ps IH]; [reflexivity|].
  cbn [map]. rewrite IH. destruct (where_ p); [rewrite Hid|]; reflexivity.
Qed.

(** X19.  The handlers of the API keep the ids of [payments] apart: when
    every id lies below the sequence and no two rows share an id, the same
    holds after [createPaymentHandler], which draws the id of its row from
    the sequence, and after [robokassaCallbackHandler], which changes no
    id. *)
Theorem payment_ids_stay_drawn
    (fmt_g : float64 -> string) (rk : Api.PaymentConfig) (db : DB)
    (env : Api.Env) (r : Request Api.PaymentRequest) (cb : Request unit) :
  payment_ids_drawn db ->
  payment_ids_drawn (snd (Api.createPaymentHandler fmt_g rk db env r))
  /\ payment_ids_drawn (snd (Api.robokassaCallbackHandler rk db env cb)).
Proof.
  intros [Hbelow Hnodup]. split.
  - destruct (createPaymentHandler_outcome fmt_g rk db env r)
      as [-> | [userID [amount ->]]]; [split; assumption|].
    unfold payment_ids_drawn, Api.insert_payment_returning_id.
    cbn [snd tables seqs payments set_payments payments_id_seq next_payments_id].
    split.
    + apply Forall_app. split.
      * apply Forall_impl with (2 := Hbelow). intros p Hp. lia.
      * constructor; [cbn [pay_id]; lia | constructor].
    + rewrite map_app. cbn [map pay_id]. apply NoDup_snoc; [exact Hnodup|].
      intros Hin. apply in_map_iff in Hin. destruct Hin as [p [Hid Hp]].
      rewrite Forall_forall in Hbelow. apply Hbelow in Hp. lia.
  - destruct (callback_outcome rk db env cb) as [-> | [paymentID ->]];
      [split; assumption|].
    unfold payment_ids_drawn. cbn [tables seqs].
    match goal with
    | |- context [UPDATE_payments ?ts ?w ?s ?t] =>
        destruct (UPDATE_payments_keeps
                    (fun p => pay_id p < payments_id_seq (seqs db))
                    (fun _ => True) ts w s t) as [H1 _]
    end; try assumption; try (intros; exact I).
    { intros p Hp. exact Hp. }
    { apply Forall_forall. intros o _. exact I. }
    split; [exact H1|].
    unfold UPDATE_payments. cbn [fst payments set_orders set_payments].
    rewrite map_pay_id_update; [exact Hnodup | reflexivity].
Qed.

Lemma payment_ids_stay_drawn_witness :
  payment_ids_drawn
    (snd (Api.createPaymentHandler fmt_100 shop created_db
            (api_env 2000 "0123456789abcdef") payment_request_100))
  /\ payment_ids_drawn
       (snd (Api.robokassaCallbackHandler shop created_db
               (api_env 2000 "0123456789abcdef") (echo_callback 1))).
Proof.
  apply (payment_ids_stay_drawn fmt_100 shop created_db
           (api_env 2000 "0123456789abcdef") payment_request_100 (echo_callback 1)).
  split.
  - constructor; [vm_compute; reflexivity | constructor].
  - constructor; [intros [] | constructor].
Defined.

(** ** Api keys *)

Lemma hex_byte_shape (c : ascii) :
  exists a b,
    hex_byte c = String a (String b EmptyString)
    /\ is_lower_hex a = true /\ is_lower_hex b = true.
Proof.
  destruct c as [b0 b1 b2 b3 b4 b5 b6 b7].
  destruct b0, b1, b2, b3, b4, b5, b6, b7;
    eexists; eexists; (split; [reflexivity | split; reflexivity]).
Qed.

Lemma hex_is_lower_hex (b : string) :
  String.length (hex b) = (2 * String.length b)%nat
  /\ Forall (fun c => is_lower_hex c = true) (list_ascii_of_string (hex b)).
Proof.
  induction b as [|c b [IHlen IHall]]; [split; [reflexivity | constructor]|].
  cbn [hex]. destruct (hex_byte_shape c) as [x [y [-> [Hx Hy]]]].
  cbn [append String.length list_ascii_of_string]. rewrite IHlen.
  split; [lia|]. constructor; [exact Hx|]. constructor; [exact Hy | exact IHall].
Qed.

(** X20.  An api key is the random bytes in lowercase hexadecimal, two
    characters for a byte: from the key the bytes can be read back, so two
    draws that differ give two keys that differ, and the sixteen bytes that
    the handlers draw give a key of 32 characters.  When [crypto/rand]
    fails, [generateAPIKey] returns the empty key. *)
Theorem generateAPIKey_is_hex (env : Api.Env) (random : string) :
  (forall b, Api.rand_Read env = Ok b ->
      String.length (Api.generateAPIKey env) = (2 * String.length b)%nat
      /\ Forall (fun c => is_lower_hex c = true)
                (list_ascii_of_string (Api.generateAPIKey env))
      /\ unhex (Api.generateAPIKey env) = b)
  /\ (forall e, Api.rand_Read env = Err e -> Api.generateAPIKey env = "")
  /\ String.length (Store.generateRandomAPIKey random)
     = (2 * String.length random)%nat
  /\ Forall (fun c => is_lower_hex c = true)
            (list_ascii_of_string (Store.generateRandomAPIKey random))
  /\ unhex (Store.generateRandomAPIKey random) = random.
Proof.
  unfold Api.generateAPIKey, Store.generateRandomAPIKey.
  split; [|split].
  - intros b ->. destruct (hex_is_lower_hex b) as [Hlen Hall].
    split; [exact Hlen|]. split; [exact Hall | apply unhex_hex].
  - intros e ->. reflexivity.
  - destruct (hex_is_lower_hex random) as [Hlen Hall].
    split; [exact Hlen|]. split; [exact Hall | apply unhex_hex].
Qed.

Lemma generateAPIKey_is_hex_witness :
  String.length (Api.generateAPIKey (api_env 1000 "0123456789abcdef")) = 32%nat
  /\ Api.generateAPIKey (api_env 1000 "0123456789abcdef")
     = "30313233343536373839616263646566".
Proof.
  destruct (generateAPIKey_is_hex (api_env 1000 "0123456789abcdef") "")
    as [Hkey _].
  destruct (Hkey "0123456789abcdef" eq_refl) as [Hlen _].
  split; [exact Hlen | reflexivity].
Defined.

(** ** The transactional service *)

(** X21.  [handlePayment] leaves no payment behind, whatever the request:
    the tables are afterwards what they were, nothing is committed and the
    answer is never 200.  For a request that passes every check (a known
    user, an order that exists, a positive amount, a database that works),
    the row is inserted, [Scan] cannot read its NULL [transaction_id] into a
    Go string, the transaction is rolled back and the answer is 500; the id
    drawn for the row is lost. *)
Theorem handlePayment_stores_nothing
    (fault : nat -> bool) (db_now : timestamp) (fmt_g : float64 -> string)
    (r : Request Store.PaymentBody) (db : DB) :
  (let '(resp, db', evs) :=
     Store.serve (Store.handlePayment fault db_now fmt_g r) db in
   tables db' = tables db /\ StatusCode resp <> StatusOK
   /\ ~ In Store.EvCommit evs)
  /\
  (forall (q : Store.PaymentBody) (u : UserRow),
      Body r = Ok q ->
      (forall n, fault n = false) ->
      find (fun u => user_telegram_id u =? Store.pb_TelegramID q)
           (users (tables db)) = Some u ->
      user_id u <> 0 ->
      existsb (fun o => ord_id o =? Store.pb_OrderID q) (orders (tables db)) = true ->
      f64_ltb f64_zero (Store.pb_Amount q) = true ->
      Store.serve (Store.handlePayment fault db_now fmt_g r) db
      = (Store.respondJSON StatusInternalServerError
           [("message", JString "Ошибка создания платежа");
            ("status", JString "error")],
         {| tables := tables db; seqs := next_payments_id (seqs db) |},
         [Store.EvBegin;
          Store.EvStatement "SELECT id FROM users WHERE telegram_id = $1";
          Store.EvStatement "INSERT INTO payments";
          Store.EvRollback])).
Proof.
  split.
  - unfold Store.handlePayment. destruct (Body r) as [q|e]; run_conn.
    2: { split; [reflexivity|]. split; [discriminate | intros []]. }
    destruct db as [t s].
    destruct (fault 0%nat); cbn;
      [split; [reflexivity|]; split; [discriminate | intros []]|].
    destruct (fault 1%nat); cbn;
      [split; [reflexivity|]; split; [discriminate | intuition discriminate]|].
    unfold Store.select_user_id.
    destruct (find _ (users t)) as [u|]; cbn;
      [|split; [reflexivity|]; split; [discriminate | intuition discriminate]].
    destruct (user_id u =? 0); cbn;
      [split; [reflexivity|]; split; [discriminate | intuition discriminate]|].
    destruct (fault 2%nat); cbn;
      [split; [reflexivity|]; split; [discriminate | intuition discriminate]|].
    unfold Store.insert_payment.
    destruct (existsb _ _ && _ && _); cbn;
      (split; [reflexivity|]; split; [discriminate | intuition discriminate]).
  - intros q u Hbody Hfault Hfind Hid Horder Hamount.
    unfold Store.handlePayment. rewrite Hbody. run_conn.
    destruct db as [t s]. cbn [tables seqs] in *.
    rewrite (Hfault 0%nat). cbn. rewrite (Hfault 1%nat). cbn.
    unfold Store.select_user_id. rewrite Hfind. cbn.
    apply Z.eqb_neq in Hid. rewrite Hid. cbn. rewrite (Hfault 2%nat). cbn.
    unfold Store.insert_payment. cbn [Models.payment_OrderID Models.payment_Amount
                                      Models.payment_Status].
    rewrite Horder, Hamount. cbn. reflexivity.
Qed.

Lemma handlePayment_stores_nothing_witness :
  Store.serve
    (Store.handlePayment no_fault 1000 fmt_100 (store_payment_request 987654321 7))
    two_users_db
  = (Store.respondJSON StatusInternalServerError
       [("message", JString "Ошибка создания платежа");
        ("status", JString "error")],
     {| tables := tables two_users_db;
        seqs := next_payments_id (seqs two_users_db) |},
     [Store.EvBegin;
      Store.EvStatement "SELECT id FROM users WHERE telegram_id = $1";
      Store.EvStatement "INSERT INTO payments";
      Store.EvRollback]).
Proof.
  destruct (handlePayment_stores_nothing no_fault 1000 fmt_100
              (store_payment_request 987654321 7) two_users_db) as [_ Hvalid].
  apply (Hvalid
           {| Store.pb_TelegramID := 987654321; Store.pb_Amount := f64_of_int 100;
              Store.pb_OrderID := 7 |}
           (user_row 2 987654321 "k2")).
  - reflexivity.
  - reflexivity.
  - reflexivity.
  - discriminate.
  - reflexivity.
  - vm_compute. reflexivity.
Defined.

(** X22.  [handleKIZRequest] answers a request whose telegram id belongs to
    no user with 401 "Пользователь не найден": the transaction it began for
    the lookup is rolled back and nothing is drawn from a sequence. *)
Theorem handleKIZRequest_unknown_user
    (fault : nat -> bool) (db_now : timestamp)
    (ext : list Store.GTINData -> string -> list string * option string)
    (r : Request Store.KIZRequestBody) (q : Store.KIZRequestBody) (db : DB) :
  Body r = Ok q ->
  fault 0%nat = false ->
  fault 1%nat = false ->
  (forall u, In u (users (tables db)) ->
             user_telegram_id u <> Store.kiz_TelegramID q) ->
  Store.serve (Store.handleKIZRequest fault db_now ext r) db
  = (Store.respondError StatusUnauthorized "Пользователь не найден", db,
     [Store.EvBegin;
      Store.EvStatement "SELECT id FROM users WHERE telegram_id = $1";
      Store.EvRollback]).
Proof.
  intros Hbody Hf0 Hf1 Hnone. unfold Store.handleKIZRequest. rewrite Hbody.
  run_conn. destruct db as [t s]. cbn [tables] in Hnone.
  rewrite Hf0. cbn. rewrite Hf1. cbn.
  unfold Store.select_user_id. rewrite (select_by_telegram_none _ _ Hnone).
  cbn. reflexivity.
Qed.

Lemma handleKIZRequest_unknown_user_witness :
  Store.serve
    (Store.handleKIZRequest no_fault 1000 Store.requestKIZFromExternalAPI_stub
       (code_request [two_units]))
    empty_db
  = (Store.respondError StatusUnauthorized "Пользователь не найден", empty_db,
     [Store.EvBegin;
      Store.EvStatement "SELECT id FROM users WHERE telegram_id = $1";
      Store.EvRollback]).
Proof.
  apply (handleKIZRequest_unknown_user no_fault 1000
           Store.requestKIZFromExternalAPI_stub (code_request [two_units])
           {| Store.kiz_TelegramID := 123456789; Store.kiz_GTINs := [two_units];
              Store.kiz_INN := "7707083893" |} empty_db).
  - reflexivity.
  - reflexivity.
  - reflexivity.
  - intros u [].
Defined.

Lemma item_fits_ascii_14 (g : Store.GTINData) :
  ascii_text (Store.GTIN g) = true ->
  String.length (Store.GTIN g) = 14%nat ->
  0 < Store.Count g <= 2147483647 ->
  Store.order_item_fits (Spec.item_of g) = true.
Proof.
  intros Hascii Hlen [Hpos Hmax].
  destruct (varchar_14_ascii _ Hascii Hlen) as [Hvarchar _].
  unfold Store.order_item_fits, Store.order_item_values, Store.LENGTH_gtin.
  cbn [Spec.item_of Models.item_GTIN Models.item_Quantity Models.item_Price].
  rewrite Hvarchar, length_map, length_list_ascii, Hlen.
  replace (decimal_10_2 (f64_of_int 100)) with true by (vm_compute; reflexivity).
  replace (decimal_not_negative (f64_of_int 100)) with true
    by (vm_compute; reflexivity).
  replace (0 <? Store.Count g) with true by (symmetry; apply Z.ltb_lt; exact Hpos).
  replace (int4 (Store.Count g)) with true; [reflexivity|].
  symmetry. unfold int4. apply Bool.andb_true_iff. split; apply Z.leb_le; lia.
Qed.

Lemma item_does_not_fit (g : Store.GTINData) :
  Store.Count g <= 0
  \/ 2147483647 < Store.Count g
  \/ (String.length (Store.GTIN g) < 14)%nat ->
  Store.order_item_fits (Spec.item_of g) = false.
Proof.
  intros [Hq | [Hq | Hlen]].
  - apply nonpositive_quantity_does_not_fit, Hq.
  - unfold Store.order_item_fits, Store.order_item_values.
    cbn [Spec.item_of Models.item_Quantity].
    replace (int4 (Store.Count g)) with false.
    + rewrite Bool.andb_false_r. reflexivity.
    + symmetry. unfold int4. apply Bool.andb_false_iff. right.
      apply Z.leb_gt. exact Hq.
  - unfold Store.order_item_fits, Store.order_item_values, Store.LENGTH_gtin.
    cbn [Spec.item_of Models.item_GTIN].
    destruct (varchar 14 (Store.GTIN g)) as [chars|] eqn:Hv; [|reflexivity].
    pose proof (varchar_14_short _ _ Hlen Hv) as Hshort.
    replace (List.length chars =? 14)%nat with false
      by (symmetry; apply Nat.eqb_neq; lia).
    rewrite Bool.andb_false_r. reflexivity.
Qed.

(** X23.  On the tables of DATABASE.sql, [handleKIZRequest] stores no order
    for a request without product codes, nor for one that names a quantity
    of zero or less, a quantity above 2147483647 (the column is an INT) or
    a product code of fewer than 14 bytes (hence of fewer than 14
    characters): the header of such an order or one of its items is
    refused, the transaction is rolled back, the answer is not 201 and the
    external API is not called. *)
Theorem handleKIZRequest_rejects_invalid_items
    (fault : nat -> bool) (db_now : timestamp)
    (ext : list Store.GTINData -> string -> list string * option string)
    (r : Request Store.KIZRequestBody) (q : Store.KIZRequestBody) (db : DB) :
  Body r = Ok q ->
  (Store.kiz_GTINs q = []
   \/ exists g, In g (Store.kiz_GTINs q)
                /\ (Store.Count g <= 0
                    \/ 2147483647 < Store.Count g
                    \/ (String.length (Store.GTIN g) < 14)%nat)) ->
  let '(resp, db', evs) :=
    Store.serve (Store.handleKIZRequest fault db_now ext r) db in
  StatusCode resp <> StatusCreated
  /\ tables db' = tables db
  /\ ~ In Store.EvCommit evs
  /\ ~ In Store.EvExternalAPI evs.
Proof.
  intros Hbody Hbad.
  apply (handleKIZRequest_refused fault db_now ext r q db Hbody).
  destruct Hbad as [Hnil | [g [Hg Hb]]]; [left; exact Hnil | right].
  exists g. split; [exact Hg | apply item_does_not_fit, Hb].
Qed.

Lemma handleKIZRequest_rejects_invalid_items_witness :
  let '(resp, db', evs) :=
    Store.serve
      (Store.handleKIZRequest no_fault 1000 Store.requestKIZFromExternalAPI_stub
         (code_request [two_units; short_code]))
      one_user_db in
  StatusCode resp <> StatusCreated
  /\ tables db' = tables one_user_db
  /\ ~ In Store.EvCommit evs
  /\ ~ In Store.EvExternalAPI evs.
Proof.
  apply (handleKIZRequest_rejects_invalid_items no_fault 1000
           Store.requestKIZFromExternalAPI_stub
           (code_request [two_units; short_code])
           {| Store.kiz_TelegramID := 123456789;
              Store.kiz_GTINs := [two_units; short_code];
              Store.kiz_INN := "7707083893" |} one_user_db).
  - reflexivity.
  - right. exists short_code. split; [right; left; reflexivity|].
    right. right. cbn. lia.
Defined.

(** X24.  On the tables of DATABASE.sql, [handleKIZRequest] creates the
    order of a user it knows when the database works, every product code is
    a text of 14 ASCII characters, every quantity lies between 1 and
    2147483647 and the total is one that [total_amount DECIMAL(10, 2)] with
    its check takes (it rounds to a value between 0.01 and 99999999.99):
    the answer is 201 with the id drawn for the order and with the codes of
    the external API, and the header, with the id of this user, and one row
    for every item are in the tables.  The error of the external API, if
    any, does not show in the answer. *)
Theorem handleKIZRequest_creates_order
    (fault : nat -> bool) (db_now : timestamp)
    (ext : list Store.GTINData -> string -> list string * option string)
    (r : Request Store.KIZRequestBody) (q : Store.KIZRequestBody) (db : DB)
    (u : UserRow) :
  Body r = Ok q ->
  (forall n, fault n = false) ->
  find (fun u => user_telegram_id u =? Store.kiz_TelegramID q) (users (tables db))
    = Some u ->
  user_id u <> 0 ->
  Forall (fun g => ascii_text (Store.GTIN g) = true
                   /\ String.length (Store.GTIN g) = 14%nat
                   /\ 0 < Store.Count g <= 2147483647)
         (Store.kiz_GTINs q) ->
  decimal_10_2 (Spec.sum_quantity_price (map Spec.item_of (Store.kiz_GTINs q)))
    = true ->
  decimal_positive (Spec.sum_quantity_price (map Spec.item_of (Store.kiz_GTINs q)))
    = true ->
  exists db' evs,
    Store.serve (Store.handleKIZRequest fault db_now ext r) db
    = (Store.respondJSON StatusCreated
         [("kizs", JStrings (fst (ext (Store.kiz_GTINs q) (Store.kiz_INN q))));
          ("order_id", JNumber (orders_id_seq (seqs db)));
          ("status", JString "created")], db', evs)
    /\ In (Spec.order_header (orders_id_seq (seqs db)) (user_id u)
             (Spec.sum_quantity_price (map Spec.item_of (Store.kiz_GTINs q)))
             db_now)
          (orders (tables db'))
    /\ (forall g, In g (Store.kiz_GTINs q) ->
          exists row, In row (order_items (tables db'))
                      /\ oi_order_id row = orders_id_seq (seqs db)
                      /\ oi_gtin row = Store.GTIN g
                      /\ oi_quantity row = Store.Count g)
    /\ List.length (order_items (tables db'))
       = (List.length (order_items (tables db))
          + List.length (Store.kiz_GTINs q))%nat
    /\ In Store.EvCommit evs.
Proof.
  intros Hbody Hfault Hfind Hid Hgtins Hfits Htotal.
  assert (Hitems : Forall (fun g => Store.order_item_fits (Spec.item_of g) = true)
                          (Store.kiz_GTINs q)).
  { apply Forall_impl with (2 := Hgtins). intros g [Ha [Hl Hq]].
    apply item_fits_ascii_14; assumption. }
  destruct (handleKIZRequest_success fault db_now ext r q db u
              Hbody Hfault Hfind Hid Hitems Hfits Htotal)
    as [db' [evs [Hrun Htables]]].
  exists db', evs. split; [exact Hrun|]. rewrite Htables.
  cbn [orders order_items set_orders set_order_items].
  split; [apply in_or_app; right; left; reflexivity|].
  assert (Hrows : forall items id,
            (forall it, In it items ->
               exists row, In row (Spec.item_rows id (orders_id_seq (seqs db)) items)
                           /\ oi_order_id row = orders_id_seq (seqs db)
                           /\ oi_gtin row = kept_varchar 14 (Models.item_GTIN it)
                           /\ oi_quantity row = Models.item_Quantity it)
            /\ List.length (Spec.item_rows id (orders_id_seq (seqs db)) items)
               = List.length items).
  { induction items as [|it items IH]; intros id.
    - split; [intros it [] | reflexivity].
    - destruct (IH (id + 1)) as [IHrows IHlen]. cbn [Spec.item_rows List.length].
      split; [|rewrite IHlen; reflexivity].
      intros it' [<- | Hin].
      + eexists. split; [left; reflexivity|]. repeat split; reflexivity.
      + destruct (IHrows it' Hin) as [row [Hrow Hfields]].
        exists row. split; [right; exact Hrow | exact Hfields]. }
  destruct (Hrows (map Spec.item_of (Store.kiz_GTINs q))
              (order_items_id_seq (seqs db))) as [Hall Hlen].
  split; [|split].
  - intros g Hg.
    destruct (Hall (Spec.item_of g) (in_map _ _ _ Hg))
      as [row [Hrow [Horder [Hgtin Hquantity]]]].
    exists row. split; [apply in_or_app; right; exact Hrow|].
    split; [exact Horder|]. split; [|exact Hquantity].
    rewrite Hgtin. cbn [Spec.item_of Models.item_GTIN].
    rewrite Forall_forall in Hgtins. destruct (Hgtins g Hg) as [Ha [Hl _]].
    apply (varchar_14_ascii _ Ha Hl).
  - rewrite length_app, Hlen, length_map. reflexivity.
  - pose proof (handleKIZRequest_outcome fault db_now ext r db) as Hout.
    rewrite Hrun in Hout.
    destruct Hout as [[Hstatus _] | [_ [_ [pre [_ [_ [Hevs _]]]]]]].
    + exfalso. apply Hstatus. reflexivity.
    + rewrite Hevs. apply in_or_app. right. left. reflexivity.
Qed.

Lemma handleKIZRequest_creates_order_witness :
  exists db' evs,
    Store.serve
      (Store.handleKIZRequest no_fault 1000 api_unavailable
         (code_request [two_units]))
      one_user_db
    = (Store.respondJSON StatusCreated
         [("kizs", JStrings []); ("order_id", JNumber 1);
          ("status", JString "created")], db', evs)
    /\ In (Spec.order_header 1 1
             (Spec.sum_quantity_price (map Spec.item_of [two_units])) 1000)
          (orders (tables db'))
    /\ (forall g, In g [two_units] ->
          exists row, In row (order_items (tables db'))
                      /\ oi_order_id row = 1
                      /\ oi_gtin row = Store.GTIN g
                      /\ oi_quantity row = Store.Count g)
    /\ List.length (order_items (tables db')) = 1%nat
    /\ In Store.EvCommit evs.
Proof.
  apply (handleKIZRequest_creates_order no_fault 1000 api_unavailable
           (code_request [two_units])
           {| Store.kiz_TelegramID := 123456789; Store.kiz_GTINs := [two_units];
              Store.kiz_INN := "7707083893" |}
           one_user_db (user_row 1 123456789 "k1")).
  - reflexivity.
  - reflexivity.
  - reflexivity.
  - discriminate.
  - constructor; [|constructor].
    split; [reflexivity|]. split; [reflexivity|]. cbn. lia.
  - vm_compute. reflexivity.
  - vm_compute. reflexivity.
Defined.

Lemma handleUserRegistration_created
    (fault : nat -> bool) (db_now time_Now : Z) (random : string)
    (r : Request Store.RegistrationBody) (db db1 : DB) (resp : Response)
    (evs : list Store.Event) :
  Store.serve (Store.handleUserRegistration fault db_now time_Now random r) db
    = (resp, db1, evs) ->
  StatusCode resp = StatusCreated ->
  exists q,
    Body r = Ok q
    /\ resp = Store.respondJSON StatusCreated
                [("api_key", JString (hex random));
                 ("message", JString "Пользователь успешно зарегистрирован");
                 ("user_id", JNumber (users_id_seq (seqs db)))]
    /\ (forall v, In v (users (tables db)) ->
                  user_telegram_id v <> Store.rb_TelegramID q)
    /\ users (tables db1)
       = (users (tables db) ++
          [{| user_id := users_id_seq (seqs db);
              user_names :=
                Some {| first_name := Store.rb_FirstName q;
                        last_name := Store.rb_LastName q;
                        middle_name := Store.rb_MiddleName q;
                        username := Store.rb_Username q |};
              user_telegram_id := Store.rb_TelegramID q;
              user_inn := Store.rb_INN q; user_email := Store.rb_Email q;
              user_created_at := db_now; user_last_active := db_now;
              user_api_key := Some (hex random) |}])%list
    /\ evs = [Store.EvBegin; Store.EvStatement "INSERT INTO users"; Store.EvCommit].
Proof.
  unfold Store.handleUserRegistration.
  destruct (negb (String.eqb (Method r) MethodPost)); run_conn.
  { intros H Hok. injection H as <- _ _. discriminate Hok. }
  destruct (Body r) as [q|e]; run_conn.
  2: { intros H Hok. injection H as <- _ _. discriminate Hok. }
  destruct ((Store.rb_TelegramID q <=? 0) || is_empty (Store.rb_INN q)); run_conn.
  { intros H Hok. injection H as <- _ _. discriminate Hok. }
  unfold Store.createUserTx. run_conn. destruct db as [t s].
  destruct (fault 0%nat); cbn.
  { intros H Hok. injection H as <- _ _. discriminate Hok. }
  destruct (fault 1%nat); cbn.
  { intros H Hok. injection H as <- _ _. discriminate Hok. }
  unfold Store.insert_user, Store.generateRandomAPIKey.
  cbn [Models.user_TelegramID Models.user_APIKey].
  destruct (existsb _ (users t)) eqn:Hdup; cbn.
  { intros H Hok. injection H as <- _ _. discriminate Hok. }
  destruct (fault 2%nat); cbn.
  { intros H Hok. injection H as <- _ _. discriminate Hok. }
  intros H _. injection H as <- <- <-. exists q.
  split; [reflexivity|]. split; [reflexivity|]. split; [|split; reflexivity].
  intros v Hv. pose proof (existsb_false_all _ _ Hdup v Hv) as Hmiss.
  cbn beta in Hmiss. apply Bool.orb_false_elim in Hmiss.
  apply Z.eqb_neq. apply Hmiss.
Qed.

(** X25.  A user whom [handleUserRegistration] has registered can order:
    [handleKIZRequest] finds the user by the telegram id of the
    registration, and the order it creates, for product codes, quantities
    and a total that the tables of DATABASE.sql take, belongs to the user
    id that the registration answered with. *)
Theorem registered_user_can_order
    (fault fault' : nat -> bool) (db_now db_now' time_Now : Z) (random : string)
    (ext : list Store.GTINData -> string -> list string * option string)
    (r : Request Store.RegistrationBody) (r' : Request Store.KIZRequestBody)
    (q' : Store.KIZRequestBody) (db db1 : DB) (resp : Response)
    (evs : list Store.Event) :
  Store.serve (Store.handleUserRegistration fault db_now time_Now random r) db
    = (resp, db1, evs) ->
  StatusCode resp = StatusCreated ->
  users_id_seq (seqs db) <> 0 ->
  Body r' = Ok q' ->
  (forall q, Body r = Ok q -> Store.kiz_TelegramID q' = Store.rb_TelegramID q) ->
  (forall n, fault' n = false) ->
  Forall (fun g => ascii_text (Store.GTIN g) = true
                   /\ String.length (Store.GTIN g) = 14%nat
                   /\ 0 < Store.Count g <= 2147483647)
         (Store.kiz_GTINs q') ->
  decimal_10_2 (Spec.sum_quantity_price (map Spec.item_of (Store.kiz_GTINs q')))
    = true ->
  decimal_positive (Spec.sum_quantity_price (map Spec.item_of (Store.kiz_GTINs q')))
    = true ->
  resp = Store.respondJSON StatusCreated
           [("api_key", JString (hex random));
            ("message", JString "Пользователь успешно зарегистрирован");
            ("user_id", JNumber (users_id_seq (seqs db)))]
  /\ exists db2 evs',
       Store.serve (Store.handleKIZRequest fault' db_now' ext r') db1
       = (Store.respondJSON StatusCreated
            [("kizs", JStrings (fst (ext (Store.kiz_GTINs q') (Store.kiz_INN q'))));
             ("order_id", JNumber (orders_id_seq (seqs db1)));
             ("status", JString "created")], db2, evs')
       /\ In (Spec.order_header (orders_id_seq (seqs db1)) (users_id_seq (seqs db))
                (Spec.sum_quantity_price
                   (map Spec.item_of (Store.kiz_GTINs q')))
                db_now')
             (orders (tables db2)).
Proof.
  intros Hreg Hok Hseq Hbody Htid Hfault Hgtins Hfits Htotal.
  destruct (handleUserRegistration_created _ _ _ _ _ _ _ _ _ Hreg Hok)
    as [q [Hq [Hresp [Hnew [Husers _]]]]].
  split; [exact Hresp|].
  assert (Hfind :
    find (fun u => user_telegram_id u =? Store.kiz_TelegramID q')
         (users (tables db1))
    = Some {| user_id := users_id_seq (seqs db);
              user_names :=
                Some {| first_name := Store.rb_FirstName q;
                        last_name := Store.rb_LastName q;
                        middle_name := Store.rb_MiddleName q;
                        username := Store.rb_Username q |};
              user_telegram_id := Store.rb_TelegramID q;
              user_inn := Store.rb_INN q; user_email := Store.rb_Email q;
              user_created_at := db_now; user_last_active := db_now;
              user_api_key := Some (hex random) |}).
  { rewrite Husers, (Htid q Hq). apply find_first.
    - intros v Hv. apply Z.eqb_neq. apply Hnew. exact Hv.
    - apply Z.eqb_refl. }
  assert (Hitems : Forall (fun g => Store.order_item_fits (Spec.item_of g) = true)
                          (Store.kiz_GTINs q')).
  { apply Forall_impl with (2 := Hgtins). intros g [Ha [Hl Hq']].
    apply item_fits_ascii_14; assumption. }
  destruct (handleKIZRequest_success fault' db_now' ext r' q' db1 _
              Hbody Hfault Hfind Hseq Hitems Hfits Htotal)
    as [db2 [evs' [Hrun Htables]]].
  exists db2, evs'. split; [exact Hrun|]. rewrite Htables.
  cbn [orders set_orders set_order_items user_id].
  apply in_or_app. right. left. reflexivity.
Qed.

Lemma registered_user_can_order_witness :
  exists db2 evs',
    Store.serve
      (Store.handleKIZRequest no_fault 2000 Store.requestKIZFromExternalAPI_stub
         (code_request [two_units]))
      store_registered_db
    = (Store.respondJSON StatusCreated
         [("kizs", JStrings ["KIZ123456"; "KIZ789012"]);
          ("order_id", JNumber 1); ("status", JString "created")], db2, evs')
    /\ In (Spec.order_header 1 1
             (Spec.sum_quantity_price (map Spec.item_of [two_units])) 2000)
          (orders (tables db2)).
Proof.
  destruct (registered_user_can_order no_fault no_fault 1000 2000 1000
              "0123456789abcdef" Store.requestKIZFromExternalAPI_stub
              store_registration (code_request [two_units])
              {| Store.kiz_TelegramID := 123456789; Store.kiz_GTINs := [two_units];
                 Store.kiz_INN := "7707083893" |}
              empty_db store_registered_db
              (fst (fst (Store.serve
                           (Store.handleUserRegistration no_fault 1000 1000
                              "0123456789abcdef" store_registration) empty_db)))
              (snd (Store.serve
                      (Store.handleUserRegistration no_fault 1000 1000
                         "0123456789abcdef" store_registration) empty_db)))
    as [_ H].
  - reflexivity.
  - reflexivity.
  - discriminate.
  - reflexivity.
  - intros q Hq. injection Hq as <-. reflexivity.
  - reflexivity.
  - constructor; [|constructor].
    split; [reflexivity|]. split; [reflexivity|]. cbn. lia.
  - vm_compute. reflexivity.
  - vm_compute. reflexivity.
  - exact H.
Defined.

(** ** Totals and acknowledgements *)

(** X27.  [Order.CalculateTotal] counts the items whose unit price is above
    zero and passes over every other item (a price of zero, a negative
    price, a price that is not a number): the total is the sum of quantity
    times price over the items with a positive price, in their order. *)
Theorem CalculateTotal_skips_unpriced_items (o : Models.Order) :
  Models.Order_CalculateTotal o
  = Spec.sum_quantity_price
      (filter (fun it => f64_ltb f64_zero (Models.item_Price it))
              (Models.order_Items o)).
Proof.
  unfold Models.Order_CalculateTotal, Spec.sum_quantity_price.
  generalize (Models.order_Items o) as items. intros items.
  generalize f64_zero at 2 4 as total. 
  induction items as [|it items IH]; intros total; [reflexivity|].
  cbn [fold_left filter].
  destruct (f64_ltb f64_zero (Models.item_Price it)); cbn [fold_left]; apply IH.
Qed.

Lemma tables_eta (t : Tables) :
  set_orders (set_payments t (payments t)) (orders t) = t.
Proof. destruct t. reflexivity. Qed.

(** X28.  [robokassaCallbackHandler] does not look at the number of rows
    that its UPDATE touched: a correctly signed callback for a payment id
    that no row has, or whose row is not "pending", is acknowledged with
    "OK" and the id like any other, and the database stays as it was. *)
Theorem callback_acknowledges_without_pending_payment
    (rk : Api.PaymentConfig) (db : DB) (env : Api.Env) (r : Request unit)
    (paymentID : Z) :
  (Method r = MethodPost \/ Method r = MethodGet) ->
  FormValue r "OutSum" <> "" ->
  FormValue r "SignatureValue"
    = Api.expectedSign rk (FormValue r "OutSum") (FormValue r "InvId") ->
  Atoi (FormValue r "InvId") = Ok paymentID ->
  Api.fault env 0 = false ->
  (forall p, In p (payments (tables db)) -> pay_id p = paymentID ->
             pay_status p <> "pending") ->
  Api.robokassaCallbackHandler rk db env r
  = (Write ("OK" ++ FormValue r "InvId"), db).
Proof.
  intros Hm Hout Hsig Hid Hfault Hnone.
  rewrite (callback_signed_runs rk db env r paymentID Hm Hout Hsig Hid Hfault).
  unfold Api.update_payment_completed.
  rewrite UPDATE_payments_none.
  - cbn [fst]. rewrite tables_eta. destruct db. reflexivity.
  - intros p Hp. destruct (pay_id p =? paymentID) eqn:Hpid; [|reflexivity].
    apply Z.eqb_eq in Hpid. cbn [andb]. apply String.eqb_neq.
    apply Hnone; assumption.
Qed.

Lemma callback_acknowledges_without_pending_payment_witness :
  Api.robokassaCallbackHandler shop one_user_db (api_env 1000 "0123456789abcdef")
    signed_callback
  = (Write ("OK" ++ FormValue signed_callback "InvId"), one_user_db).
Proof.
  apply (callback_acknowledges_without_pending_payment shop one_user_db
           (api_env 1000 "0123456789abcdef") signed_callback 1).
  - left. reflexivity.
  - discriminate.
  - reflexivity.
  - reflexivity.
  - reflexivity.
  - intros p [].
Defined.
